(** * syncer: the synchronization engine of [syncer.py]

    A shallow embedding of the planning code of [FileSynchronizer], of the
    resumable, retried transfer of [Downloader], of the control flow of
    [FileSynchronizer.sync] and of the loops of [ServerParser.get_files],
    followed by the properties of the specification that concern them and
    by further properties of the code.

    Conventions.
    - Python [int] is [Z]; byte strings are [list byte]; [str] is [string]
      (names are taken to be ASCII, so that [str.lower] acts on A-Z only).
    - A directory is a finite map from file name to file content.  The
      download directory and the directory of current files are two
      maps, and a file [name] of the listing is the entry [name] of the
      download directory: this is [os.path.join(download_dir, name)]
      for two distinct directories and a plain file name
      ([plain_name]: no separator, not empty, [.] or [..]).  A name
      with a separator can lead the code out of the download
      directory; properties about which files a download touches are
      stated for plain names.
    - The listing that [ServerParser.get_files] returns is an input of
      [sync] ([get_files] of the session).  The requests that produce
      it are modelled with [ServerParser] and are no part of the trace
      of a [sync] run: there the [EvRequest] events are the requests
      for files that [Downloader] sends.
    - The process-wide flag [terminate_requested], the two directories and
      the observable effects (requests, file opens and writes, sleeps, log
      records, prompts) live in one [world] that every operation threads.
    - The progress bar only prints, at a rate that depends on wall-clock
      time, and never changes control flow; it is left out.
    - Outside the model: failures of the local file system ([OSError]),
      header or configuration values that are not well-formed numbers or
      booleans ([ValueError]), exceptions that leave
      [ServerParser.get_files] inside [sync], and the HTML parsing of
      the listing, whose result is an input of [ServerParser.get_files]. *)

From Stdlib Require Import ZArith Ascii String List Bool Lia.
From Stdlib Require Import Decimal DecimalString DecimalNat.
From stdpp Require Import base gmap strings list.

Local Open Scope string_scope.
Local Open Scope Z_scope.

(** ** Python helpers *)

Module Py.

(** [str.lower] on ASCII text. *)
Definition lower_char (c : ascii) : ascii :=
  let n := N_of_ascii c in
  if ((65 <=? n) && (n <=? 90))%N then ascii_of_N (n + 32) else c.

Fixpoint lower (s : string) : string :=
  match s with
  | EmptyString => EmptyString
  | String c rest => String (lower_char c) (lower rest)
  end.

(** [s.endswith(suffix)] *)
Definition endswith (s suffix : string) : bool :=
  let ls := String.length s in
  let lf := String.length suffix in
  (lf <=? ls)%nat && String.eqb (substring (ls - lf) lf s) suffix.

(** Truthiness of a [str]: the empty string is false. *)
Definition truthy (s : string) : bool :=
  match s with EmptyString => false | _ => true end.

(** [len] of a byte string. *)
Definition len (b : list Byte.byte) : Z := Z.of_nat (length b).

(** [range(n)] *)
Definition range (n : Z) : list Z := map Z.of_nat (seq 0 (Z.to_nat n)).

End Py.

(** ** [FileInfo] *)

Module FileInfo.
Record t := mk { name : string; url : string; size : Z; last_modified : string }.
End FileInfo.

(** ** Exceptions

    The exceptions that leave the modelled code uncaught: [SystemExit]
    under a second interrupt ([sys.exit(1)] in [signal_handler]),
    [ZeroDivisionError] in [_download_files], [ValueError] from
    [time.sleep] of a negative delay, and what [re.compile] raises
    besides [re.error]: [OverflowError] for a repetition count that is
    too large, [RecursionError] for a pattern nested too deep. *)
Inductive compile_exn := OverflowError | RecursionError.

Inductive exn :=
| SystemExit
| ZeroDivisionError
| ValueError
| CompileError (e : compile_exn).

(** ** The regular-expression library

    [re.compile(pattern, flags)] yields a compiled pattern, raises
    [re.error] ([InvalidPattern]), or raises an exception that is no
    [re.error] ([CompileRaised]: [OverflowError] for a repetition count
    of 4294967295 or more, [RecursionError] for a pattern nested too
    deep); [regex.search(text)] says whether some substring of [text]
    matches.  The planner uses nothing else of [re], so it is verified
    against this interface. *)

Inductive re_flags := NOFLAG | IGNORECASE.

Inductive compile_result (P : Type) :=
| Compiled (regex : P)
| InvalidPattern
| CompileRaised (e : compile_exn).
Arguments Compiled {P} regex.
Arguments InvalidPattern {P}.
Arguments CompileRaised {P} e.

Class RegexEngine := {
  Pattern : Type;
  re_compile : string -> re_flags -> compile_result Pattern;
  re_search : Pattern -> string -> bool
}.

(** ** An executable engine for a fragment of [re]

    Enough of Python's pattern language to run the planner on concrete
    patterns: literal characters, [.], the postfix operators [*] [+] [?]
    (and their lazy forms, which accept the same texts), alternation [|],
    groups [( )] and backslash-escaped punctuation.  On this fragment
    [compile] fails exactly where [re.compile] raises [re.error]
    (unbalanced parenthesis, nothing to repeat, multiple repeat, trailing
    backslash), and a counted repeat whose count is 4294967295 or more is
    [Overflow], where [re.compile] raises [OverflowError].  Other syntax
    (classes, anchors, counted repeats below that bound, [(?...)] and
    alphanumeric escapes) is [Unsupported]; the engine instance refuses
    it, so the instance is meant for patterns of the fragment, with
    groups nested less deep than Python's recursion limit allows (past
    it [re.compile] raises [RecursionError], which the engine, having no
    such limit, never does). *)

Module PyRe.

Inductive regex :=
| Fail
| Eps
| Lit (c : ascii)
| Dot
| AnyChar
| Cat (r s : regex)
| Alt (r s : regex)
| Star (r : regex).

Fixpoint nullable (r : regex) : bool :=
  match r with
  | Fail | Lit _ | Dot | AnyChar => false
  | Eps | Star _ => true
  | Cat r s => nullable r && nullable s
  | Alt r s => nullable r || nullable s
  end.

Definition cat (r s : regex) : regex :=
  match r, s with
  | Fail, _ | _, Fail => Fail
  | Eps, _ => s
  | _, Eps => r
  | _, _ => Cat r s
  end.

Definition alt (r s : regex) : regex :=
  match r, s with
  | Fail, _ => s
  | _, Fail => r
  | _, _ => Alt r s
  end.

Definition newline : ascii := ascii_of_N 10.

Definition lit_matches (ic : bool) (c x : ascii) : bool :=
  if ic then Ascii.eqb (Py.lower_char c) (Py.lower_char x) else Ascii.eqb c x.

(** Brzozowski derivative of [r] by the character [x]. *)
Fixpoint deriv (ic : bool) (x : ascii) (r : regex) : regex :=
  match r with
  | Fail | Eps => Fail
  | Lit c => if lit_matches ic c x then Eps else Fail
  | Dot => if Ascii.eqb x newline then Fail else Eps
  | AnyChar => Eps
  | Cat r s =>
      if nullable r then alt (cat (deriv ic x r) s) (deriv ic x s)
      else cat (deriv ic x r) s
  | Alt r s => alt (deriv ic x r) (deriv ic x s)
  | Star r => cat (deriv ic x r) (Star r)
  end.

Fixpoint matches (ic : bool) (r : regex) (text : string) : bool :=
  match text with
  | EmptyString => nullable r
  | String x rest => matches ic (deriv ic x r) rest
  end.

(** [search]: some substring of the text matches. *)
Definition search (ic : bool) (r : regex) (text : string) : bool :=
  matches ic (Cat (Star AnyChar) (Cat r (Star AnyChar))) text.

(** *** Parsing *)

Inductive parse_result :=
| Parsed (r : regex)
| ReError
| Overflow
| Unsupported.

(** [MAXREPEAT] of the [re] module. *)
Definition MAXREPEAT : Z := 4294967295.

Definition is_digit (c : ascii) : bool :=
  let n := N_of_ascii c in ((48 <=? n) && (n <=? 57))%N.

(** The digits [cs] begins with, and what follows them. *)
Fixpoint span_digits (cs : list ascii) : list ascii * list ascii :=
  match cs with
  | c :: rest =>
      if is_digit c then let '(ds, tail) := span_digits rest in (c :: ds, tail)
      else ([], cs)
  | [] => ([], [])
  end.

(** [int] of a string of digits. *)
Definition number (ds : list ascii) : Z :=
  fold_left (fun acc d => 10 * acc + (Z.of_N (N_of_ascii d) - 48)) ds 0.

(** What follows an opening brace: [lo], then [hi] after a comma (or
    [lo] again without one), when a closing brace ends them; [None]
    where the brace is a literal character. *)
Definition counted_repeat (cs : list ascii) : option (list ascii * list ascii) :=
  match cs with
  | c :: _ =>
      if Ascii.eqb c "}" then None
      else
        let '(lo, after_lo) := span_digits cs in
        let '(hi, after_hi) :=
          match after_lo with
          | d :: tail => if Ascii.eqb d "," then span_digits tail else (lo, after_lo)
          | [] => (lo, after_lo)
          end in
        match after_hi with
        | d :: _ => if Ascii.eqb d "}" then Some (lo, hi) else None
        | [] => None
        end
  | [] => None
  end.

(** A count that [re.compile] refuses with [OverflowError]. *)
Definition too_large (ds : list ascii) : bool :=
  match ds with
  | [] => false
  | _ :: _ => MAXREPEAT <=? number ds
  end.

(** What precedes the cursor: nothing that can be repeated, an atom, a
    greedy repeat, or a lazy repeat. *)
Inductive prev := NoAtom | Atom | Greedy | Lazy.

Record frame := { done_alts : list regex; cur_seq : list regex }.

Definition empty_frame : frame := {| done_alts := []; cur_seq := [] |}.

(** [cur_seq] holds the atoms of the current branch, last one first. *)
Definition seq_regex (atoms : list regex) : regex :=
  fold_left (fun acc a => cat a acc) atoms Eps.

Definition close_frame (f : frame) : regex :=
  fold_left (fun acc a => Alt a acc) (done_alts f) (seq_regex (cur_seq f)).

Definition push_atom (a : regex) (f : frame) : frame :=
  {| done_alts := done_alts f; cur_seq := a :: cur_seq f |}.

Definition map_last (g : regex -> regex) (f : frame) : frame :=
  match cur_seq f with
  | a :: rest => {| done_alts := done_alts f; cur_seq := g a :: rest |}
  | [] => f
  end.

Definition is_alnum (c : ascii) : bool :=
  let n := N_of_ascii c in
  ((48 <=? n) && (n <=? 57) || (65 <=? n) && (n <=? 90) || (97 <=? n) && (n <=? 122))%N.

Fixpoint parse (cs : list ascii) (stack : list frame) (cur : frame) (p : prev)
  : parse_result :=
  match cs with
  | [] => match stack with [] => Parsed (close_frame cur) | _ :: _ => ReError end
  | c :: rest =>
      if Ascii.eqb c "\" then
        match rest with
        | [] => ReError
        | e :: rest' =>
            if is_alnum e then Unsupported
            else parse rest' stack (push_atom (Lit e) cur) Atom
        end
      else if Ascii.eqb c "(" then
        match rest with
        | e :: _ =>
            if Ascii.eqb e "?" then Unsupported
            else parse rest (cur :: stack) empty_frame NoAtom
        | [] => ReError
        end
      else if Ascii.eqb c ")" then
        match stack with
        | [] => ReError
        | parent :: stack' => parse rest stack' (push_atom (close_frame cur) parent) Atom
        end
      else if Ascii.eqb c "|" then
        parse rest stack
          {| done_alts := seq_regex (cur_seq cur) :: done_alts cur; cur_seq := [] |}
          NoAtom
      else if Ascii.eqb c "*" then
        match p with
        | Atom => parse rest stack (map_last Star cur) Greedy
        | _ => ReError
        end
      else if Ascii.eqb c "+" then
        match p with
        | NoAtom => ReError
        | Atom => parse rest stack (map_last (fun a => Cat a (Star a)) cur) Greedy
        | _ => Unsupported
        end
      else if Ascii.eqb c "?" then
        match p with
        | Atom => parse rest stack (map_last (fun a => Alt a Eps) cur) Greedy
        | Greedy => parse rest stack cur Lazy
        | _ => ReError
        end
      else if Ascii.eqb c "." then parse rest stack (push_atom Dot cur) Atom
      else if Ascii.eqb c "{" then
        match counted_repeat rest with
        | Some (lo, hi) => if too_large lo || too_large hi then Overflow else Unsupported
        | None => Unsupported
        end
      else if Ascii.eqb c "[" || Ascii.eqb c "^" || Ascii.eqb c "$"
      then Unsupported
      else parse rest stack (push_atom (Lit c) cur) Atom
  end.

Record compiled := { rx : regex; ignorecase : bool }.

Definition compile (pattern : string) (flags : re_flags) : compile_result compiled :=
  match parse (list_ascii_of_string pattern) [] empty_frame NoAtom with
  | Parsed r =>
      Compiled {| rx := r;
                  ignorecase := match flags with IGNORECASE => true | NOFLAG => false end |}
  | Overflow => CompileRaised OverflowError
  | ReError | Unsupported => InvalidPattern
  end.

Definition engine : RegexEngine := {|
  Pattern := compiled;
  re_compile := compile;
  re_search := fun p text => search (ignorecase p) (rx p) text
|}.

End PyRe.


(** ** The world: both directories, the termination flag and the trace *)

Inductive open_mode := WB | AB.

Inductive log_level := INFO | WARNING | ERROR.

(** The log lines, prints and prompts of the source, by their text. *)
Inductive message :=
| TerminationBeforeAttempt (name : string)
| ResumingFromByte (start_position : Z)
| RangeNotSupported
| DownloadInterrupted (name : string) (current_size : Z)
| SizeLessThanExpected (final_size total_size : Z)
| TerminationDuringErrorHandling (name : string)
| DownloadError (attempt max_retries : Z)
| RetryingFromByte (retry_delay current_size : Z)
| DownloadFailedAfter (max_retries : Z)
| TerminationRequestedBanner
| FilteringDisabledBanner
| EnableFilteringPrompt
| FilteringEnabledMatchAll
| FilteringRemainsDisabled
| Connecting
| TerminationAfterListing
| FailedToGetFileList
| FoundFiles (n : Z)
| FilteringIsDisabled
| FilteredOut (n : Z) (pattern : string)
| Matched (n : Z) (pattern : string)
| InvalidRegexPattern (pattern : string)
| RegexDisabledInvalidPattern
| TerminationAfterDetermining
| AllUpToDate
| DownloadSummary (files : list string) (total_size : Z)
| TerminationAfterSummary
| ContinuePrompt
| DownloadCancelledByUser
| FileOf (i n : Z)
| FileHeader (name : string) (existing_size : Z)
| TerminationStopping (success_count n : Z)
| FinalSummary.

Inductive event :=
| EvLog (level : log_level) (msg : message)
| EvPrint (msg : message)
| EvInput (prompt : message) (answer : string)
| EvRequest (url : string) (range_start : option Z)
| EvOpen (name : string) (mode : open_mode)
| EvWrite (name : string) (chunk : list Byte.byte)
| EvSleep (seconds : Z)
| EvSignal.

(** [trace] holds the most recent event first. *)
Record world := mkWorld {
  local_dir : gmap string (list Byte.byte);
  download_dir : gmap string (list Byte.byte);
  terminate_requested : bool;
  trace : list event
}.

Definition emit (e : event) (w : world) : world :=
  mkWorld (local_dir w) (download_dir w) (terminate_requested w) (e :: trace w).

Definition log (level : log_level) (msg : message) (w : world) : world :=
  emit (EvLog level msg) w.

(** [os.path.exists] and [os.path.getsize] on a file of the download
    directory. *)
Definition exists_ (name : string) (w : world) : bool :=
  bool_decide (is_Some (download_dir w !! name)).

Definition getsize (name : string) (w : world) : Z :=
  match download_dir w !! name with
  | Some content => Py.len content
  | None => 0
  end.

(** [signal_handler]: the first interrupt sets the flag; a second one
    exits the process ([None]). *)
Definition signal_handler (w : world) : option world :=
  if terminate_requested w then None
  else Some (mkWorld (local_dir w) (download_dir w) true
               (EvPrint TerminationRequestedBanner :: EvSignal :: trace w)).

(** How a call ends: it returns, or an exception that nothing catches
    leaves it. *)
Inductive outcome (A : Type) :=
| Returned (a : A) (w : world)
| Raised (e : exn) (w : world).
Arguments Returned {A} a w.
Arguments Raised {A} e w.

(** ** [FileSynchronizer]: the planner *)

Record filter_section := mkFilter {
  enabled : option bool;
  pattern : option string;
  case_sensitive : option bool
}.

(** [config.getboolean(..., fallback=b)] and [config.get(..., fallback=s)]:
    an option that is not set yields the fallback. *)
Definition get_fallback {A} (o : option A) (fallback : A) : A :=
  match o with Some v => v | None => fallback end.

Record partial_info := mkPartial { local_size : Z; server_size : Z }.

Record synchronizer := mkSync {
  config : filter_section;
  max_retries : Z;
  retry_delay : Z;
  downloaded_files : list string;
  failed_files : list string;
  filtered_files : list string;
  total_bytes_downloaded : Z
}.

Definition set_filtered (names : list string) (s : synchronizer) : synchronizer :=
  mkSync (config s) (max_retries s) (retry_delay s) (downloaded_files s)
    (failed_files s) names (total_bytes_downloaded s).

Module Planner.
Section WithEngine.
Context {E : RegexEngine}.

Definition listdir (d : gmap string (list Byte.byte)) : list string :=
  elements (dom d).

Definition extension_ok (file_extension file : string) : bool :=
  negb (Py.truthy file_extension)
  || Py.endswith (Py.lower file) (Py.lower file_extension).

Definition add_listing (file_extension : string) (local_files : gset string)
    (listing : list string) : gset string :=
  fold_left
    (fun acc file => if extension_ok file_extension file then {[file]} ∪ acc else acc)
    listing local_files.

Definition _get_local_files (w : world) (file_extension : string) : gset string :=
  add_listing file_extension
    (add_listing file_extension ∅ (listdir (local_dir w)))
    (listdir (download_dir w)).

(** One iteration of the loop of [_identify_partial_downloads]. *)
Definition record_partial (w : world) (partial_downloads : gmap string partial_info)
    (file : FileInfo.t) : gmap string partial_info :=
  match download_dir w !! FileInfo.name file with
  | Some content =>
      let local_size := Py.len content in
      if local_size <? FileInfo.size file
      then <[FileInfo.name file := mkPartial local_size (FileInfo.size file)]>
             partial_downloads
      else partial_downloads
  | None => partial_downloads
  end.

Definition _identify_partial_downloads (w : world) (server_files : list FileInfo.t)
  : gmap string partial_info :=
  fold_left (record_partial w) server_files ∅.

Definition is_candidate (local_files : gset string)
    (partial_downloads : gmap string partial_info) (file : FileInfo.t) : bool :=
  negb (bool_decide (FileInfo.name file ∈ local_files))
  || bool_decide (is_Some (partial_downloads !! FileInfo.name file)).

Definition _determine_files_to_download (server_files : list FileInfo.t)
    (local_files : gset string) (partial_downloads : gmap string partial_info)
  : list FileInfo.t :=
  List.filter (is_candidate local_files partial_downloads) server_files.

(** The loop of [_apply_regex_filter]: [matching_files] and
    [filtered_out], each appended to in turn. *)
Definition split_by_regex (regex : Pattern) (files : list FileInfo.t)
  : list FileInfo.t * list FileInfo.t :=
  fold_left
    (fun (acc : list FileInfo.t * list FileInfo.t) file =>
       let '(matching_files, filtered_out) := acc in
       if re_search regex (FileInfo.name file)
       then ((matching_files ++ [file])%list, filtered_out)
       else (matching_files, (filtered_out ++ [file])%list))
    files ([], []).

Definition _apply_regex_filter (files_to_download : list FileInfo.t)
    (s : synchronizer) (w : world) : outcome (list FileInfo.t * synchronizer) :=
  let filter_enabled := get_fallback (enabled (config s)) false in
  if negb filter_enabled then
    Returned ([], set_filtered (map FileInfo.name files_to_download) s)
      (log WARNING FilteringIsDisabled w)
  else
    let pat := get_fallback (pattern (config s)) ".*" in
    let cs := get_fallback (case_sensitive (config s)) false in
    let flags := if cs then NOFLAG else IGNORECASE in
    match re_compile pat flags with
    | Compiled regex =>
        let '(matching_files, filtered_out) := split_by_regex regex files_to_download in
        let w1 :=
          match filtered_out with
          | [] => w
          | _ :: _ => log INFO (FilteredOut (Z.of_nat (length filtered_out)) pat) w
          end in
        Returned (matching_files, set_filtered (map FileInfo.name filtered_out) s)
          (log INFO (Matched (Z.of_nat (length matching_files)) pat) w1)
    | InvalidPattern =>
        Returned ([], set_filtered (map FileInfo.name files_to_download) s)
          (log WARNING RegexDisabledInvalidPattern
             (log ERROR (InvalidRegexPattern pat) w))
    | CompileRaised e => Raised (CompileError e) w
    end.

Definition _calculate_download_size (files_to_download : list FileInfo.t)
    (partial_downloads : gmap string partial_info) : Z :=
  fold_left
    (fun total_size file =>
       match partial_downloads !! FileInfo.name file with
       | Some info => total_size + (FileInfo.size file - local_size info)
       | None => total_size + FileInfo.size file
       end)
    files_to_download 0.

End WithEngine.
End Planner.

(** ** The environment of a transfer: the remote server and the operator

    The [n]-th request of a run is answered by [server n]: the request
    fails to connect or yields a response, whose body arrives as a list of
    chunks, ends normally or with a read error, and may be interleaved
    with operator interrupts.  An interrupt may also arrive while the
    request is in flight or during the sleep before a retry. *)

Inductive body_event :=
| Chunk (data : list Byte.byte)
| Interrupt.

Inductive body_end := EndOfBody | ReadError.

Record response := mkResponse {
  status_code : Z;
  content_length : option Z;
  content_range : option string;
  body : list body_event;
  body_ending : body_end
}.

Inductive reply :=
| ConnectionError
| Response (r : response).

Record exchange := mkExchange {
  interrupt_in_flight : bool;
  answer : reply
}.

Record request := mkRequest { req_url : string; req_range : option Z }.

Record environment := mkEnv {
  server : nat -> request -> exchange;
  interrupt_during_sleep : nat -> bool
}.

Fixpoint requests_issued (tr : list event) : nat :=
  match tr with
  | [] => 0%nat
  | EvRequest _ _ :: rest => S (requests_issued rest)
  | _ :: rest => requests_issued rest
  end.

(** ** [Downloader] *)

Module Downloader.

Definition is_digit (c : ascii) : bool :=
  let n := N_of_ascii c in ((48 <=? n) && (n <=? 57))%N.

(** [int] of the leading run of digits. *)
Fixpoint digits_value (acc : Z) (s : string) : Z :=
  match s with
  | String c rest =>
      if is_digit c then digits_value (10 * acc + (Z.of_N (N_of_ascii c) - 48)) rest
      else acc
  | EmptyString => acc
  end.

(** [re.search(r"/(\d+)", content_range)], then [int(group(1))], or 0
    when there is no match. *)
Fixpoint content_range_total (s : string) : Z :=
  match s with
  | EmptyString => 0
  | String c rest =>
      if Ascii.eqb c "/" && match rest with String d _ => is_digit d | _ => false end
      then digits_value 0 rest
      else content_range_total rest
  end.

(** [open(local_path, mode)]: ["wb"] creates or truncates, ["ab"] creates
    or keeps.  [local_path] is [os.path.join(self.download_dir,
    file_info.name)], the entry [name] of the download directory when
    [name] is a plain file name. *)
Definition open_ (name : string) (mode : open_mode) (w : world) : world :=
  let content :=
    match mode with
    | WB => []
    | AB => match download_dir w !! name with Some c => c | None => [] end
    end in
  mkWorld (local_dir w) (<[name := content]> (download_dir w))
    (terminate_requested w) (EvOpen name mode :: trace w).

(** [f.write(chunk)] *)
Definition write (name : string) (chunk : list Byte.byte) (w : world) : world :=
  let content := match download_dir w !! name with Some c => c | None => [] end in
  mkWorld (local_dir w) (<[name := (content ++ chunk)%list]> (download_dir w))
    (terminate_requested w) (EvWrite name chunk :: trace w).

(** [os.path.getsize(local_path) if file_exists else 0] *)
Definition downloaded_size (name : string) (w : world) : Z :=
  if exists_ name w then getsize name w else 0.

Inductive stream_result :=
| StreamDone (bytes_downloaded : Z) (w : world)
| StreamCancelled (bytes_downloaded : Z) (w : world)
| StreamRaised (bytes_downloaded : Z) (w : world)
| StreamExit (w : world).

(** The loop over [response.iter_content]. *)
Fixpoint stream (name : string) (events : list body_event) (ending : body_end)
    (current_size bytes_downloaded : Z) (w : world) : stream_result :=
  match events with
  | [] =>
      match ending with
      | EndOfBody => StreamDone bytes_downloaded w
      | ReadError => StreamRaised bytes_downloaded w
      end
  | Interrupt :: rest =>
      match signal_handler w with
      | Some w' => stream name rest ending current_size bytes_downloaded w'
      | None => StreamExit w
      end
  | Chunk chunk :: rest =>
      if terminate_requested w then
        StreamCancelled bytes_downloaded
          (log WARNING (DownloadInterrupted name current_size) w)
      else
        match chunk with
        | [] => stream name rest ending current_size bytes_downloaded w
        | _ :: _ =>
            let chunk_size := Py.len chunk in
            stream name rest ending (current_size + chunk_size)
              (bytes_downloaded + chunk_size) (write name chunk w)
        end
  end.

Inductive attempt_result :=
| AttemptReturn (success : bool) (bytes_downloaded : Z) (w : world)
| AttemptRestart (w : world)
| AttemptRaised (bytes_downloaded : Z) (w : world)
| AttemptExit (w : world).

(** The [Range] header: set when resuming. *)
Definition range_header (start_position : Z) : option Z :=
  if 0 <? start_position then Some start_position else None.

(** ["ab" if start_position > 0 else "wb"] *)
Definition file_mode (start_position : Z) : open_mode :=
  if 0 <? start_position then AB else WB.

(** [response.raise_for_status()] raises for a 4xx or 5xx status. *)
Definition raise_for_status (r : response) : bool :=
  (400 <=? status_code r) && (status_code r <? 600).

(** The resume was requested and the server did not answer 206. *)
Definition range_refused (start_position : Z) (r : response) : bool :=
  (0 <? start_position) && negb (status_code r =? 206).

(** [total_size]: from [Content-Range] for a 206, else [content-length]
    plus the start position. *)
Definition expected_total_size (r : response) (start_position : Z) : Z :=
  if status_code r =? 206
  then content_range_total (get_fallback (content_range r) "")
  else get_fallback (content_length r) 0 + start_position.

Section WithEnvironment.
Variable env : environment.
Variable self : synchronizer.

(** [requests.get] with the headers of the attempt; an interrupt that
    arrives while the request is in flight runs the handler ([inr]: the
    process exits). *)
Definition requests_get (file_info : FileInfo.t) (start_position : Z) (w : world)
  : (reply * world) + world :=
  let w1 := if 0 <? start_position then log INFO (ResumingFromByte start_position) w
            else w in
  let req := mkRequest (FileInfo.url file_info) (range_header start_position) in
  let ex := server env (requests_issued (trace w1)) req in
  let w2 := emit (EvRequest (req_url req) (req_range req)) w1 in
  match (if interrupt_in_flight ex then signal_handler w2 else Some w2) with
  | Some w3 => inl (answer ex, w3)
  | None => inr w2
  end.

(** The [try] block of one attempt. *)
Definition attempt (file_info : FileInfo.t) (start_position bytes_downloaded : Z)
    (w : world) : attempt_result :=
  let name := FileInfo.name file_info in
  match requests_get file_info start_position w with
  | inr w2 => AttemptExit w2
  | inl (ConnectionError, w3) => AttemptRaised bytes_downloaded w3
  | inl (Response r, w3) =>
      if range_refused start_position r then
        AttemptRestart (log WARNING RangeNotSupported w3)
      else if raise_for_status r then AttemptRaised bytes_downloaded w3
      else
        let total_size := expected_total_size r start_position in
        match stream name (body r) (body_ending r) start_position 0
                (open_ name (file_mode start_position) w3) with
        | StreamDone n w4 =>
            let final_size := getsize name w4 in
            if (0 <? total_size) && (final_size <? total_size) then
              AttemptReturn false n
                (log WARNING (SizeLessThanExpected final_size total_size) w4)
            else AttemptReturn true n w4
        | StreamCancelled n w4 => AttemptReturn false n w4
        | StreamRaised n w4 => AttemptRaised n w4
        | StreamExit w4 => AttemptExit w4
        end
  end.

(** The [for attempt in range(self.max_retries)] loop; [restart] stands
    for the recursive call [self._download_with_retries(file_info,
    local_path, 0)]. *)
Fixpoint retry_loop (restart : world -> option (outcome (bool * Z)))
    (file_info : FileInfo.t) (start_position : Z) (attempts : list Z)
    (bytes_downloaded : Z) (w : world) : option (outcome (bool * Z)) :=
  match attempts with
  | [] => Some (Returned (false, bytes_downloaded) w)
  | attempt_no :: rest =>
      if terminate_requested w then
        Some (Returned (false, bytes_downloaded)
                (log WARNING (TerminationBeforeAttempt (FileInfo.name file_info)) w))
      else
        match attempt file_info start_position bytes_downloaded w with
        | AttemptReturn success n w' => Some (Returned (success, n) w')
        | AttemptRestart w' => restart w'
        | AttemptExit w' => Some (Raised SystemExit w')
        | AttemptRaised n w' =>
            if terminate_requested w' then
              Some (Returned (false, n)
                      (log WARNING
                         (TerminationDuringErrorHandling (FileInfo.name file_info)) w'))
            else
              let current_size := downloaded_size (FileInfo.name file_info) w' in
              if attempt_no <? max_retries self - 1 then
                let w1 := log WARNING (DownloadError (attempt_no + 1) (max_retries self)) w' in
                let w2 := log INFO (RetryingFromByte (retry_delay self) current_size) w1 in
                if retry_delay self <? 0 then Some (Raised ValueError w2)
                else
                  let w3 := emit (EvSleep (retry_delay self)) w2 in
                  match (if interrupt_during_sleep env (requests_issued (trace w3))
                         then signal_handler w3 else Some w3) with
                  | None => Some (Raised SystemExit w3)
                  | Some w4 => retry_loop restart file_info start_position rest n w4
                  end
              else
                Some (Returned (false, n)
                        (log ERROR (DownloadFailedAfter (max_retries self)) w'))
        end
  end.

(** [_download_with_retries]; [depth] bounds the nesting of recursive
    calls ([None] when it is exceeded). *)
Fixpoint _download_with_retries (depth : nat) (file_info : FileInfo.t)
    (start_position : Z) (w : world) : option (outcome (bool * Z)) :=
  match depth with
  | O => None
  | S depth' =>
      retry_loop (_download_with_retries depth' file_info 0)
        file_info start_position (Py.range (max_retries self)) 0 w
  end.

(** [download]: the resume position is the size of the local file. *)
Definition download (depth : nat) (file_info : FileInfo.t) (w : world)
  : option (outcome (bool * Z)) :=
  _download_with_retries depth file_info
    (downloaded_size (FileInfo.name file_info) w) w.

End WithEnvironment.
End Downloader.

(** ** [FileSynchronizer]: the run *)

(** The points of [sync] at which an operator interrupt is observed by
    the next poll of the flag. *)
Inductive stage := AtListing | AtPlanning | AtSummary | AtConfirmation.

(** One run's surroundings: the network, the operator's answers to the
    prompts (the [n]-th call of [input]), the listing that
    [ServerParser.get_files] returns, and the interrupts. *)
Record session := mkSession {
  net : environment;
  input : nat -> string;
  get_files : string -> list FileInfo.t;
  interrupt_at : stage -> bool
}.

Fixpoint inputs_read (tr : list event) : nat :=
  match tr with
  | [] => 0%nat
  | EvInput _ _ :: rest => S (inputs_read rest)
  | _ :: rest => inputs_read rest
  end.

Definition add_bytes (n : Z) (s : synchronizer) : synchronizer :=
  mkSync (config s) (max_retries s) (retry_delay s) (downloaded_files s)
    (failed_files s) (filtered_files s) (total_bytes_downloaded s + n).

Definition add_downloaded (name : string) (s : synchronizer) : synchronizer :=
  mkSync (config s) (max_retries s) (retry_delay s) (downloaded_files s ++ [name])%list
    (failed_files s) (filtered_files s) (total_bytes_downloaded s).

Definition add_failed (name : string) (s : synchronizer) : synchronizer :=
  mkSync (config s) (max_retries s) (retry_delay s) (downloaded_files s)
    (failed_files s ++ [name])%list (filtered_files s) (total_bytes_downloaded s).

Definition reset_state (s : synchronizer) : synchronizer :=
  mkSync (config s) (max_retries s) (retry_delay s) [] [] [] 0.

Definition enable_match_all (s : synchronizer) : synchronizer :=
  mkSync (mkFilter (Some true) (Some ".*") (case_sensitive (config s)))
    (max_retries s) (retry_delay s) (downloaded_files s)
    (failed_files s) (filtered_files s) (total_bytes_downloaded s).

Module FileSynchronizer.
Section WithSession.
Context {E : RegexEngine}.
Variable ses : session.
Variable depth : nat.

Definition interruptible {A} (at_stage : stage) (w : world)
    (k : world -> option (outcome A)) : option (outcome A) :=
  if interrupt_at ses at_stage then
    match signal_handler w with
    | Some w' => k w'
    | None => Some (Raised SystemExit w)
    end
  else k w.

(** The loop of [_download_files] over [enumerate(files_to_download, 1)];
    [total] is [len(files_to_download)]. *)
Fixpoint download_loop (files : list FileInfo.t) (i total success_count : Z)
    (s : synchronizer) (w : world) : option (outcome (bool * synchronizer)) :=
  match files with
  | [] => Some (Returned (success_count =? total, s) w)
  | file :: rest =>
      let name := FileInfo.name file in
      if terminate_requested w then
        Some (Returned (false, s) (log WARNING (TerminationStopping success_count total) w))
      else
        let existing_size := Downloader.downloaded_size name w in
        let w0 := emit (EvPrint (FileOf i total)) w in
        if (0 <? existing_size) && (FileInfo.size file =? 0) then
          Some (Raised ZeroDivisionError w0)
        else
          let w1 := emit (EvPrint (FileHeader name existing_size)) w0 in
          match Downloader.download (net ses) s depth file w1 with
          | None => None
          | Some (Raised e w2) => Some (Raised e w2)
          | Some (Returned (success, bytes_downloaded) w2) =>
              let s1 := add_bytes bytes_downloaded s in
              if success then
                download_loop rest (i + 1) total (success_count + 1)
                  (add_downloaded name s1) w2
              else
                let s2 := add_failed name s1 in
                if terminate_requested w2
                then Some (Returned (success_count =? total, s2) w2)
                else download_loop rest (i + 1) total success_count s2 w2
          end
  end.

Definition _download_files (files_to_download : list FileInfo.t)
    (s : synchronizer) (w : world) : option (outcome (bool * synchronizer)) :=
  download_loop files_to_download 1 (Z.of_nat (length files_to_download)) 0 s w.

(** [sync] from the listing on; [filter_enabled] is the local variable
    read before the prompt. *)
Definition sync_from_listing (filter_enabled : bool) (file_extension : string)
    (s : synchronizer) (w : world) : option (outcome (bool * synchronizer)) :=
  let w1 := log INFO Connecting w in
  let server_files := get_files ses file_extension in
  interruptible AtListing w1 (fun w2 =>
  if terminate_requested w2 then
    Some (Returned (false, s) (log WARNING TerminationAfterListing w2))
  else
  match server_files with
  | [] => Some (Returned (false, s) (log ERROR FailedToGetFileList w2))
  | _ :: _ =>
  let w3 := log INFO (FoundFiles (Z.of_nat (length server_files))) w2 in
  let local_files := Planner._get_local_files w3 file_extension in
  let partial_downloads := Planner._identify_partial_downloads w3 server_files in
  let candidates :=
    Planner._determine_files_to_download server_files local_files partial_downloads in
  match Planner._apply_regex_filter candidates s w3 with
  | Raised e w4 => Some (Raised e w4)
  | Returned (files_to_download, s1) w4 =>
  interruptible AtPlanning w4 (fun w5 =>
  if terminate_requested w5 then
    Some (Returned (false, s1) (log WARNING TerminationAfterDetermining w5))
  else
  match files_to_download with
  | [] =>
      Some (Returned (true, s1)
              (log INFO (if filter_enabled then AllUpToDate else FilteringIsDisabled) w5))
  | _ :: _ =>
  let total_size := Planner._calculate_download_size files_to_download partial_downloads in
  let w6 := emit (EvPrint (DownloadSummary (map FileInfo.name files_to_download)
                             total_size)) w5 in
  interruptible AtSummary w6 (fun w7 =>
  if terminate_requested w7 then
    Some (Returned (false, s1) (log WARNING TerminationAfterSummary w7))
  else
  let confirmation := input ses (inputs_read (trace w7)) in
  let w8 := emit (EvInput ContinuePrompt confirmation) w7 in
  interruptible AtConfirmation w8 (fun w9 =>
  if negb (String.eqb (Py.lower confirmation) "y") then
    Some (Returned (false, s1) (log INFO DownloadCancelledByUser w9))
  else
  match _download_files files_to_download s1 w9 with
  | None => None
  | Some (Raised e w10) => Some (Raised e w10)
  | Some (Returned (success, s2) w10) =>
      let w11 := emit (EvPrint FinalSummary) w10 in
      Some (Returned (success && negb (terminate_requested w11), s2) w11)
  end))
  end)
  end
  end).

Definition sync (file_extension : string) (s : synchronizer) (w : world)
  : option (outcome (bool * synchronizer)) :=
  let s0 := reset_state s in
  let filter_enabled := get_fallback (enabled (config s0)) false in
  if negb filter_enabled then
    let w1 := emit (EvPrint FilteringDisabledBanner) w in
    let user_response := input ses (inputs_read (trace w1)) in
    let w2 := emit (EvInput EnableFilteringPrompt user_response) w1 in
    if String.eqb (Py.lower user_response) "y" then
      sync_from_listing filter_enabled file_extension (enable_match_all s0)
        (emit (EvPrint FilteringEnabledMatchAll) w2)
    else
      Some (Returned (true, s0) (log INFO FilteringRemainsDisabled w2))
  else sync_from_listing filter_enabled file_extension s0 w.

End WithSession.
End FileSynchronizer.

(** ** [ServerParser]

    The page that [get_files] reads is given as [BeautifulSoup] hands it
    over: the rows of the first table, each with its [td] cells.  The
    log lines of [get_files] are kept beside the process state. *)

Module ServerParser.

(** A cell: the [href] of its first link if it has one ([Some None]: a
    link without [href]), and its text, stripped. *)
Record cell := mkCell { link : option (option string); text : string }.

(** The rows the loop goes through; an interrupt may arrive before a
    row is looked at. *)
Inductive row_event :=
| Row (cells : list cell)
| RowInterrupt.

Record page := mkPage { page_status : Z; table : option (list row_event) }.

Inductive page_reply :=
| RequestFailed
| Page (p : page).

Record page_exchange := mkPageExchange {
  interrupt_on_the_way : bool;
  page_answer : page_reply
}.

(** The [n]-th request is answered by [pages n]; [interrupt_in_sleep n]:
    an interrupt arrives during the sleep after [n] requests. *)
Record site := mkSite {
  pages : nat -> page_exchange;
  interrupt_in_sleep : nat -> bool
}.

Inductive note :=
| TerminationDuringConnection
| NoListingTable
| TerminationDuringParsing
| ConnectingFailedAfter (attempts : Z)
| ConnectingError (attempt max_retries : Z)
| RetryingIn (retry_delay : Z).

Record state := mkState { process : world; notes : list (log_level * note) }.

Definition take_note (level : log_level) (n : note) (st : state) : state :=
  mkState (process st) ((level, n) :: notes st).

(** [signal_handler], run on the process of [st]. *)
Definition interrupted (st : state) : option state :=
  match signal_handler (process st) with
  | Some w => Some (mkState w (notes st))
  | None => None
  end.

(** What leaves [get_files] other than a return: [sys.exit] under a
    second interrupt, or an exception that its [except] does not catch
    ([ValueError]: [time.sleep] of a negative delay). *)
Inductive failure := Exit | AttributeError | TypeError | OverflowError | ValueError.

(** [get_files] returns a list, or [None] when its loop ends without a
    [return]. *)
Inductive result :=
| Return (files : option (list FileInfo.t)) (st : state)
| Raise (e : failure) (st : state).

Record t := mk {
  url : string;
  username : string;
  password : string;
  max_retries : Z;
  retry_delay : Z
}.

(** [response.raise_for_status()] *)
Definition page_refused (p : page) : bool :=
  (400 <=? page_status p) && (page_status p <? 600).

Section WithSite.
Variable web : site.
(** [_parse_size]; [None] where it raises ([int] of an infinite float). *)
Variable _parse_size : string -> option Z.
Variable self : t.

(** [file_extension and not filename.lower().endswith(file_extension.lower())],
    negated; [None]: [filename] is [None] and has no [lower]. *)
Definition wanted (file_extension : string) (href : option string) : option bool :=
  if Py.truthy file_extension then
    match href with
    | Some filename =>
        Some (Py.endswith (Py.lower filename) (Py.lower file_extension))
    | None => None
    end
  else Some true.

(** The [FileInfo] of a row. *)
Definition entry (href : option string) (date_cell size_cell : cell)
  : failure + FileInfo.t :=
  match _parse_size (text size_cell) with
  | None => inl OverflowError
  | Some size_bytes =>
      match href with
      | None => inl TypeError
      | Some filename =>
          inr (FileInfo.mk filename (url self ++ filename) size_bytes (text date_cell))
      end
  end.

(** The loop over [table.find_all("tr")]. *)
Fixpoint rows (file_extension : string) (events : list row_event)
    (files : list FileInfo.t) (st : state) : result :=
  match events with
  | [] => Return (Some files) st
  | RowInterrupt :: rest =>
      match interrupted st with
      | Some st' => rows file_extension rest files st'
      | None => Raise Exit st
      end
  | Row cells :: rest =>
      if terminate_requested (process st) then
        Return (Some files) (take_note WARNING TerminationDuringParsing st)
      else
        match cells with
        | _ :: name_cell :: date_cell :: size_cell :: _ =>
            match link name_cell with
            | None => rows file_extension rest files st
            | Some href =>
                match wanted file_extension href with
                | None => Raise AttributeError st
                | Some false => rows file_extension rest files st
                | Some true =>
                    match entry href date_cell size_cell with
                    | inl e => Raise e st
                    | inr file => rows file_extension rest (files ++ [file])%list st
                    end
                end
            end
        | _ => rows file_extension rest files st
        end
  end.

(** The [for attempt in range(self.max_retries)] loop of [get_files]. *)
Fixpoint attempts_loop (file_extension : string) (attempts : list Z) (st : state)
  : result :=
  match attempts with
  | [] => Return None st
  | attempt :: rest =>
      if terminate_requested (process st) then
        Return (Some []) (take_note WARNING TerminationDuringConnection st)
      else
        let ex := pages web (requests_issued (trace (process st))) in
        let st1 := mkState (emit (EvRequest (url self) None) (process st)) (notes st) in
        match (if interrupt_on_the_way ex then interrupted st1 else Some st1) with
        | None => Raise Exit st1
        | Some st2 =>
            let failed :=
              if terminate_requested (process st2) || (max_retries self - 1 <=? attempt)
              then
                Return (Some []) (take_note ERROR (ConnectingFailedAfter (attempt + 1)) st2)
              else
                let st3 :=
                  take_note INFO (RetryingIn (retry_delay self))
                    (take_note WARNING (ConnectingError (attempt + 1) (max_retries self))
                       st2) in
                if retry_delay self <? 0 then Raise ValueError st3
                else
                  let st4 :=
                    mkState (emit (EvSleep (retry_delay self)) (process st3))
                      (notes st3) in
                  match (if interrupt_in_sleep web (requests_issued (trace (process st4)))
                         then interrupted st4 else Some st4) with
                  | None => Raise Exit st4
                  | Some st5 => attempts_loop file_extension rest st5
                  end in
            match page_answer ex with
            | RequestFailed => failed
            | Page p =>
                if page_refused p then failed
                else
                  match table p with
                  | None => Return (Some []) (take_note ERROR NoListingTable st2)
                  | Some events => rows file_extension events [] st2
                  end
            end
        end
  end.

Definition get_files (file_extension : string) (st : state) : result :=
  attempts_loop file_extension (Py.range (max_retries self)) st.

End WithSite.

Definition state_of (r : result) : state :=
  match r with Return _ st => st | Raise _ st => st end.

End ServerParser.

(** ** Notions used in the statements *)

(** A copy of [n] shorter than [remote_size] lies in the download
    directory; in either directory. *)
Definition short_copy_in_downloads (w : world) (n : string) (remote_size : Z) : Prop :=
  exists content, download_dir w !! n = Some content /\ Py.len content < remote_size.

Definition short_copy_anywhere (w : world) (n : string) (remote_size : Z) : Prop :=
  exists content,
    (local_dir w !! n = Some content \/ download_dir w !! n = Some content) /\
    Py.len content < remote_size.

(** The candidates of a listing, as [sync] computes them. *)
Definition candidates_of (w : world) (file_extension : string)
    (server_files : list FileInfo.t) : list FileInfo.t :=
  Planner._determine_files_to_download server_files
    (Planner._get_local_files w file_extension)
    (Planner._identify_partial_downloads w server_files).

(** The configured pattern and flags, as [_apply_regex_filter] reads them. *)
Definition configured_pattern (s : synchronizer) : string :=
  get_fallback (pattern (config s)) ".*".

Definition configured_flags (s : synchronizer) : re_flags :=
  if get_fallback (case_sensitive (config s)) false then NOFLAG else IGNORECASE.

Definition name_matches {E : RegexEngine} (regex : Pattern) (file : FileInfo.t) : bool :=
  re_search regex (FileInfo.name file).

(** The plan: each file to download with the position its transfer
    resumes from. *)
Definition plan (w : world) (files_to_download : list FileInfo.t) : list (string * Z) :=
  map (fun f => (FileInfo.name f, Downloader.downloaded_size (FileInfo.name f) w))
    files_to_download.

Definition world_of {A} (o : outcome A) : world :=
  match o with Returned _ w => w | Raised _ w => w end.

(** The value of the counter [bytes_downloaded] after the events [tr]
    (most recent first), when it was [init] before them: it restarts from
    zero where a file is opened for streaming and where the fallback
    call begins, and grows with every write. *)
Fixpoint counted (init : Z) (tr : list event) : Z :=
  match tr with
  | [] => init
  | EvOpen _ _ :: _ => 0
  | EvLog _ RangeNotSupported :: _ => 0
  | EvWrite _ chunk :: rest => counted init rest + Py.len chunk
  | _ :: rest => counted init rest
  end.

(** The bytes written since the most recent request, that is, by the
    final attempt. *)
Fixpoint written_since_request (tr : list event) : Z :=
  match tr with
  | [] => 0
  | EvRequest _ _ :: _ => 0
  | EvWrite _ chunk :: rest => written_since_request rest + Py.len chunk
  | _ :: rest => written_since_request rest
  end.

(** How often the range-not-honored fallback was taken. *)
Fixpoint restarts (tr : list event) : nat :=
  match tr with
  | [] => 0%nat
  | EvLog _ RangeNotSupported :: rest => S (restarts rest)
  | _ :: rest => restarts rest
  end.

(** What [_download_files] adds to [total_bytes_downloaded] over the
    events [tr]: per file, the value of the counter when its call ends. *)
Fixpoint accounted (counting : bool) (tr : list event) : Z :=
  match tr with
  | [] => 0
  | EvPrint (FileOf _ _) :: rest => accounted true rest
  | EvOpen _ _ :: rest => accounted false rest
  | EvLog _ RangeNotSupported :: rest => accounted false rest
  | EvWrite _ chunk :: rest =>
      accounted counting rest + (if counting then Py.len chunk else 0)
  | _ :: rest => accounted counting rest
  end.

Fixpoint body_bytes (events : list body_event) : Z :=
  match events with
  | [] => 0
  | Chunk data :: rest => Py.len data + body_bytes rest
  | Interrupt :: rest => body_bytes rest
  end.


#[global] Instance open_mode_eq_dec : EqDecision open_mode.
Proof. solve_decision. Defined.

(** The events a transfer of [file_info] from [start_position] can leave
    in the trace, its fallback included. *)
Definition transfer_event (file_info : FileInfo.t) (start_position : Z) (e : event)
  : bool :=
  match e with
  | EvRequest u range =>
      bool_decide (u = FileInfo.url file_info)
      && (bool_decide (range = Downloader.range_header start_position)
          || bool_decide (range = None))
  | EvOpen n mode =>
      bool_decide (n = FileInfo.name file_info)
      && (bool_decide (mode = Downloader.file_mode start_position)
          || bool_decide (mode = WB))
  | EvWrite n _ => bool_decide (n = FileInfo.name file_info)
  | EvLog _ RangeNotSupported => 0 <? start_position
  | EvLog _ _ => true
  | EvPrint TerminationRequestedBanner => true
  | EvPrint _ => false
  | EvInput _ _ => false
  | EvSleep _ => true
  | EvSignal => true
  end.

(** [w'] is reached from [w] by the events [new], all of them [P], and
    the counter went from [bytes] to [n]. *)
Definition advances (P : event -> bool) (bytes : Z) (w : world) (n : Z) (w' : world)
  : Prop :=
  exists new,
    trace w' = (new ++ trace w)%list /\ forallb P new = true /\ n = counted bytes new.

(** The end of a call that started with the counter at [bytes]: the
    world it leaves is reached by events that are all [P], and a call
    that returns gives back the counter. *)
Definition ends_with (P : event -> bool) (bytes : Z) (w : world)
    (o : outcome (bool * Z)) : Prop :=
  exists n, advances P bytes w n (world_of o) /\
            forall ok m w', o = Returned (ok, m) w' -> m = n.

(** The world right after the request of an attempt has been sent. *)
Definition sent (file_info : FileInfo.t) (start_position : Z) (w : world) : world :=
  emit (EvRequest (FileInfo.url file_info) (Downloader.range_header start_position))
    (if 0 <? start_position then log INFO (ResumingFromByte start_position) w else w).

(** ** Example data *)

Module Examples.

Definition f1000 := FileInfo.mk "a.laz" "http://host/a.laz" 1000 "2024-01-01".

(** A short copy of [a.laz] in the directory of current files only. *)
Definition w_local := mkWorld {["a.laz" := repeat Byte.x00 400]} ∅ false [].

(** The scenario of the specification: two remote files, 400 bytes of
    the first one in the download directory. *)
Definition a_laz := FileInfo.mk "a.laz" "http://host/a.laz" 1000 "2024-01-01".
Definition b_laz := FileInfo.mk "b.laz" "http://host/b.laz" 2000 "2024-01-02".
Definition w_scenario := mkWorld ∅ {["a.laz" := repeat Byte.x00 400]} false [].

Definition settings (pat : string) (retries : Z) : synchronizer :=
  mkSync (mkFilter (Some true) (Some pat) (Some false)) retries 5 [] [] [] 0.

Definition disabled_settings : synchronizer :=
  mkSync (mkFilter None None None) 3 5 [] [] [] 0.

Definition quiet : environment :=
  mkEnv (fun _ _ => mkExchange false ConnectionError) (fun _ => false).

(** An operator who answers [n] to every prompt and never interrupts. *)
Definition declining : session :=
  mkSession quiet (fun _ => "n") (fun _ => [a_laz; b_laz]) (fun _ => false).

(** A remote file of ten bytes, four of which are on disk. *)
Definition remote_data : list Byte.byte :=
  [Byte.x30; Byte.x31; Byte.x32; Byte.x33; Byte.x34;
   Byte.x35; Byte.x36; Byte.x37; Byte.x38; Byte.x39].

Definition ten := FileInfo.mk "ten.laz" "http://host/ten.laz" 10 "2024-01-03".

Definition w_four := mkWorld ∅ {["ten.laz" := firstn 4 remote_data]} false [].

Definition w_empty := mkWorld ∅ ∅ false [].

Definition w_cancelled := mkWorld ∅ {["ten.laz" := firstn 4 remote_data]} true [].

(** A partial-content answer to a request for the bytes from offset 4. *)
Definition partial_content (data : list Byte.byte) (ending : body_end) : response :=
  mkResponse 206 (Some (Py.len data)) (Some "bytes 4-9/10") [Chunk data] ending.

Definition whole_content (chunks : list body_event) (ending : body_end) : response :=
  mkResponse 200 (Some 10) None chunks ending.

(** A server that honours [Range]; its first answer breaks off after two
    bytes of body. *)
Definition breaks_once : environment :=
  mkEnv
    (fun n req =>
       match req_range req with
       | Some k =>
           let rest := skipn (Z.to_nat k) remote_data in
           match n with
           | O => mkExchange false (Response (partial_content (firstn 2 rest) ReadError))
           | _ => mkExchange false (Response (partial_content rest EndOfBody))
           end
       | None =>
           mkExchange false (Response (whole_content [Chunk remote_data] EndOfBody))
       end)
    (fun _ => false).

(** A server that ignores [Range] and always sends the whole file. *)
Definition ignores_range : environment :=
  mkEnv
    (fun _ _ =>
       mkExchange false
         (Response (whole_content
                      [Chunk (firstn 5 remote_data); Chunk (skipn 5 remote_data)]
                      EndOfBody)))
    (fun _ => false).

(** A server whose first answer breaks off after four bytes and that
    cannot be reached afterwards. *)
Definition breaks_then_unreachable : environment :=
  mkEnv
    (fun n _ =>
       match n with
       | O => mkExchange false
                (Response (whole_content [Chunk (firstn 4 remote_data)] ReadError))
       | _ => mkExchange false ConnectionError
       end)
    (fun _ => false).

(** A server that closes the connection after four of the ten bytes it
    announced, without any error. *)
Definition closes_early : environment :=
  mkEnv
    (fun _ _ =>
       mkExchange false
         (Response (whole_content [Chunk (firstn 4 remote_data)] EndOfBody)))
    (fun _ => false).

End Examples.

(** ** Further notions used in the statements *)

(** The content of a file of the download directory; empty when the
    file does not exist. *)
Definition content_of (name : string) (w : world) : list Byte.byte :=
  match download_dir w !! name with Some c => c | None => [] end.

(** The bytes of a body, in order. *)
Fixpoint body_data (events : list body_event) : list Byte.byte :=
  match events with
  | [] => []
  | Chunk data :: rest => (data ++ body_data rest)%list
  | Interrupt :: rest => body_data rest
  end.

(** No interrupt arrives while the body is read. *)
Fixpoint uninterrupted (events : list body_event) : bool :=
  match events with
  | [] => true
  | Chunk _ :: rest => uninterrupted rest
  | Interrupt :: _ => false
  end.

(** Everything but the file [name] of the download directory is as it
    was, and a termination flag that was set is still set. *)
Definition keeps_the_rest (name : string) (w w' : world) : Prop :=
  local_dir w' = local_dir w /\
  (forall other, other <> name -> download_dir w' !! other = download_dir w !! other) /\
  (terminate_requested w = true -> terminate_requested w' = true).

(** The file [name] has only grown. *)
Definition only_appended (name : string) (w w' : world) : Prop :=
  exists more, content_of name w' = (content_of name w ++ more)%list.

(** A resumed transfer went on without the fallback: the file has only
    grown. *)
Definition grows_without_fallback (name : string) (w w' : world) : Prop :=
  only_appended name w w' /\ restarts (trace w') = restarts (trace w).

(** The sum of the remote sizes of a list of files. *)
Definition sum_of_sizes (files : list FileInfo.t) : Z :=
  fold_right (fun f acc => FileInfo.size f + acc) 0 files.


(** The bytes already on disk of those files of a plan that are
    recorded as partial. *)
Definition resumable_bytes (w : world) (partial_downloads : gmap string partial_info)
    (files : list FileInfo.t) : Z :=
  fold_right
    (fun f acc =>
       match partial_downloads !! FileInfo.name f with
       | Some _ => getsize (FileInfo.name f) w + acc
       | None => acc
       end)
    0 files.

(** Every file outside [names] is as it was, the directory of current
    files too, and a set flag stays set. *)
Definition keeps_all_but (names : list string) (w w' : world) : Prop :=
  local_dir w' = local_dir w /\
  (forall other, ~ In other names -> download_dir w' !! other = download_dir w !! other) /\
  (terminate_requested w = true -> terminate_requested w' = true).

(** How often the operator answered the question before the downloads
    with yes. *)
Fixpoint confirmations (tr : list event) : nat :=
  match tr with
  | [] => 0%nat
  | EvInput ContinuePrompt answer :: rest =>
      ((if String.eqb (Py.lower answer) "y" then 1 else 0) + confirmations rest)%nat
  | _ :: rest => confirmations rest
  end.

(** Nothing was fetched between [w] and [w']: both directories are as
    they were, no request is added to the trace and no download
    confirmed. *)
Definition nothing_fetched (w w' : world) : Prop :=
  local_dir w' = local_dir w /\ download_dir w' = download_dir w /\
  requests_issued (trace w') = requests_issued (trace w) /\
  confirmations (trace w') = confirmations (trace w) /\
  (terminate_requested w = true -> terminate_requested w' = true).

(** The names of [results] whose transfer ended with [ok]. *)
Definition names_with (ok : bool) (results : list (string * bool)) : list string :=
  map fst (List.filter (fun r => Bool.eqb (snd r) ok) results).

(** The download was confirmed between [w] and [w'], and nothing else
    happened to the directories or the network. *)
Definition confirmed_once (w w' : world) : Prop :=
  local_dir w' = local_dir w /\ download_dir w' = download_dir w /\
  requests_issued (trace w') = requests_issued (trace w) /\
  confirmations (trace w') = S (confirmations (trace w)) /\
  (terminate_requested w = true -> terminate_requested w' = true).

(** The process of the listing went on without a transfer: no file
    changed, and [sent] requests were added. *)
Definition listing_step (sent : nat) (st st' : ServerParser.state) : Prop :=
  local_dir (ServerParser.process st') = local_dir (ServerParser.process st) /\
  download_dir (ServerParser.process st') = download_dir (ServerParser.process st) /\
  requests_issued (trace (ServerParser.process st'))
  = (requests_issued (trace (ServerParser.process st)) + sent)%nat /\
  (terminate_requested (ServerParser.process st) = true ->
   terminate_requested (ServerParser.process st') = true).

(** Between [w] and [w'] a request for [file_info] from
    [start_position] was sent, and it is the last request in [w']; the
    answer [r] it got was accepted and read to its end, and the file in
    [w'] is as long as [r] announced, if it announced a size.  The
    request is the event after [earlier]; the server answers the request
    sent after [k] others with [server env k]. *)
Definition complete_answer (env : environment) (file_info : FileInfo.t)
    (start_position : Z) (w w' : world) : Prop :=
  exists later earlier r,
    trace w'
    = (later
       ++ EvRequest (FileInfo.url file_info) (Downloader.range_header start_position)
       :: earlier ++ trace w)%list /\
    requests_issued later = 0%nat /\
    answer (server env (requests_issued (earlier ++ trace w))
              (mkRequest (FileInfo.url file_info)
                 (Downloader.range_header start_position)))
    = Response r /\
    Downloader.raise_for_status r = false /\
    Downloader.range_refused start_position r = false /\
    body_ending r = EndOfBody /\
    (0 < Downloader.expected_total_size r start_position ->
     Downloader.expected_total_size r start_position
     <= getsize (FileInfo.name file_info) w').

(** A name that is a file of the directory it is joined to: it holds no
    path separator and is not a directory's own name.  For such a name
    [os.path.join(download_dir, name)] is the file [name] of the download
    directory, which is where the model keeps it.  The separators are
    the slash and the backslash (character 92). *)
Definition plain_name (name : string) : bool :=
  forallb (fun c => negb (Ascii.eqb c "/") && negb (Ascii.eqb c "092"))
    (list_ascii_of_string name)
  && negb (String.eqb name "") && negb (String.eqb name ".")
  && negb (String.eqb name "..").

(** ** Further example data *)

Module Cases.

(** A server whose answer the operator interrupts after four bytes. *)
Definition interrupted_midway : environment :=
  mkEnv
    (fun _ _ =>
       mkExchange false
         (Response (Examples.whole_content
                      [Chunk (firstn 4 Examples.remote_data); Interrupt;
                       Chunk (skipn 4 Examples.remote_data)]
                      EndOfBody)))
    (fun _ => false).

(** An operator who answers [y] to every prompt and never interrupts; the
    listing holds the file of ten bytes, which the server sends whole. *)
Definition confirming : session :=
  mkSession Examples.ignores_range (fun _ => "y") (fun _ => [Examples.ten])
    (fun _ => false).

(** A directory listing: a heading without cells, the file of ten bytes
    and a text file. *)
Definition listing_rows : list ServerParser.row_event :=
  [ServerParser.Row [];
   ServerParser.Row
     [ServerParser.mkCell None ""; ServerParser.mkCell (Some (Some "ten.laz")) "ten.laz";
      ServerParser.mkCell None "2024-01-03"; ServerParser.mkCell None "10";
      ServerParser.mkCell None ""];
   ServerParser.Row
     [ServerParser.mkCell None ""; ServerParser.mkCell (Some (Some "notes.txt")) "notes.txt";
      ServerParser.mkCell None "2024-01-04"; ServerParser.mkCell None "1";
      ServerParser.mkCell None ""]].

Definition listing_site : ServerParser.site :=
  ServerParser.mkSite
    (fun _ =>
       ServerParser.mkPageExchange false
         (ServerParser.Page (ServerParser.mkPage 200 (Some listing_rows))))
    (fun _ => false).

Definition parser : ServerParser.t := ServerParser.mk "http://host/" "user" "secret" 3 5.

(** The sizes of the example listing are plain numbers of bytes. *)
Definition plain_size (size_str : string) : option Z :=
  Some (Downloader.digits_value 0 size_str).

Definition idle : ServerParser.state := ServerParser.mkState Examples.w_empty [].

End Cases.

(** * Properties of the planner *)

Import Planner.


Lemma add_listing_spec ext (listing : list string) (acc : gset string) (n : string) :
  n ∈ add_listing ext acc listing <->
  n ∈ acc \/ (In n listing /\ extension_ok ext n = true).
Proof.
  unfold add_listing. revert acc.
  induction listing as [|file listing IH]; intros acc; simpl.
  - tauto.
  - rewrite IH. destruct (extension_ok ext file) eqn:Hext.
    + rewrite elem_of_union, elem_of_singleton. split.
      * intros [[->|H]|[H1 H2]]; auto.
      * intros [H|[[->|H1] H2]]; auto.
    + split.
      * intros [H|[H1 H2]]; auto.
      * intros [H|[[->|H1] H2]]; auto. congruence.
Qed.

Lemma listdir_spec (d : gmap string (list Byte.byte)) (n : string) :
  In n (listdir d) <-> is_Some (d !! n).
Proof.
  unfold listdir. rewrite <- list_elem_of_In, elem_of_elements. apply elem_of_dom.
Qed.

Lemma get_local_files_spec w ext (n : string) :
  n ∈ _get_local_files w ext <->
  extension_ok ext n = true /\
  (is_Some (local_dir w !! n) \/ is_Some (download_dir w !! n)).
Proof.
  unfold _get_local_files. rewrite !add_listing_spec, !listdir_spec.
  rewrite elem_of_empty. tauto.
Qed.

Lemma partial_fold_spec w (server_files : list FileInfo.t)
    (acc : gmap string partial_info) (n : string) :
  is_Some (fold_left (record_partial w) server_files acc !! n) <->
  is_Some (acc !! n) \/
  exists g content, In g server_files /\ FileInfo.name g = n /\
    download_dir w !! n = Some content /\ Py.len content < FileInfo.size g.
Proof.
  revert acc. induction server_files as [|file rest IH]; intros acc; simpl.
  - split; [auto|]. intros [H|(g & c & [] & _)]; auto.
  - rewrite IH. unfold record_partial.
    destruct (download_dir w !! FileInfo.name file) as [content|] eqn:Hlk.
    + destruct (Py.len content <? FileInfo.size file) eqn:Hlt.
      * apply Z.ltb_lt in Hlt. rewrite lookup_insert_is_Some. split.
        -- intros [[Heq|[_ H]]|(g & c & Hin & Hn & Hc & Hs)]; eauto 10.
           subst n. right. exists file, content. auto.
        -- intros [H|(g & c & [<-|Hin] & Hn & Hc & Hs)]; eauto 10.
           destruct (decide (FileInfo.name file = n)); eauto.
      * apply Z.ltb_ge in Hlt. split.
        -- intros [H|(g & c & Hin & Hn & Hc & Hs)]; eauto 10.
        -- intros [H|(g & c & [<-|Hin] & Hn & Hc & Hs)]; eauto 10.
           subst n. rewrite Hlk in Hc. inversion Hc; subst. lia.
    + split.
      * intros [H|(g & c & Hin & Hn & Hc & Hs)]; eauto 10.
      * intros [H|(g & c & [<-|Hin] & Hn & Hc & Hs)]; eauto 10.
        subst n. congruence.
Qed.

Lemma identify_partial_spec w (server_files : list FileInfo.t) (n : string) :
  is_Some (_identify_partial_downloads w server_files !! n) <->
  exists g content, In g server_files /\ FileInfo.name g = n /\
    download_dir w !! n = Some content /\ Py.len content < FileInfo.size g.
Proof.
  unfold _identify_partial_downloads.
  rewrite partial_fold_spec, lookup_empty. split.
  - intros [[x H]|H]; [discriminate|auto].
  - auto.
Qed.


Lemma is_candidate_spec w ext (server_files : list FileInfo.t) (file : FileInfo.t) :
  is_candidate (_get_local_files w ext) (_identify_partial_downloads w server_files) file = true <->
  FileInfo.name file ∉ _get_local_files w ext \/
  exists g, In g server_files /\ FileInfo.name g = FileInfo.name file /\
    short_copy_in_downloads w (FileInfo.name file) (FileInfo.size g).
Proof.
  unfold is_candidate. rewrite orb_true_iff, negb_true_iff.
  rewrite bool_decide_eq_false, bool_decide_eq_true, identify_partial_spec.
  unfold short_copy_in_downloads. split.
  - intros [H|(g & c & H1 & H2 & H3 & H4)]; [auto|]. right. exists g. eauto.
  - intros [H|(g & H1 & H2 & c & H3 & H4)]; [auto|]. right. exists g, c. auto.
Qed.

Lemma same_name_same_file (server_files : list FileInfo.t) (f g : FileInfo.t) :
  NoDup (map FileInfo.name server_files) ->
  In f server_files -> In g server_files ->
  FileInfo.name g = FileInfo.name f -> g = f.
Proof.
  induction server_files as [|x l IH]; simpl; [tauto|].
  intros Hnd Hf Hg Heq. apply NoDup_cons in Hnd as [Hx Hnd].
  rewrite list_elem_of_In in Hx.
  destruct Hf as [->|Hf], Hg as [->|Hg]; auto.
  - exfalso. apply Hx. rewrite <- Heq. now apply in_map.
  - exfalso. apply Hx. rewrite Heq. now apply in_map.
Qed.

(** C4 (as amended).  A remote file is selected for download exactly when
    its name is absent from the set of local file names, or a copy of it
    lies in the download directory whose size is strictly less than the
    size of a listing entry of that name; when the names of the listing
    are distinct, that entry is the file itself.  A short copy in the
    directory of current files does not make a file a candidate. *)
Theorem candidate_iff_absent_or_partial_in_downloads
    w ext (server_files : list FileInfo.t) (file : FileInfo.t) :
  let local_files := _get_local_files w ext in
  let candidates :=
    _determine_files_to_download server_files local_files
      (_identify_partial_downloads w server_files) in
  (In file candidates <->
   In file server_files /\
   (FileInfo.name file ∉ local_files \/
    exists g, In g server_files /\ FileInfo.name g = FileInfo.name file /\
      short_copy_in_downloads w (FileInfo.name file) (FileInfo.size g))) /\
  (NoDup (map FileInfo.name server_files) -> In file server_files ->
   (In file candidates <->
    FileInfo.name file ∉ local_files \/
    short_copy_in_downloads w (FileInfo.name file) (FileInfo.size file))).
Proof.
  intros local_files candidates.
  assert (Hgen : In file candidates <->
   In file server_files /\
   (FileInfo.name file ∉ local_files \/
    exists g, In g server_files /\ FileInfo.name g = FileInfo.name file /\
      short_copy_in_downloads w (FileInfo.name file) (FileInfo.size g))).
  { unfold candidates, _determine_files_to_download.
    rewrite filter_In. unfold local_files. now rewrite is_candidate_spec. }
  split; [exact Hgen|].
  intros Hnd Hin. rewrite Hgen. split.
  - intros [_ [H|(g & Hg & Hn & Hs)]]; [auto|].
    right. assert (g = file) as -> by eauto using same_name_same_file. exact Hs.
  - intros [H|H]; (split; [exact Hin|]); [auto|]. right. exists file. auto.
Qed.

(** C4, as stated, fails: a file whose only local copy is a short one in
    the directory of current files is present locally with fewer bytes
    than its remote size, and is not a candidate. *)
Lemma short_copy_in_current_files_is_no_candidate :
  let local_files := _get_local_files Examples.w_local "" in
  let candidates := _determine_files_to_download [Examples.f1000] local_files
                      (_identify_partial_downloads Examples.w_local [Examples.f1000]) in
  ~ (In Examples.f1000 candidates <->
     FileInfo.name Examples.f1000 ∉ local_files \/
     (FileInfo.name Examples.f1000 ∈ local_files /\
      short_copy_anywhere Examples.w_local (FileInfo.name Examples.f1000)
        (FileInfo.size Examples.f1000))).
Proof.
  intros local_files candidates [_ H].
  assert (Hc : candidates = []) by (vm_compute; reflexivity).
  rewrite Hc in H. apply H. right. split.
  - unfold local_files. apply get_local_files_spec. split; [reflexivity|].
    left. exists (repeat Byte.x00 400). reflexivity.
  - exists (repeat Byte.x00 400). split; [left; reflexivity|].
    vm_compute. reflexivity.
Qed.

Section FilterFacts.
Context {E : RegexEngine}.

Lemma split_by_regex_from regex (files matching_files filtered_out : list FileInfo.t) :
  fold_left
    (fun (acc : list FileInfo.t * list FileInfo.t) file =>
       let '(matching_files, filtered_out) := acc in
       if re_search regex (FileInfo.name file)
       then ((matching_files ++ [file])%list, filtered_out)
       else (matching_files, (filtered_out ++ [file])%list))
    files (matching_files, filtered_out)
  = ((matching_files ++ List.filter (name_matches regex) files)%list,
     (filtered_out ++ List.filter (fun f => negb (name_matches regex f)) files)%list).
Proof.
  revert matching_files filtered_out.
  induction files as [|file rest IH]; intros m f; cbn [fold_left List.filter].
  - now rewrite !app_nil_r.
  - change (re_search regex (FileInfo.name file)) with (name_matches regex file).
    destruct (name_matches regex file); cbn [negb];
      rewrite IH, <- app_assoc; reflexivity.
Qed.

Lemma split_by_regex_spec regex (files : list FileInfo.t) :
  split_by_regex regex files
  = (List.filter (name_matches regex) files,
     List.filter (fun f => negb (name_matches regex f)) files).
Proof. unfold split_by_regex. now rewrite split_by_regex_from. Qed.

Lemma apply_regex_filter_disabled files s w :
  get_fallback (enabled (config s)) false = false ->
  _apply_regex_filter files s w
  = Returned ([], set_filtered (map FileInfo.name files) s)
      (log WARNING FilteringIsDisabled w).
Proof. intros H. unfold _apply_regex_filter. now rewrite H. Qed.

Lemma apply_regex_filter_invalid files s w :
  get_fallback (enabled (config s)) false = true ->
  re_compile (configured_pattern s) (configured_flags s) = InvalidPattern ->
  _apply_regex_filter files s w
  = Returned ([], set_filtered (map FileInfo.name files) s)
      (log WARNING RegexDisabledInvalidPattern
         (log ERROR (InvalidRegexPattern (configured_pattern s)) w)).
Proof.
  intros H Hc. unfold _apply_regex_filter. rewrite H. simpl.
  unfold configured_pattern, configured_flags in Hc. now rewrite Hc.
Qed.

Lemma apply_regex_filter_raises files s w e :
  get_fallback (enabled (config s)) false = true ->
  re_compile (configured_pattern s) (configured_flags s) = CompileRaised e ->
  _apply_regex_filter files s w = Raised (CompileError e) w.
Proof.
  intros H Hc. unfold _apply_regex_filter. rewrite H. simpl.
  unfold configured_pattern, configured_flags in Hc. now rewrite Hc.
Qed.

Lemma apply_regex_filter_valid files s w regex :
  get_fallback (enabled (config s)) false = true ->
  re_compile (configured_pattern s) (configured_flags s) = Compiled regex ->
  exists w',
    _apply_regex_filter files s w
    = Returned
        (List.filter (name_matches regex) files,
         set_filtered
           (map FileInfo.name (List.filter (fun f => negb (name_matches regex f)) files))
           s)
        w'
    /\ terminate_requested w' = terminate_requested w
    /\ download_dir w' = download_dir w
    /\ local_dir w' = local_dir w.
Proof.
  intros H Hc. unfold _apply_regex_filter. rewrite H. simpl.
  unfold configured_pattern, configured_flags in Hc. rewrite Hc.
  rewrite split_by_regex_spec.
  destruct (List.filter (fun f => negb (name_matches regex f)) files);
    eexists; split; try reflexivity; repeat split; reflexivity.
Qed.

(** What [set_filtered] leaves of a synchronizer. *)
Lemma set_filtered_fields names s :
  filtered_files (set_filtered names s) = names /\
  downloaded_files (set_filtered names s) = downloaded_files s /\
  failed_files (set_filtered names s) = failed_files s /\
  total_bytes_downloaded (set_filtered names s) = total_bytes_downloaded s /\
  config (set_filtered names s) = config s.
Proof. repeat split. Qed.
End FilterFacts.

Section RunFacts.
Context {E : RegexEngine}.
Variable ses : session.
Variable depth : nat.

Lemma sync_from_listing_invalid_pattern fe ext s w :
  get_fallback (enabled (config s)) false = true ->
  re_compile (configured_pattern s) (configured_flags s) = InvalidPattern ->
  terminate_requested w = false ->
  interrupt_at ses AtListing = false ->
  interrupt_at ses AtPlanning = false ->
  get_files ses ext <> [] ->
  exists w',
    FileSynchronizer.sync_from_listing ses depth fe ext s w
    = Some (Returned (true, set_filtered
                        (map FileInfo.name (candidates_of w ext (get_files ses ext))) s) w')
    /\ In (EvLog WARNING RegexDisabledInvalidPattern) (trace w')
    /\ download_dir w' = download_dir w.
Proof.
  intros Hen Hc Ht HaL HaP Hne.
  unfold FileSynchronizer.sync_from_listing, FileSynchronizer.interruptible.
  rewrite HaL. cbn [log emit terminate_requested]. rewrite Ht.
  destruct (get_files ses ext) as [|f0 fs] eqn:Hfiles; [congruence|].
  rewrite apply_regex_filter_invalid by assumption.
  rewrite HaP. cbn [log emit terminate_requested]. rewrite Ht.
  eexists. split; [reflexivity|]. split; [|reflexivity].
  cbn. auto.
Qed.

Lemma sync_from_listing_compile_raises fe ext s w e :
  get_fallback (enabled (config s)) false = true ->
  re_compile (configured_pattern s) (configured_flags s) = CompileRaised e ->
  terminate_requested w = false ->
  interrupt_at ses AtListing = false ->
  get_files ses ext <> [] ->
  FileSynchronizer.sync_from_listing ses depth fe ext s w
  = Some (Raised (CompileError e)
            (log INFO (FoundFiles (Z.of_nat (length (get_files ses ext))))
               (log INFO Connecting w))).
Proof.
  intros Hen Hc Ht HaL Hne.
  unfold FileSynchronizer.sync_from_listing, FileSynchronizer.interruptible.
  rewrite HaL. cbn [log emit terminate_requested]. rewrite Ht.
  destruct (get_files ses ext) as [|f0 fs] eqn:Hfiles; [congruence|].
  now rewrite (apply_regex_filter_raises _ _ _ e) by assumption.
Qed.

(** C3.  With filtering disabled, and with a pattern that [re.compile]
    rejects with [re.error], [_apply_regex_filter] keeps nothing and
    records the names of all candidates as filtered out, leaving a
    warning in the log; with such a pattern the run goes on and [sync]
    returns [True] with nothing downloaded.  A pattern that [re.compile]
    rejects with another exception is not caught: the exception leaves
    [_apply_regex_filter] and [sync], nothing is recorded and no warning
    is logged.  The pattern [a{4294967295}] is one: compiling it raises
    [OverflowError]. *)
Theorem pattern_that_fails_to_compile_is_rejected_or_fatal files ext s w :
  (get_fallback (enabled (config s)) false = false ->
   _apply_regex_filter files s w
   = Returned ([], set_filtered (map FileInfo.name files) s)
       (log WARNING FilteringIsDisabled w) /\
   filtered_files (set_filtered (map FileInfo.name files) s)
   = map FileInfo.name files) /\
  (get_fallback (enabled (config s)) false = true ->
   re_compile (configured_pattern s) (configured_flags s) = InvalidPattern ->
   (_apply_regex_filter files s w
    = Returned ([], set_filtered (map FileInfo.name files) s)
        (log WARNING RegexDisabledInvalidPattern
           (log ERROR (InvalidRegexPattern (configured_pattern s)) w)) /\
    filtered_files (set_filtered (map FileInfo.name files) s)
    = map FileInfo.name files)
   /\
   (terminate_requested w = false ->
    interrupt_at ses AtListing = false ->
    interrupt_at ses AtPlanning = false ->
    get_files ses ext <> [] ->
    exists s' w',
      FileSynchronizer.sync ses depth ext s w = Some (Returned (true, s') w')
      /\ downloaded_files s' = [] /\ failed_files s' = []
      /\ total_bytes_downloaded s' = 0
      /\ filtered_files s'
         = map FileInfo.name (candidates_of w ext (get_files ses ext))
      /\ In (EvLog WARNING RegexDisabledInvalidPattern) (trace w')
      /\ download_dir w' = download_dir w)) /\
  (forall e,
     get_fallback (enabled (config s)) false = true ->
     re_compile (configured_pattern s) (configured_flags s) = CompileRaised e ->
     _apply_regex_filter files s w = Raised (CompileError e) w /\
     (terminate_requested w = false ->
      interrupt_at ses AtListing = false ->
      get_files ses ext <> [] ->
      FileSynchronizer.sync ses depth ext s w
      = Some (Raised (CompileError e)
                (log INFO (FoundFiles (Z.of_nat (length (get_files ses ext))))
                   (log INFO Connecting w))))) /\
  (let overflowing := Examples.settings "a{4294967295}" 3 in
   @re_compile PyRe.engine (configured_pattern overflowing)
     (configured_flags overflowing)
   = CompileRaised OverflowError /\
   @_apply_regex_filter PyRe.engine [Examples.a_laz; Examples.b_laz] overflowing
     Examples.w_scenario
   = Raised (CompileError OverflowError) Examples.w_scenario /\
   @FileSynchronizer.sync PyRe.engine Examples.declining 2 "" overflowing
     Examples.w_scenario
   = Some (Raised (CompileError OverflowError)
             (log INFO (FoundFiles 2) (log INFO Connecting Examples.w_scenario)))).
Proof.
  split; [|split; [|split]].
  - intros Hen. split; [now apply apply_regex_filter_disabled|reflexivity].
  - intros Hen Hc. split; [split; [now apply apply_regex_filter_invalid|reflexivity]|].
    intros Ht HaL HaP Hne.
    unfold FileSynchronizer.sync.
    change (config (reset_state s)) with (config s). rewrite Hen. cbn [negb].
    destruct (sync_from_listing_invalid_pattern true ext (reset_state s) w)
      as (w' & Hrun & Hlog & Hdir); auto.
    rewrite Hrun. eexists _, w'. split; [reflexivity|]. cbn. repeat split; auto.
  - intros e Hen Hc. split; [now apply apply_regex_filter_raises|].
    intros Ht HaL Hne.
    unfold FileSynchronizer.sync.
    change (config (reset_state s)) with (config s). rewrite Hen. cbn [negb].
    now apply sync_from_listing_compile_raises.
  - cbv zeta. split; [reflexivity|]. split; [reflexivity|]. vm_compute. reflexivity.
Qed.

(** C9.  Started with filtering disabled, [sync] prints the warning and
    asks whether to enable filtering with the match-all pattern; on any
    answer but [y] it returns [True] with no file downloaded, no byte
    counted, no request sent and the download directory untouched; on [y]
    it goes on with filtering enabled and the pattern [.*]. *)
Theorem declined_confirmation_ends_run ext s w :
  get_fallback (enabled (config s)) false = false ->
  let user_response := input ses (inputs_read (trace w)) in
  let asked :=
    emit (EvInput EnableFilteringPrompt user_response)
      (emit (EvPrint FilteringDisabledBanner) w) in
  (Py.lower user_response <> "y" ->
   FileSynchronizer.sync ses depth ext s w
   = Some (Returned (true, reset_state s) (log INFO FilteringRemainsDisabled asked))
   /\ downloaded_files (reset_state s) = []
   /\ total_bytes_downloaded (reset_state s) = 0
   /\ download_dir (log INFO FilteringRemainsDisabled asked) = download_dir w
   /\ requests_issued (trace (log INFO FilteringRemainsDisabled asked))
      = requests_issued (trace w)) /\
  (Py.lower user_response = "y" ->
   FileSynchronizer.sync ses depth ext s w
   = FileSynchronizer.sync_from_listing ses depth false ext
       (enable_match_all (reset_state s))
       (emit (EvPrint FilteringEnabledMatchAll) asked)
   /\ enabled (config (enable_match_all (reset_state s))) = Some true
   /\ pattern (config (enable_match_all (reset_state s))) = Some ".*").
Proof.
  intros Hen user_response asked. unfold FileSynchronizer.sync.
  change (config (reset_state s)) with (config s). rewrite Hen. cbn [negb].
  change (inputs_read (trace (emit (EvPrint FilteringDisabledBanner) w)))
    with (inputs_read (trace w)).
  fold user_response. split; intros Hresp.
  - apply String.eqb_neq in Hresp. rewrite Hresp. repeat split; reflexivity.
  - apply String.eqb_eq in Hresp. rewrite Hresp. repeat split; reflexivity.
Qed.
End RunFacts.

(** C6.  With filtering enabled and a pattern that compiles, the files
    kept are exactly the candidates whose name the pattern finds a match
    in ([search], under the configured case flag), and the names filtered
    out are those of the others, both in the order of the candidate list.
    With the pattern [G2-W08-2-.*], case-insensitive, [g2-w08-2-001.laz]
    is kept and [g3-w08-2-001.laz] is filtered out. *)
Theorem filter_keeps_exactly_the_matches :
  (forall (E : RegexEngine) files s w regex,
      get_fallback (enabled (config s)) false = true ->
      re_compile (configured_pattern s) (configured_flags s) = Compiled regex ->
      exists s' w',
        _apply_regex_filter files s w
        = Returned (List.filter (name_matches regex) files, s') w' /\
        filtered_files s'
        = map FileInfo.name
            (List.filter (fun f => negb (name_matches regex f)) files) /\
        s' = set_filtered (filtered_files s') s /\
        downloaded_files s' = downloaded_files s /\
        failed_files s' = failed_files s /\
        (forall f, In f (List.filter (name_matches regex) files) <->
                   In f files /\ re_search regex (FileInfo.name f) = true) /\
        (forall n, In n (filtered_files s') <->
                   exists f, In f files /\ FileInfo.name f = n /\
                             re_search regex n = false)) /\
  (forall u1 u2 m1 m2 z1 z2 mr rd w,
      let kept := FileInfo.mk "g2-w08-2-001.laz" u1 z1 m1 in
      let rejected := FileInfo.mk "g3-w08-2-001.laz" u2 z2 m2 in
      let s := mkSync (mkFilter (Some true) (Some "G2-W08-2-.*") (Some false))
                 mr rd [] [] [] 0 in
      exists s' w',
        @_apply_regex_filter PyRe.engine [kept; rejected] s w
        = Returned ([kept], s') w' /\
        filtered_files s' = ["g3-w08-2-001.laz"]).
Proof.
  split.
  - intros E files s w regex Hen Hc.
    destruct (apply_regex_filter_valid files s w regex Hen Hc) as (w' & Heq & _).
    eexists _, w'. split; [exact Heq|].
    split; [reflexivity|]. split; [reflexivity|]. split; [reflexivity|].
    split; [reflexivity|]. split.
    + intros f. now rewrite filter_In.
    + intros n. cbn [filtered_files set_filtered]. rewrite in_map_iff. split.
      * intros (f & <- & [Hin Hno]%filter_In). exists f.
        apply negb_true_iff in Hno. auto.
      * intros (f & Hin & <- & Hno). exists f. split; [reflexivity|].
        apply filter_In. split; [exact Hin|]. now apply negb_true_iff.
  - intros. eexists _, _. split; vm_compute; reflexivity.
Qed.

(** C7.  For the listing [a.laz] (1000 bytes), [b.laz] (2000 bytes), with
    400 bytes of [a.laz] in the download directory and the pattern [.*],
    case-insensitive, the files to download are [a.laz] then [b.laz], the
    transfers resume from byte 400 and byte 0, and the estimated total is
    2600 bytes. *)
Theorem end_to_end_plan (ua ub ma mb : string) (content : list Byte.byte) mr rd :
  Py.len content = 400 ->
  let a := FileInfo.mk "a.laz" ua 1000 ma in
  let b := FileInfo.mk "b.laz" ub 2000 mb in
  let w := mkWorld ∅ {["a.laz" := content]} false [] in
  let s := mkSync (mkFilter (Some true) (Some ".*") (Some false)) mr rd [] [] [] 0 in
  let partial_downloads := _identify_partial_downloads w [a; b] in
  let candidates :=
    _determine_files_to_download [a; b] (_get_local_files w "") partial_downloads in
  exists files_to_download s' w',
    @_apply_regex_filter PyRe.engine candidates s w
    = Returned (files_to_download, s') w' /\
    files_to_download = [a; b] /\
    plan w files_to_download = [("a.laz", 400); ("b.laz", 0)] /\
    _calculate_download_size files_to_download partial_downloads = 2600.
Proof.
  intros Hlen a b w s partial_downloads candidates.
  assert (Hpd : partial_downloads = {["a.laz" := mkPartial 400 1000]}).
  { unfold partial_downloads, _identify_partial_downloads. cbn [fold_left].
    unfold record_partial. cbn [FileInfo.name FileInfo.size a b w download_dir].
    rewrite lookup_singleton_eq, Hlen. cbn [Z.ltb Z.compare Pos.compare Pos.compare_cont].
    rewrite lookup_singleton_ne by discriminate. apply insert_empty. }
  assert (Hlf : _get_local_files w "" = {["a.laz"]}).
  { unfold _get_local_files, listdir. cbn [w local_dir download_dir].
    rewrite dom_empty_L, elements_empty, dom_singleton_L, elements_singleton.
    cbn. apply (right_id_L ∅ (∪)). }
  assert (Hc : candidates = [a; b]).
  { unfold candidates. rewrite Hpd, Hlf. vm_compute. reflexivity. }
  exists [a; b]. rewrite Hc, Hpd.
  eexists _, _. split; [vm_compute; reflexivity|]. split; [reflexivity|]. split.
  - unfold plan, Downloader.downloaded_size, exists_, getsize.
    cbn [map FileInfo.name a b w download_dir].
    rewrite lookup_singleton_eq, Hlen, lookup_singleton_ne by discriminate.
    reflexivity.
  - vm_compute. reflexivity.
Qed.

Lemma end_to_end_plan_witness :
  let a := FileInfo.mk "a.laz" "http://host/a.laz" 1000 "2024-01-01" in
  let b := FileInfo.mk "b.laz" "http://host/b.laz" 2000 "2024-01-02" in
  let w := mkWorld ∅ {["a.laz" := repeat Byte.x00 400]} false [] in
  let s := mkSync (mkFilter (Some true) (Some ".*") (Some false)) 3 5 [] [] [] 0 in
  let partial_downloads := _identify_partial_downloads w [a; b] in
  let candidates :=
    _determine_files_to_download [a; b] (_get_local_files w "") partial_downloads in
  exists files_to_download s' w',
    @_apply_regex_filter PyRe.engine candidates s w
    = Returned (files_to_download, s') w' /\
    files_to_download = [a; b] /\
    plan w files_to_download = [("a.laz", 400); ("b.laz", 0)] /\
    _calculate_download_size files_to_download partial_downloads = 2600.
Proof.
  apply (end_to_end_plan "http://host/a.laz" "http://host/b.laz" "2024-01-01" "2024-01-02"
           (repeat Byte.x00 400) 3 5).
  vm_compute. reflexivity.
Defined.

(** * Properties of the transfer *)

Ltac decide_true :=
  repeat match goal with
         | |- context [bool_decide (?x = ?x)] =>
             rewrite (bool_decide_eq_true_2 (x = x) eq_refl)
         end.

(** Closes [advances P b w n w'] once the new events are given. *)
Ltac by_events :=
  split; [reflexivity | split; [cbn; decide_true; reflexivity | reflexivity]].

Lemma counted_app init (new1 new2 : list event) :
  counted init (new2 ++ new1) = counted (counted init new1) new2.
Proof.
  induction new2 as [|e new2 IH]; [reflexivity|].
  destruct e; simpl; rewrite ?IH; reflexivity.
Qed.

Lemma advances_refl P bytes w : advances P bytes w bytes w.
Proof. exists []. auto. Qed.

Lemma advances_trans P b w n w1 m w2 :
  advances P b w n w1 -> advances P n w1 m w2 -> advances P b w m w2.
Proof.
  intros (new1 & Ht1 & Hp1 & ->) (new2 & Ht2 & Hp2 & ->).
  exists (new2 ++ new1)%list. rewrite Ht2, Ht1, app_assoc, forallb_app, Hp1, Hp2.
  now rewrite counted_app.
Qed.

Lemma advances_emit P b w e :
  P e = true -> advances P b w (counted b [e]) (emit e w).
Proof. intros H. exists [e]. simpl. now rewrite H. Qed.

Lemma advances_weaken (P Q : event -> bool) b w n w' :
  (forall e, P e = true -> Q e = true) ->
  advances P b w n w' -> advances Q b w n w'.
Proof.
  intros HPQ (new & Ht & Hp & Hn). exists new. repeat split; auto.
  rewrite forallb_forall in *. auto.
Qed.

Lemma ends_with_returned P b w ok n w' :
  advances P b w n w' -> ends_with P b w (Returned (ok, n) w').
Proof. intros H. exists n. split; [exact H|]. now intros ? ? ? [= _ <- _]. Qed.

Lemma ends_with_raised P b w e n w' :
  advances P b w n w' -> ends_with P b w (Raised e w').
Proof. intros H. exists n. split; [exact H|]. discriminate. Qed.

Lemma ends_with_trans P b w n w1 o :
  advances P b w n w1 -> ends_with P n w1 o -> ends_with P b w o.
Proof. intros H (m & Ha & Hr). exists m. eauto using advances_trans. Qed.

Lemma ends_with_weaken (P Q : event -> bool) b w o :
  (forall e, P e = true -> Q e = true) -> ends_with P b w o -> ends_with Q b w o.
Proof. intros HPQ (n & Ha & Hr). exists n. eauto using advances_weaken. Qed.

Section TransferFacts.
Variable env : environment.
Variable self : synchronizer.
Variable file_info : FileInfo.t.

Local Abbreviation name := (FileInfo.name file_info).
Local Abbreviation P := (transfer_event file_info).

Lemma transfer_event_fallback start e : P 0 e = true -> P start e = true.
Proof.
  destruct e as [lvl msg|msg| | | | | |]; simpl; auto.
  - destruct msg; auto. intros H; cbv in H; discriminate H.
  - rewrite !andb_true_iff, !orb_true_iff.
    intros [H1 [H2|H2]]; split; auto; right;
      apply bool_decide_eq_true in H2; apply bool_decide_eq_true; exact H2.
  - rewrite !andb_true_iff, !orb_true_iff.
    intros [H1 [H2|H2]]; split; auto; right;
      apply bool_decide_eq_true in H2; apply bool_decide_eq_true; exact H2.
Qed.

Lemma signal_handler_advances start b w w' :
  signal_handler w = Some w' ->
  advances (P start) b w b w' /\ download_dir w' = download_dir w /\
  terminate_requested w' = true.
Proof.
  unfold signal_handler. destruct (terminate_requested w); [discriminate|].
  intros [= <-]. split; [|auto].
  exists [EvPrint TerminationRequestedBanner; EvSignal]. auto.
Qed.

Lemma getsize_write (n : string) chunk w :
  getsize n (Downloader.write n chunk w) = getsize n w + Py.len chunk.
Proof.
  unfold getsize, Downloader.write. cbn [download_dir].
  rewrite lookup_insert_eq. unfold Py.len.
  destruct (download_dir w !! n); rewrite length_app; simpl; lia.
Qed.



Lemma stream_spec start events ending current_size b w :
  match Downloader.stream name events ending current_size b w with
  | Downloader.StreamDone n w' =>
      advances (P start) b w n w' /\ n = b + body_bytes events /\
      getsize name w' = getsize name w + body_bytes events
  | Downloader.StreamCancelled n w' | Downloader.StreamRaised n w' =>
      advances (P start) b w n w'
  | Downloader.StreamExit w' => exists n, advances (P start) b w n w'
  end.
Proof.
  revert current_size b w.
  induction events as [|[chunk|] rest IH]; intros current_size b w; simpl.
  - destruct ending; [|apply advances_refl].
    split; [apply advances_refl|]. lia.
  - destruct (terminate_requested w).
    + apply (advances_emit (P start) b w (EvLog WARNING (DownloadInterrupted name current_size))).
      reflexivity.
    + destruct chunk as [|c chunk].
      * specialize (IH current_size b w). simpl.
        destruct (Downloader.stream name rest ending current_size b w); auto.
      * set (data := c :: chunk).
        assert (Hw : advances (P start) b w (b + Py.len data) (Downloader.write name data w)).
        { exists [EvWrite name data]. by_events. }
        specialize (IH (current_size + Py.len data) (b + Py.len data)
                       (Downloader.write name data w)).
        destruct (Downloader.stream name rest ending (current_size + Py.len data)
                    (b + Py.len data) (Downloader.write name data w)).
        -- destruct IH as (Ha & Hn & Hs). split; [eauto using advances_trans|].
           rewrite Hs, getsize_write. lia.
        -- eauto using advances_trans.
        -- eauto using advances_trans.
        -- destruct IH as [n Ha]. eauto using advances_trans.
  - destruct (signal_handler w) as [w'|] eqn:Hs.
    + apply (signal_handler_advances start b) in Hs as (Ha & Hd & _).
      specialize (IH current_size b w').
      assert (Hg : getsize name w' = getsize name w) by (unfold getsize; now rewrite Hd).
      destruct (Downloader.stream name rest ending current_size b w').
      * destruct IH as (Ha' & Hn & Hsz). split; [eauto using advances_trans|].
        split; [auto|]. now rewrite Hsz, Hg.
      * eauto using advances_trans.
      * eauto using advances_trans.
      * destruct IH as [n Ha']. eauto using advances_trans.
    + exists b. apply advances_refl.
Qed.

Lemma advances_sent start b w : advances (P start) b w b (sent file_info start w).
Proof.
  unfold sent. destruct (0 <? start) eqn:Hs.
  - exists [EvRequest (FileInfo.url file_info) (Downloader.range_header start);
            EvLog INFO (ResumingFromByte start)].
    cbn [emit log trace]. by_events.
  - exists [EvRequest (FileInfo.url file_info) (Downloader.range_header start)].
    by_events.
Qed.

Lemma requests_issued_sent start w :
  requests_issued (trace (if 0 <? start then log INFO (ResumingFromByte start) w else w))
  = requests_issued (trace w).
Proof. now destruct (0 <? start). Qed.

Lemma requests_get_spec start b w :
  match Downloader.requests_get env file_info start w with
  | inl (rep, w3) =>
      advances (P start) b (sent file_info start w) b w3 /\
      download_dir w3 = download_dir w /\
      rep = answer (server env (requests_issued (trace w))
                      (mkRequest (FileInfo.url file_info)
                         (Downloader.range_header start)))
  | inr w2 => w2 = sent file_info start w
  end.
Proof.
  unfold Downloader.requests_get. rewrite requests_issued_sent. cbn [req_url req_range].
  fold (sent file_info start w).
  destruct (interrupt_in_flight _).
  - destruct (signal_handler (sent file_info start w)) as [w3|] eqn:Hs; [|reflexivity].
    apply (signal_handler_advances start b) in Hs as (Ha & Hd & _).
    split; [exact Ha|]. split; [|reflexivity].
    rewrite Hd. unfold sent. now destruct (0 <? start).
  - split; [apply advances_refl|]. split; [|reflexivity].
    unfold sent. now destruct (0 <? start).
Qed.

Lemma advances_open start b w :
  advances (P start) b w 0 (Downloader.open_ name (Downloader.file_mode start) w).
Proof.
  exists [EvOpen name (Downloader.file_mode start)]. by_events.
Qed.

Lemma attempt_spec start b w :
  match Downloader.attempt env file_info start b w with
  | Downloader.AttemptReturn _ n w' | Downloader.AttemptRaised n w' =>
      advances (P start) b (sent file_info start w) n w'
  | Downloader.AttemptRestart w' =>
      advances (P start) b (sent file_info start w) 0 w' /\ 0 < start
  | Downloader.AttemptExit w' => exists n, advances (P start) b (sent file_info start w) n w'
  end.
Proof.
  unfold Downloader.attempt.
  pose proof (requests_get_spec start b w) as Hreq.
  destruct (Downloader.requests_get env file_info start w) as [[rep w3]|w2].
  2:{ subst w2. exists b. apply advances_refl. }
  destruct Hreq as (Ha & Hd & Hrep). destruct rep as [|r]; [exact Ha|].
  destruct (Downloader.range_refused start r) eqn:Hrr.
  { split.
    - eapply advances_trans; [exact Ha|].
      exists [EvLog WARNING RangeNotSupported]. repeat split. simpl.
      unfold Downloader.range_refused in Hrr. now apply andb_true_iff in Hrr as [-> _].
    - unfold Downloader.range_refused in Hrr. apply andb_true_iff in Hrr as [H _].
      now apply Z.ltb_lt in H. }
  destruct (Downloader.raise_for_status r); [exact Ha|].
  pose proof (advances_open start b w3) as Ho.
  pose proof (stream_spec start (body r) (body_ending r) start 0
                (Downloader.open_ name (Downloader.file_mode start) w3)) as Hst.
  destruct (Downloader.stream name (body r) (body_ending r) start 0
              (Downloader.open_ name (Downloader.file_mode start) w3))
    as [n w4|n w4|n w4|w4].
  - destruct Hst as (Hs & _ & _).
    assert (Hall : advances (P start) b (sent file_info start w) n w4)
      by eauto using advances_trans.
    destruct (_ && _); [|exact Hall].
    eapply advances_trans; [exact Hall|].
    apply (advances_emit (P start) n w4 (EvLog WARNING (SizeLessThanExpected _ _))).
    reflexivity.
  - eauto using advances_trans.
  - eauto using advances_trans.
  - destruct Hst as [n Hs]. eauto using advances_trans.
Qed.

Lemma retry_loop_spec_strong restart start attempts b w o :
  (forall w1 o1, restart w1 = Some o1 -> ends_with (P start) 0 w1 o1) ->
  Downloader.retry_loop env self restart file_info start attempts b w = Some o ->
  ends_with (P start) b w o /\
  (attempts <> [] -> terminate_requested w = false ->
   ends_with (P start) b (sent file_info start w) o).
Proof.
  intros Hrestart. revert b w.
  induction attempts as [|attempt_no rest IH]; intros b w; simpl.
  - intros [= <-]. split; [|congruence]. apply ends_with_returned, advances_refl.
  - destruct (terminate_requested w).
    { intros [= <-]. split; [|discriminate]. apply ends_with_returned.
      apply (advances_emit (P start) b w (EvLog WARNING (TerminationBeforeAttempt name))).
      reflexivity. }
    intros Hrun.
    enough (Hs : ends_with (P start) b (sent file_info start w) o).
    { split; [|auto]. eapply ends_with_trans; [apply advances_sent|exact Hs]. }
    revert Hrun.
    pose proof (attempt_spec start b w) as Hat.
    destruct (Downloader.attempt env file_info start b w) as [ok n w'|w'|n w'|w'].
    + intros [= <-]. now apply ends_with_returned.
    + destruct Hat as [Hat _]. intros Hr. apply Hrestart in Hr.
      eapply ends_with_trans; [exact Hat|exact Hr].
    + destruct (terminate_requested w').
      { intros [= <-]. apply ends_with_returned.
        eapply advances_trans; [exact Hat|].
        apply (advances_emit (P start) n w'
                 (EvLog WARNING (TerminationDuringErrorHandling name))).
        reflexivity. }
      destruct (attempt_no <? max_retries self - 1).
      * destruct (retry_delay self <? 0).
        { intros [= <-]. eapply ends_with_raised.
          eapply advances_trans; [exact Hat|].
          exists [EvLog INFO (RetryingFromByte (retry_delay self)
                                (Downloader.downloaded_size name w'));
                  EvLog WARNING (DownloadError (attempt_no + 1) (max_retries self))].
          by_events. }
        set (w3 := emit (EvSleep (retry_delay self)) _).
        assert (Hw3 : advances (P start) b (sent file_info start w) n w3).
        { eapply advances_trans; [exact Hat|].
          exists [EvSleep (retry_delay self);
                  EvLog INFO (RetryingFromByte (retry_delay self)
                                (Downloader.downloaded_size name w'));
                  EvLog WARNING (DownloadError (attempt_no + 1) (max_retries self))].
          by_events. }
        destruct (interrupt_during_sleep env _).
        -- destruct (signal_handler w3) as [w4|] eqn:Hs.
           ++ apply (signal_handler_advances start n) in Hs as (Ha & _ & _).
              intros Hr. apply IH in Hr as [Hr _].
              eapply ends_with_trans; [|exact Hr]. eauto using advances_trans.
           ++ intros [= <-]. eapply ends_with_raised. exact Hw3.
        -- intros Hr. apply IH in Hr as [Hr _].
           eapply ends_with_trans; [exact Hw3|exact Hr].
      * intros [= <-]. apply ends_with_returned.
        eapply advances_trans; [exact Hat|].
        apply (advances_emit (P start) n w'
                 (EvLog ERROR (DownloadFailedAfter (max_retries self)))).
        reflexivity.
    + destruct Hat as [n Hat]. intros [= <-].
      eapply ends_with_raised. exact Hat.
Qed.

Lemma retry_loop_spec restart start attempts b w o :
  (forall w1 o1, restart w1 = Some o1 -> ends_with (P start) 0 w1 o1) ->
  Downloader.retry_loop env self restart file_info start attempts b w = Some o ->
  ends_with (P start) b w o.
Proof. intros Hr Hrun. now apply (retry_loop_spec_strong restart start attempts b w o Hr). Qed.

Lemma download_with_retries_spec depth start w o :
  Downloader._download_with_retries env self depth file_info start w = Some o ->
  ends_with (P start) 0 w o.
Proof.
  revert start w o. induction depth as [|depth IH]; intros start w o; simpl.
  - discriminate.
  - apply retry_loop_spec. intros w1 o1 Hr. apply IH in Hr.
    eapply ends_with_weaken; [|exact Hr]. apply transfer_event_fallback.
Qed.

(** ** The recursion of [_download_with_retries] stops at depth two *)

Lemma attempt_never_restarts_from_zero start b w w' :
  start <= 0 -> Downloader.attempt env file_info start b w <> Downloader.AttemptRestart w'.
Proof.
  intros Hs. unfold Downloader.attempt.
  destruct (Downloader.requests_get env file_info start w) as [[[|r] w3]|w2];
    try discriminate.
  unfold Downloader.range_refused.
  replace (0 <? start) with false by (symmetry; apply Z.ltb_ge; lia).
  cbn [andb]. destruct (Downloader.raise_for_status r); [discriminate|].
  destruct (Downloader.stream _ _ _ _ _ _); try discriminate.
  destruct (_ && _); discriminate.
Qed.

Lemma retry_loop_ext restart1 restart2 start attempts b w :
  (forall w1, restart1 w1 = restart2 w1) ->
  Downloader.retry_loop env self restart1 file_info start attempts b w
  = Downloader.retry_loop env self restart2 file_info start attempts b w.
Proof.
  intros Hext. revert b w.
  induction attempts as [|attempt_no rest IH]; intros b w; simpl; [reflexivity|].
  destruct (terminate_requested w); [reflexivity|].
  destruct (Downloader.attempt env file_info start b w); auto.
  destruct (terminate_requested w0); [reflexivity|].
  destruct (_ <? _); [|reflexivity].
  destruct (retry_delay self <? 0); [reflexivity|].
  destruct (interrupt_during_sleep env _); [|apply IH].
  destruct (signal_handler _); [apply IH|reflexivity].
Qed.

Lemma retry_loop_from_zero restart1 restart2 start attempts b w :
  start <= 0 ->
  Downloader.retry_loop env self restart1 file_info start attempts b w
  = Downloader.retry_loop env self restart2 file_info start attempts b w.
Proof.
  intros Hs. revert b w.
  induction attempts as [|attempt_no rest IH]; intros b w; simpl; [reflexivity|].
  destruct (terminate_requested w); [reflexivity|].
  pose proof (attempt_never_restarts_from_zero start b w) as Hnr.
  destruct (Downloader.attempt env file_info start b w) as [ok n w'|w'|n w'|w'];
    try reflexivity.
  - exfalso. now apply (Hnr w').
  - destruct (terminate_requested w'); [reflexivity|].
    destruct (_ <? _); [|reflexivity].
  destruct (retry_delay self <? 0); [reflexivity|].
    destruct (interrupt_during_sleep env _); [|apply IH].
    destruct (signal_handler _); [apply IH|reflexivity].
Qed.

Lemma retry_loop_total restart start attempts b w :
  (forall w1, is_Some (restart w1)) ->
  is_Some (Downloader.retry_loop env self restart file_info start attempts b w).
Proof.
  intros Htot. revert b w.
  induction attempts as [|attempt_no rest IH]; intros b w; simpl; [eauto|].
  destruct (terminate_requested w); [eauto|].
  destruct (Downloader.attempt env file_info start b w) as [ok n w'|w'|n w'|w']; eauto.
  destruct (terminate_requested w'); [eauto|].
  destruct (_ <? _); [|eauto].
  destruct (retry_delay self <? 0); [eauto|].
  destruct (interrupt_during_sleep env _); [|apply IH].
  destruct (signal_handler _); [apply IH|eauto].
Qed.

Lemma download_with_retries_from_zero depth w :
  Downloader._download_with_retries env self (S depth) file_info 0 w
  = Downloader._download_with_retries env self 1 file_info 0 w
  /\ is_Some (Downloader._download_with_retries env self 1 file_info 0 w).
Proof.
  split.
  - simpl. apply retry_loop_from_zero. lia.
  - simpl.
    rewrite (retry_loop_from_zero _ (fun w1 => Some (Returned (false, 0) w1))) by lia.
    apply retry_loop_total. eauto.
Qed.

Lemma download_with_retries_total depth start w :
  Downloader._download_with_retries env self (S (S depth)) file_info start w
  = Downloader._download_with_retries env self 2 file_info start w
  /\ is_Some (Downloader._download_with_retries env self 2 file_info start w).
Proof.
  split.
  - cbn [Downloader._download_with_retries]. apply retry_loop_ext. intros w1.
    apply (download_with_retries_from_zero depth w1).
  - cbn [Downloader._download_with_retries]. apply retry_loop_total. intros w1.
    apply (download_with_retries_from_zero 0 w1).
Qed.

Lemma range_positive n : 0 < n -> exists rest, Py.range n = 0 :: rest.
Proof.
  intros Hn. unfold Py.range.
  destruct (Z.to_nat n) as [|m] eqn:Hm; [lia|]. simpl. eauto.
Qed.

(** ** The transfer restarted from byte 0 *)


Lemma restarts_app (new old : list event) :
  restarts (new ++ old) = (restarts new + restarts old)%nat.
Proof.
  induction new as [|e new IH]; [reflexivity|].
  destruct e as [lvl msg| | | | | | |]; simpl; auto. destruct msg; simpl; auto.
Qed.




Lemma download_with_retries_unfold depth start w :
  Downloader._download_with_retries env self (S depth) file_info start w
  = Downloader.retry_loop env self
      (Downloader._download_with_retries env self depth file_info 0)
      file_info start (Py.range (max_retries self)) 0 w.
Proof. reflexivity. Qed.


(** ** Counting the fallbacks *)

Lemma restarts_signal_handler w w' :
  signal_handler w = Some w' -> restarts (trace w') = restarts (trace w).
Proof.
  unfold signal_handler. destruct (terminate_requested w); [discriminate|].
  now intros [= <-].
Qed.

Lemma restarts_stream events ending current_size b w :
  match Downloader.stream name events ending current_size b w with
  | Downloader.StreamDone _ w' | Downloader.StreamCancelled _ w'
  | Downloader.StreamRaised _ w' | Downloader.StreamExit w' =>
      restarts (trace w') = restarts (trace w)
  end.
Proof.
  revert current_size b w.
  induction events as [|[chunk|] rest IH]; intros current_size b w; simpl.
  - now destruct ending.
  - destruct (terminate_requested w); [reflexivity|].
    destruct chunk as [|c chunk]; [apply IH|].
    specialize (IH (current_size + Py.len (c :: chunk)) (b + Py.len (c :: chunk))
                   (Downloader.write name (c :: chunk) w)).
    destruct (Downloader.stream _ _ _ _ _ _); exact IH.
  - destruct (signal_handler w) as [w'|] eqn:Hs; [|reflexivity].
    apply restarts_signal_handler in Hs. specialize (IH current_size b w').
    destruct (Downloader.stream _ _ _ _ _ _); congruence.
Qed.

Lemma restarts_sent start w :
  restarts (trace (sent file_info start w)) = restarts (trace w).
Proof. unfold sent. now destruct (0 <? start). Qed.

Lemma restarts_requests_get start w :
  match Downloader.requests_get env file_info start w with
  | inl (_, w') | inr w' => restarts (trace w') = restarts (trace w)
  end.
Proof.
  unfold Downloader.requests_get. cbn [req_url req_range].
  fold (sent file_info start w).
  destruct (interrupt_in_flight _).
  - destruct (signal_handler (sent file_info start w)) as [w3|] eqn:Hs.
    + apply restarts_signal_handler in Hs. now rewrite Hs, restarts_sent.
    + apply restarts_sent.
  - apply restarts_sent.
Qed.

(** An attempt leaves the number of fallbacks as it is, unless it ends
    in the fallback itself. *)
Lemma restarts_attempt start b w :
  match Downloader.attempt env file_info start b w with
  | Downloader.AttemptReturn _ _ w' | Downloader.AttemptRaised _ w'
  | Downloader.AttemptExit w' => restarts (trace w') = restarts (trace w)
  | Downloader.AttemptRestart w' =>
      0 < start /\
      exists w3, w' = log WARNING RangeNotSupported w3 /\
                 restarts (trace w3) = restarts (trace w)
  end.
Proof.
  unfold Downloader.attempt.
  pose proof (restarts_requests_get start w) as Hreq.
  destruct (Downloader.requests_get env file_info start w) as [[[|r] w3]|w2]; auto.
  destruct (Downloader.range_refused start r) eqn:Hrr.
  { unfold Downloader.range_refused in Hrr. apply andb_true_iff in Hrr as [H _].
    apply Z.ltb_lt in H. eauto. }
  destruct (Downloader.raise_for_status r); [exact Hreq|].
  pose proof (restarts_stream (body r) (body_ending r) start 0
                (Downloader.open_ name (Downloader.file_mode start) w3)) as Hst.
  cbn [Downloader.open_ trace restarts] in Hst.
  destruct (Downloader.stream _ _ _ _ _ _); try congruence.
  destruct (_ && _); cbn [log emit trace restarts]; congruence.
Qed.

(** A retry loop either ends without the fallback, or its outcome is
    that of the fallback call, entered once. *)
Lemma retry_loop_restarts restart start attempts b w o :
  Downloader.retry_loop env self restart file_info start attempts b w = Some o ->
  restarts (trace (world_of o)) = restarts (trace w) \/
  (0 < start /\
   exists w3, restarts (trace w3) = restarts (trace w) /\
              restart (log WARNING RangeNotSupported w3) = Some o).
Proof.
  revert b w. induction attempts as [|attempt_no rest IH]; intros b w; simpl.
  - intros [= <-]. now left.
  - destruct (terminate_requested w); [intros [= <-]; now left|].
    pose proof (restarts_attempt start b w) as Hat.
    destruct (Downloader.attempt env file_info start b w) as [ok n w'|w'|n w'|w'].
    + intros [= <-]. now left.
    + destruct Hat as (Hs & w3 & -> & Hr). intros Hrun. right. eauto.
    + destruct (terminate_requested w'); [intros [= <-]; now left|].
      destruct (_ <? _); [|intros [= <-]; now left].
      destruct (retry_delay self <? 0); [intros [= <-]; left; exact Hat|].
      set (w3 := emit (EvSleep (retry_delay self)) _).
      assert (Hw3 : restarts (trace w3) = restarts (trace w)) by exact Hat.
      destruct (interrupt_during_sleep env _).
      * destruct (signal_handler w3) as [w4|] eqn:Hs; [|intros [= <-]; now left].
        apply restarts_signal_handler in Hs. intros Hrun. apply IH in Hrun.
        rewrite Hs, Hw3 in Hrun. exact Hrun.
      * intros Hrun. apply IH in Hrun. rewrite Hw3 in Hrun. exact Hrun.
    + intros [= <-]. now left.
Qed.

Lemma restarts_from_zero depth w o :
  Downloader._download_with_retries env self depth file_info 0 w = Some o ->
  restarts (trace (world_of o)) = restarts (trace w).
Proof.
  destruct depth as [|depth]; [discriminate|].
  rewrite download_with_retries_unfold. intros Hrun.
  apply retry_loop_restarts in Hrun as [H|[H _]]; [exact H|lia].
Qed.


(** C8.  An attempt that begins with the termination flag set returns at
    once: the result is a failure carrying the counter as it stands, no
    request is sent and no file is touched; a fetch that starts with the
    flag set returns a failure with zero bytes. *)
Theorem cancelled_attempt_returns_without_request restart start attempt_no rest b w :
  terminate_requested w = true ->
  let w' := log WARNING (TerminationBeforeAttempt name) w in
  Downloader.retry_loop env self restart file_info start (attempt_no :: rest) b w
  = Some (Returned (false, b) w')
  /\ requests_issued (trace w') = requests_issued (trace w)
  /\ download_dir w' = download_dir w
  /\ (0 < max_retries self ->
      forall depth,
        Downloader._download_with_retries env self (S depth) file_info start w
        = Some (Returned (false, 0) w')).
Proof.
  intros Ht w'. simpl. rewrite Ht. repeat split.
  intros Hmax depth. simpl.
  destruct (range_positive _ Hmax) as [rest' ->]. simpl. now rewrite Ht.
Qed.

(** C5.  When an attempt receives a response and streams its body to the
    end without a network error, and the expected total size is positive
    while the file on disk is shorter, the fetch returns a failure. *)
Theorem truncated_transfer_fails restart start attempt_no rest b w r w3 n w4 :
  terminate_requested w = false ->
  Downloader.requests_get env file_info start w = inl (Response r, w3) ->
  Downloader.range_refused start r = false ->
  Downloader.raise_for_status r = false ->
  Downloader.stream name (body r) (body_ending r) start 0
    (Downloader.open_ name (Downloader.file_mode start) w3)
  = Downloader.StreamDone n w4 ->
  0 < Downloader.expected_total_size r start ->
  getsize name w4 < Downloader.expected_total_size r start ->
  Downloader.retry_loop env self restart file_info start (attempt_no :: rest) b w
  = Some (Returned (false, n)
            (log WARNING
               (SizeLessThanExpected (getsize name w4)
                  (Downloader.expected_total_size r start)) w4)).
Proof.
  intros Ht Hreq Hrr Hrs Hst Hpos Hshort. simpl. rewrite Ht.
  unfold Downloader.attempt. rewrite Hreq, Hrr, Hrs, Hst.
  apply Z.ltb_lt in Hpos, Hshort. now rewrite Hpos, Hshort.
Qed.
End TransferFacts.

(** ** What a call counts *)

Lemma accounted_segment file_info start (seg : list event) :
  forallb (transfer_event file_info start) seg = true ->
  forall counting n e i t rest,
    accounted counting
      (seg ++ EvPrint (FileHeader n e) :: EvPrint (FileOf i t) :: rest)
    = (if counting then counted 0 seg else 0) + accounted true rest.
Proof.
  induction seg as [|ev seg IH]; intros Hall counting n e i t rest.
  - simpl. destruct counting; lia.
  - cbn [forallb] in Hall. apply andb_true_iff in Hall as [Hev Hall].
    specialize (IH Hall).
    destruct ev as [lvl msg|msg| | | | | |]; cbn [app accounted counted];
      try (rewrite IH; destruct counting; lia).
    + destruct msg; rewrite IH; destruct counting; lia.
    + destruct msg; try discriminate Hev. apply IH.
Qed.

Section RunTotals.
Variable ses : session.
Variable depth : nat.

Lemma download_loop_accounts files i total success_count s w b s' w' :
  FileSynchronizer.download_loop ses depth files i total success_count s w
  = Some (Returned (b, s') w') ->
  exists new,
    trace w' = (new ++ trace w)%list /\
    total_bytes_downloaded s' = total_bytes_downloaded s + accounted true new /\
    forall rest, accounted true (new ++ rest) = accounted true new + accounted true rest.
Proof.
  revert i success_count s w.
  induction files as [|file rest IH]; intros i success_count s w; simpl.
  - intros [= _ <- <-]. exists []. simpl. repeat split; intros; try reflexivity; lia.
  - destruct (terminate_requested w).
    { intros [= _ <- <-]. exists [EvLog WARNING (TerminationStopping success_count total)].
      simpl. repeat split; intros; try reflexivity; lia. }
    destruct (_ && _); [discriminate|].
    set (w1 := emit (EvPrint (FileHeader _ _)) _).
    destruct (Downloader.download (net ses) s depth file w1) as [[[ok n] w2|e w2]|] eqn:Hd;
      try discriminate.
    apply download_with_retries_spec in Hd as (n' & (seg & Ht & Hall & Hn) & Hret).
    specialize (Hret ok n w2 eq_refl). subst n'. cbn [world_of] in Ht.
    assert (Hfin : forall sx,
               total_bytes_downloaded sx = total_bytes_downloaded s + n ->
               exists new,
                 trace w2 = (new ++ trace w)%list /\
                 total_bytes_downloaded sx = total_bytes_downloaded s + accounted true new /\
                 forall tail, accounted true (new ++ tail)
                              = accounted true new + accounted true tail).
    { intros sx Hsx.
      exists (seg ++ [EvPrint (FileHeader (FileInfo.name file)
                                 (Downloader.downloaded_size (FileInfo.name file) w));
                      EvPrint (FileOf i total)])%list.
      split; [rewrite Ht; unfold w1; cbn [emit trace]; now rewrite <- app_assoc|].
      assert (Hacc : forall tail,
                 accounted true
                   ((seg ++ [EvPrint (FileHeader (FileInfo.name file)
                                        (Downloader.downloaded_size (FileInfo.name file) w));
                             EvPrint (FileOf i total)]) ++ tail)
                 = n + accounted true tail).
      { intros tail. rewrite <- app_assoc. cbn [app].
        rewrite (accounted_segment _ _ seg Hall). lia. }
      split.
      - rewrite Hsx. specialize (Hacc []). rewrite app_nil_r in Hacc.
        rewrite Hacc. simpl. lia.
      - intros tail. rewrite Hacc. specialize (Hacc []). rewrite app_nil_r in Hacc.
        rewrite Hacc. simpl. lia. }
    assert (Hnext : forall i2 sc2 sx,
               total_bytes_downloaded sx = total_bytes_downloaded s + n ->
               FileSynchronizer.download_loop ses depth rest i2 total sc2 sx w2
               = Some (Returned (b, s') w') ->
               exists new,
                 trace w' = (new ++ trace w)%list /\
                 total_bytes_downloaded s' = total_bytes_downloaded s + accounted true new /\
                 forall tail, accounted true (new ++ tail)
                              = accounted true new + accounted true tail).
    { intros i2 sc2 sx Hsx Hrun.
      apply IH in Hrun as (new2 & Ht2 & Htot2 & Hadd2).
      destruct (Hfin sx Hsx) as (new1 & Ht1 & Htot1 & Hadd1).
      exists (new2 ++ new1)%list. split; [now rewrite Ht2, Ht1, app_assoc|]. split.
      - rewrite Htot2, Htot1, Hadd2. lia.
      - intros tail. rewrite <- app_assoc, !Hadd2, Hadd1. lia. }
    destruct ok.
    + apply Hnext. reflexivity.
    + destruct (terminate_requested w2).
      * intros [= _ <- <-]. apply Hfin. reflexivity.
      * apply Hnext. reflexivity.
Qed.

Lemma download_loop_total files i total success_count s w :
  is_Some (FileSynchronizer.download_loop ses 2 files i total success_count s w).
Proof.
  revert i success_count s w.
  induction files as [|file rest IH]; intros i success_count s w; simpl; [eauto|].
  destruct (terminate_requested w); [eauto|].
  destruct (_ && _); [eauto|].
  set (w1 := emit (EvPrint (FileHeader _ _)) _).
  destruct (download_with_retries_total (net ses) s file 0
              (Downloader.downloaded_size (FileInfo.name file) w1) w1)
    as [_ [o Ho]].
  unfold Downloader.download. rewrite Ho.
  destruct o as [[ok n] w2|e w2]; [|eauto].
  destruct ok; [apply IH|]. destruct (terminate_requested w2); [eauto|apply IH].
Qed.
End RunTotals.

(** C10 (as amended).  A download call returns, and the count it returns
    is the value of a counter that restarts from zero whenever a file is
    opened for streaming and when the fallback call begins, and that
    grows with every write: bytes written before the last such point are
    not in it.  [_download_files] adds exactly these counts to
    [total_bytes_downloaded]. *)
Theorem returned_count_is_counter_since_last_reset env self file_info w :
  (exists o, Downloader.download env self 2 file_info w = Some o) /\
  (forall depth ok n w',
      Downloader.download env self depth file_info w = Some (Returned (ok, n) w') ->
      exists new, trace w' = (new ++ trace w)%list /\ n = counted 0 new) /\
  (forall ses files,
      exists o, FileSynchronizer._download_files ses 2 files self w = Some o) /\
  (forall ses depth files b s' w',
      FileSynchronizer._download_files ses depth files self w
      = Some (Returned (b, s') w') ->
      exists new,
        trace w' = (new ++ trace w)%list /\
        total_bytes_downloaded s' = total_bytes_downloaded self + accounted true new).
Proof.
  split; [|split; [|split]].
  - apply (download_with_retries_total env self file_info 0).
  - intros depth ok n w' Hrun. apply download_with_retries_spec in Hrun.
    destruct Hrun as (m & (new & Hnew & _ & Hm) & Hret).
    exists new. split; [exact Hnew|]. now rewrite (Hret ok n w' eq_refl).
  - intros ses files. apply download_loop_total.
  - intros ses depth files b s' w' Hrun.
    apply download_loop_accounts in Hrun as (new & Hnew & Htot & _). eauto.
Qed.


(** Whatever is on disk, every request of a fetch asks for the range
    from the position the fetch was called with, or for no range. *)
Lemma requests_keep_the_start_position env self file_info depth start w o :
  Downloader._download_with_retries env self depth file_info start w = Some o ->
  exists new,
    trace (world_of o) = (new ++ trace w)%list /\
    forall u range,
      In (EvRequest u range) new ->
      range = Downloader.range_header start \/ range = None.
Proof.
  intros Hrun. apply download_with_retries_spec in Hrun.
  destruct Hrun as (n & (new & Hnew & Hall & _) & _).
  exists new. split; [exact Hnew|]. intros u range Hin.
  rewrite forallb_forall in Hall. specialize (Hall _ Hin). cbn in Hall.
  apply andb_true_iff in Hall as [_ Hall].
  apply orb_true_iff in Hall as [H|H]; apply bool_decide_eq_true in H; auto.
Qed.

(** C1 is not met by the code.  Four of ten bytes are on disk; the first
    attempt appends two more and breaks; the handler reads the new size,
    6, and logs it, but the retry asks again for the range from byte 4
    and appends it: bytes 4 and 5 are written twice, the file ends with
    12 bytes, and the fetch reports success. *)
Theorem retry_requests_the_original_offset_again :
  exists w',
    Downloader.download Examples.breaks_once (Examples.settings ".*" 2) 2
      Examples.ten Examples.w_four
    = Some (Returned (true, 6) w') /\
    rev (trace w')
    = [EvLog INFO (ResumingFromByte 4);
       EvRequest "http://host/ten.laz" (Some 4);
       EvOpen "ten.laz" AB;
       EvWrite "ten.laz" [Byte.x34; Byte.x35];
       EvLog WARNING (DownloadError 1 2);
       EvLog INFO (RetryingFromByte 5 6);
       EvSleep 5;
       EvLog INFO (ResumingFromByte 4);
       EvRequest "http://host/ten.laz" (Some 4);
       EvOpen "ten.laz" AB;
       EvWrite "ten.laz" [Byte.x34; Byte.x35; Byte.x36; Byte.x37; Byte.x38; Byte.x39]] /\
    download_dir w' !! "ten.laz"
    = Some (firstn 6 Examples.remote_data ++ skipn 4 Examples.remote_data)%list /\
    getsize "ten.laz" w' = 12.
Proof.
  vm_compute. eexists. split; [reflexivity|]. repeat split.
Qed.

(** C10, as stated, fails: when the first attempt writes four bytes and
    breaks, and the second and final attempt cannot connect, the call
    returns the count 4 although its final attempt wrote nothing. *)
Lemma stale_count_after_failed_final_attempt :
  ~ (forall ok n w',
        Downloader.download Examples.breaks_then_unreachable (Examples.settings ".*" 2) 2
          Examples.ten Examples.w_empty
        = Some (Returned (ok, n) w') ->
        (1 < requests_issued (trace w'))%nat ->
        n = written_since_request (trace w')).
Proof.
  intros H.
  assert (Hrun : exists w',
             Downloader.download Examples.breaks_then_unreachable
               (Examples.settings ".*" 2) 2 Examples.ten Examples.w_empty
             = Some (Returned (false, 4) w') /\
             requests_issued (trace w') = 2%nat /\
             written_since_request (trace w') = 0).
  { vm_compute. eexists. split; [reflexivity|]. split; reflexivity. }
  destruct Hrun as (w' & Hrun & Hreq & Hw).
  specialize (H false 4 w' Hrun). rewrite Hreq, Hw in H.
  assert (4 = 0) by (apply H; lia). discriminate.
Qed.

(** * Instances *)



Lemma truncated_transfer_fails_witness :
  let r := Examples.whole_content [Chunk (firstn 4 Examples.remote_data)] EndOfBody in
  let w3 := sent Examples.ten 0 Examples.w_empty in
  let w4 := Downloader.write "ten.laz" (firstn 4 Examples.remote_data)
              (Downloader.open_ "ten.laz" WB w3) in
  terminate_requested Examples.w_empty = false /\
  Downloader.requests_get Examples.closes_early Examples.ten 0 Examples.w_empty
  = inl (Response r, w3) /\
  Downloader.range_refused 0 r = false /\
  Downloader.raise_for_status r = false /\
  Downloader.stream "ten.laz" (body r) (body_ending r) 0 0
    (Downloader.open_ "ten.laz" WB w3) = Downloader.StreamDone 4 w4 /\
  0 < Downloader.expected_total_size r 0 /\
  getsize "ten.laz" w4 < Downloader.expected_total_size r 0 /\
  Downloader.retry_loop Examples.closes_early (Examples.settings ".*" 3)
    (fun _ => None) Examples.ten 0 [0] 0 Examples.w_empty
  = Some (Returned (false, 4) (log WARNING (SizeLessThanExpected 4 10) w4)).
Proof.
  intros r w3 w4.
  assert (H1 : terminate_requested Examples.w_empty = false) by reflexivity.
  assert (H2 : Downloader.requests_get Examples.closes_early Examples.ten 0 Examples.w_empty
               = inl (Response r, w3)) by reflexivity.
  assert (H3 : Downloader.range_refused 0 r = false) by reflexivity.
  assert (H4 : Downloader.raise_for_status r = false) by reflexivity.
  assert (H5 : Downloader.stream "ten.laz" (body r) (body_ending r) 0 0
                 (Downloader.open_ "ten.laz" WB w3) = Downloader.StreamDone 4 w4)
    by reflexivity.
  assert (H6 : 0 < Downloader.expected_total_size r 0) by (vm_compute; reflexivity).
  assert (H7 : getsize "ten.laz" w4 < Downloader.expected_total_size r 0)
    by (vm_compute; reflexivity).
  repeat (split; [assumption|]).
  exact (truncated_transfer_fails Examples.closes_early (Examples.settings ".*" 3)
           Examples.ten (fun _ => None) 0 0 [] 0 Examples.w_empty r w3 4 w4
           H1 H2 H3 H4 H5 H6 H7).
Defined.

Lemma cancelled_attempt_returns_without_request_witness :
  terminate_requested Examples.w_cancelled = true /\
  Downloader.retry_loop Examples.ignores_range (Examples.settings ".*" 3)
    (fun _ => None) Examples.ten 4 [0; 1; 2] 0 Examples.w_cancelled
  = Some (Returned (false, 0)
            (log WARNING (TerminationBeforeAttempt "ten.laz") Examples.w_cancelled)).
Proof.
  assert (H1 : terminate_requested Examples.w_cancelled = true) by reflexivity.
  split; [exact H1|].
  exact (proj1 (cancelled_attempt_returns_without_request Examples.ignores_range
                  (Examples.settings ".*" 3) Examples.ten (fun _ => None) 4 0 [1; 2] 0
                  Examples.w_cancelled H1)).
Defined.

Lemma returned_count_is_counter_since_last_reset_witness :
  exists w' new,
    Downloader.download Examples.breaks_then_unreachable (Examples.settings ".*" 2) 2
      Examples.ten Examples.w_empty = Some (Returned (false, 4) w') /\
    trace w' = (new ++ trace Examples.w_empty)%list /\ 4 = counted 0 new.
Proof.
  assert (Hrun : exists w',
             Downloader.download Examples.breaks_then_unreachable
               (Examples.settings ".*" 2) 2 Examples.ten Examples.w_empty
             = Some (Returned (false, 4) w')).
  { vm_compute. eexists. reflexivity. }
  destruct Hrun as [w' Hrun].
  destruct (proj1 (proj2 (returned_count_is_counter_since_last_reset
                            Examples.breaks_then_unreachable (Examples.settings ".*" 2)
                            Examples.ten Examples.w_empty)) 2%nat false 4 w' Hrun)
    as (new & Hnew & Hn).
  exists w', new. auto.
Defined.

Lemma candidate_iff_absent_or_partial_in_downloads_witness :
  let files := [Examples.a_laz; Examples.b_laz] in
  let local_files := _get_local_files Examples.w_scenario "" in
  NoDup (map FileInfo.name files) /\
  In Examples.a_laz files /\
  (In Examples.a_laz
      (_determine_files_to_download files local_files
         (_identify_partial_downloads Examples.w_scenario files)) <->
   FileInfo.name Examples.a_laz ∉ local_files \/
   short_copy_in_downloads Examples.w_scenario (FileInfo.name Examples.a_laz)
     (FileInfo.size Examples.a_laz)).
Proof.
  intros files local_files.
  assert (H1 : NoDup (map FileInfo.name files)).
  { apply NoDup_cons. split; [|apply NoDup_singleton].
    intros H%list_elem_of_In. destruct H as [H|[]]. discriminate H. }
  assert (H2 : In Examples.a_laz files) by (left; reflexivity).
  split; [exact H1|]. split; [exact H2|].
  exact (proj2 (candidate_iff_absent_or_partial_in_downloads Examples.w_scenario ""
                  files Examples.a_laz) H1 H2).
Defined.

Lemma filter_keeps_exactly_the_matches_witness :
  let s := Examples.settings ".*" 3 in
  let regex := {| PyRe.rx := PyRe.Star PyRe.Dot; PyRe.ignorecase := true |} in
  let files := [Examples.a_laz; Examples.b_laz] in
  get_fallback (enabled (config s)) false = true /\
  @re_compile PyRe.engine (configured_pattern s) (configured_flags s) = Compiled regex /\
  exists s' w',
    @_apply_regex_filter PyRe.engine files s Examples.w_scenario
    = Returned (List.filter (@name_matches PyRe.engine regex) files, s') w' /\
    filtered_files s'
    = map FileInfo.name
        (List.filter (fun f => negb (@name_matches PyRe.engine regex f)) files).
Proof.
  intros s regex files.
  assert (H1 : get_fallback (enabled (config s)) false = true) by reflexivity.
  assert (H2 : @re_compile PyRe.engine (configured_pattern s) (configured_flags s)
               = Compiled regex) by reflexivity.
  split; [exact H1|]. split; [exact H2|].
  destruct (proj1 filter_keeps_exactly_the_matches PyRe.engine files s
              Examples.w_scenario regex H1 H2) as (s' & w' & Hrun & Hf & _).
  exists s', w'. split; [exact Hrun|exact Hf].
Defined.

Lemma declined_confirmation_ends_run_witness :
  let asked :=
    emit (EvInput EnableFilteringPrompt "n")
      (emit (EvPrint FilteringDisabledBanner) Examples.w_scenario) in
  get_fallback (enabled (config Examples.disabled_settings)) false = false /\
  Py.lower (input Examples.declining (inputs_read (trace Examples.w_scenario))) <> "y" /\
  @FileSynchronizer.sync PyRe.engine Examples.declining 2 "" Examples.disabled_settings
    Examples.w_scenario
  = Some (Returned (true, reset_state Examples.disabled_settings)
            (log INFO FilteringRemainsDisabled asked)).
Proof.
  intros asked.
  assert (H1 : get_fallback (enabled (config Examples.disabled_settings)) false = false)
    by reflexivity.
  assert (H2 : Py.lower (input Examples.declining
                           (inputs_read (trace Examples.w_scenario))) <> "y")
    by discriminate.
  split; [exact H1|]. split; [exact H2|].
  exact (proj1 (proj1 (@declined_confirmation_ends_run PyRe.engine Examples.declining 2 ""
                         Examples.disabled_settings Examples.w_scenario H1) H2)).
Defined.

Lemma pattern_that_fails_to_compile_is_rejected_or_fatal_witness :
  let s := Examples.settings "(" 3 in
  get_fallback (enabled (config s)) false = true /\
  @re_compile PyRe.engine (configured_pattern s) (configured_flags s) = InvalidPattern /\
  terminate_requested Examples.w_scenario = false /\
  interrupt_at Examples.declining AtListing = false /\
  interrupt_at Examples.declining AtPlanning = false /\
  get_files Examples.declining "" <> [] /\
  exists s' w',
    @FileSynchronizer.sync PyRe.engine Examples.declining 2 "" s Examples.w_scenario
    = Some (Returned (true, s') w') /\
    downloaded_files s' = [] /\
    filtered_files s'
    = map FileInfo.name
        (candidates_of Examples.w_scenario "" (get_files Examples.declining "")).
Proof.
  intros s.
  assert (H1 : get_fallback (enabled (config s)) false = true) by reflexivity.
  assert (H2 : @re_compile PyRe.engine (configured_pattern s) (configured_flags s)
               = InvalidPattern) by reflexivity.
  assert (H3 : terminate_requested Examples.w_scenario = false) by reflexivity.
  assert (H4 : interrupt_at Examples.declining AtListing = false) by reflexivity.
  assert (H5 : interrupt_at Examples.declining AtPlanning = false) by reflexivity.
  assert (H6 : get_files Examples.declining "" <> []) by discriminate.
  repeat (split; [assumption|]).
  destruct (proj2 (proj1 (proj2 (@pattern_that_fails_to_compile_is_rejected_or_fatal
                                   PyRe.engine Examples.declining 2 [] "" s
                                   Examples.w_scenario)) H1 H2)
              H3 H4 H5 H6)
    as (s' & w' & Hrun & Hd & _ & _ & Hf & _).
  exists s', w'. auto.
Defined.

(** * Further properties of the transfer *)

(** ** Relations that every step of a transfer preserves *)

Section Preserved.
Variable env : environment.
Variable self : synchronizer.
Variable file_info : FileInfo.t.
Variable start : Z.
Variable R : world -> world -> Prop.

Local Abbreviation name := (FileInfo.name file_info).

Hypothesis R_refl : forall w, R w w.
Hypothesis R_trans : forall w1 w2 w3, R w1 w2 -> R w2 w3 -> R w1 w3.
Hypothesis R_emit : forall e w, restarts [e] = 0%nat -> R w (emit e w).
Hypothesis R_signal : forall w w', signal_handler w = Some w' -> R w w'.
Hypothesis R_write : forall chunk w, R w (Downloader.write name chunk w).
Hypothesis R_open : forall w, R w (Downloader.open_ name (Downloader.file_mode start) w).

Local Hint Extern 1 (R _ (emit _ _)) => apply R_emit; reflexivity : core.
Local Hint Extern 1 (R _ (log _ _ _)) => apply R_emit; reflexivity : core.
Local Hint Resolve R_refl : core.

Lemma stream_preserves events ending current_size b w :
  match Downloader.stream name events ending current_size b w with
  | Downloader.StreamDone _ w' | Downloader.StreamCancelled _ w'
  | Downloader.StreamRaised _ w' | Downloader.StreamExit w' => R w w'
  end.
Proof.
  revert current_size b w.
  induction events as [|[chunk|] rest IH]; intros current_size b w; simpl.
  - destruct ending; auto.
  - destruct (terminate_requested w); [auto|].
    destruct chunk as [|c chunk]; [apply IH|].
    specialize (IH (current_size + Py.len (c :: chunk)) (b + Py.len (c :: chunk))
                   (Downloader.write name (c :: chunk) w)).
    pose proof (R_write (c :: chunk) w).
    destruct (Downloader.stream _ _ _ _ _ _); eauto.
  - destruct (signal_handler w) as [w'|] eqn:Hs; [|auto].
    specialize (IH current_size b w'). apply R_signal in Hs.
    destruct (Downloader.stream _ _ _ _ _ _); eauto.
Qed.

Lemma requests_get_preserves w :
  match Downloader.requests_get env file_info start w with
  | inl (_, w') | inr w' => R w w'
  end.
Proof.
  unfold Downloader.requests_get.
  set (w1 := if 0 <? start then _ else w).
  assert (H1 : R w w1) by (unfold w1; destruct (0 <? start); auto).
  set (w2 := emit _ w1). assert (H2 : R w w2) by (eapply R_trans; [exact H1|unfold w2; auto]).
  destruct (interrupt_in_flight _); [|exact H2].
  destruct (signal_handler w2) eqn:Hs; [|exact H2]. eauto.
Qed.

Lemma attempt_preserves b w :
  match Downloader.attempt env file_info start b w with
  | Downloader.AttemptReturn _ _ w' | Downloader.AttemptRaised _ w'
  | Downloader.AttemptExit w' => R w w'
  | Downloader.AttemptRestart w' =>
      exists w3, w' = log WARNING RangeNotSupported w3 /\ R w w3
  end.
Proof.
  unfold Downloader.attempt.
  pose proof (requests_get_preserves w) as Hreq.
  destruct (Downloader.requests_get env file_info start w) as [[[|r] w3]|w2]; auto.
  destruct (Downloader.range_refused start r); [eauto|].
  destruct (Downloader.raise_for_status r); [exact Hreq|].
  pose proof (stream_preserves (body r) (body_ending r) start 0
                (Downloader.open_ name (Downloader.file_mode start) w3)) as Hst.
  pose proof (R_open w3) as Ho.
  destruct (Downloader.stream _ _ _ _ _ _); eauto.
  destruct (_ && _); eauto.
Qed.

Lemma retry_loop_preserves restart attempts b w o :
  Downloader.retry_loop env self restart file_info start attempts b w = Some o ->
  R w (world_of o) \/
  exists w3, R w w3 /\ restart (log WARNING RangeNotSupported w3) = Some o.
Proof.
  revert b w. induction attempts as [|attempt_no rest IH]; intros b w; simpl.
  - intros [= <-]. left. auto.
  - destruct (terminate_requested w); [intros [= <-]; left; cbn [world_of]; auto|].
    pose proof (attempt_preserves b w) as Hat.
    destruct (Downloader.attempt env file_info start b w) as [ok n w'|w'|n w'|w'].
    + intros [= <-]. now left.
    + destruct Hat as (w3 & -> & Hr). intros Hrun. right. eauto.
    + destruct (terminate_requested w').
      { intros [= <-]. left. eapply R_trans; [exact Hat|cbn [world_of]; auto]. }
      destruct (_ <? _).
      2:{ intros [= <-]. left. eapply R_trans; [exact Hat|cbn [world_of]; auto]. }
      destruct (retry_delay self <? 0).
      { intros [= <-]. left. eapply R_trans; [exact Hat|]. cbn [world_of].
        eapply R_trans; [|apply R_emit; reflexivity]. apply R_emit; reflexivity. }
      set (w3 := emit (EvSleep (retry_delay self)) _).
      assert (Hw3 : R w w3).
      { eapply R_trans; [exact Hat|]. unfold w3.
        eapply R_trans; [|apply R_emit; reflexivity].
        eapply R_trans; [|apply R_emit; reflexivity]. apply R_emit; reflexivity. }
      assert (Hnext : forall w4, R w3 w4 ->
                Downloader.retry_loop env self restart file_info start rest n w4 = Some o ->
                R w (world_of o) \/
                exists w5, R w w5 /\ restart (log WARNING RangeNotSupported w5) = Some o).
      { intros w4 H34 Hrun. apply IH in Hrun as [H|(w5 & H & Hr)]; [left|right]; eauto 6. }
      destruct (interrupt_during_sleep env _); [|apply Hnext; auto].
      destruct (signal_handler w3) as [w4|] eqn:Hs.
      * apply Hnext. eauto.
      * intros [= <-]. now left.
    + intros [= <-]. now left.
Qed.
End Preserved.

(** ** A fetch touches its own file only *)

Lemma keeps_the_rest_refl name w : keeps_the_rest name w w.
Proof. now repeat split. Qed.

Lemma keeps_the_rest_trans name w1 w2 w3 :
  keeps_the_rest name w1 w2 -> keeps_the_rest name w2 w3 -> keeps_the_rest name w1 w3.
Proof.
  intros (Hl1 & Hd1 & Hf1) (Hl2 & Hd2 & Hf2). repeat split.
  - congruence.
  - intros other Hne. rewrite Hd2, Hd1; auto.
  - auto.
Qed.

Lemma keeps_the_rest_emit name e w : keeps_the_rest name w (emit e w).
Proof. now repeat split. Qed.

Lemma keeps_the_rest_signal name w w' :
  signal_handler w = Some w' -> keeps_the_rest name w w'.
Proof.
  unfold signal_handler. destruct (terminate_requested w); [discriminate|].
  intros [= <-]. now repeat split.
Qed.

Lemma keeps_the_rest_write name chunk w :
  keeps_the_rest name w (Downloader.write name chunk w).
Proof.
  repeat split; auto. intros other Hne. cbn. now rewrite lookup_insert_ne.
Qed.

Lemma keeps_the_rest_open name mode w :
  keeps_the_rest name w (Downloader.open_ name mode w).
Proof.
  repeat split; auto. intros other Hne. cbn. now rewrite lookup_insert_ne.
Qed.

Lemma download_with_retries_keeps_the_rest env self file_info depth start w o :
  Downloader._download_with_retries env self depth file_info start w = Some o ->
  keeps_the_rest (FileInfo.name file_info) w (world_of o).
Proof.
  revert start w o. induction depth as [|depth IH]; intros start w o; [discriminate|].
  rewrite download_with_retries_unfold. intros Hrun.
  apply (retry_loop_preserves env self file_info start
           (keeps_the_rest (FileInfo.name file_info))) in Hrun;
    eauto using keeps_the_rest_refl, keeps_the_rest_trans, keeps_the_rest_emit,
      keeps_the_rest_signal, keeps_the_rest_write, keeps_the_rest_open.
  destruct Hrun as [H|(w3 & H3 & Hr)]; [exact H|].
  apply IH in Hr. eapply keeps_the_rest_trans; [exact H3|].
  eapply keeps_the_rest_trans; [apply keeps_the_rest_emit|exact Hr].
Qed.

(** X1. A download of a file with a plain name, for which
    [os.path.join(download_dir, name)] is the entry [name] of the
    download directory, changes no other file of the download
    directory, and never withdraws a termination request. *)
Theorem download_touches_its_own_file_only env self file_info depth w o :
  plain_name (FileInfo.name file_info) = true ->
  Downloader.download env self depth file_info w = Some o ->
  (forall other, other <> FileInfo.name file_info ->
                 download_dir (world_of o) !! other = download_dir w !! other) /\
  (terminate_requested w = true -> terminate_requested (world_of o) = true).
Proof.
  intros _ Hrun.
  apply download_with_retries_keeps_the_rest in Hrun as (_ & Hothers & Hflag).
  split; [exact Hothers|exact Hflag].
Qed.

(** ** A resumed fetch only appends *)

Lemma grows_refl name w : grows_without_fallback name w w.
Proof. split; [|reflexivity]. exists []. now rewrite app_nil_r. Qed.

Lemma grows_trans name w1 w2 w3 :
  grows_without_fallback name w1 w2 -> grows_without_fallback name w2 w3 ->
  grows_without_fallback name w1 w3.
Proof.
  intros [[m1 H1] Hr1] [[m2 H2] Hr2]. split; [|congruence].
  exists (m1 ++ m2)%list. now rewrite H2, H1, app_assoc.
Qed.

Lemma grows_emit name e w :
  restarts [e] = 0%nat -> grows_without_fallback name w (emit e w).
Proof.
  intros He. split.
  - exists []. now rewrite app_nil_r.
  - cbn [emit trace]. change (e :: trace w) with ([e] ++ trace w)%list.
    rewrite restarts_app, He. reflexivity.
Qed.

Lemma grows_signal name w w' :
  signal_handler w = Some w' -> grows_without_fallback name w w'.
Proof.
  unfold signal_handler. destruct (terminate_requested w); [discriminate|].
  intros [= <-]. split; [|reflexivity]. exists []. now rewrite app_nil_r.
Qed.

Lemma grows_write name chunk w :
  grows_without_fallback name w (Downloader.write name chunk w).
Proof.
  split; [|reflexivity]. exists chunk. unfold content_of, Downloader.write.
  cbn [download_dir]. now rewrite lookup_insert_eq.
Qed.

Lemma grows_open_append name start w :
  0 < start ->
  grows_without_fallback name w (Downloader.open_ name (Downloader.file_mode start) w).
Proof.
  intros Hs. split; [|reflexivity]. exists [].
  unfold Downloader.file_mode. apply Z.ltb_lt in Hs. rewrite Hs.
  unfold content_of, Downloader.open_. cbn [download_dir].
  rewrite lookup_insert_eq, app_nil_r. reflexivity.
Qed.

(** X2. A fetch that resumes from a positive offset either only appends
    to the file it found, or has taken the range-not-honored fallback
    exactly once. *)
Theorem resumed_fetch_only_appends env self file_info depth start w o :
  0 < start ->
  Downloader._download_with_retries env self depth file_info start w = Some o ->
  (restarts (trace (world_of o)) = restarts (trace w) /\
   exists more,
     content_of (FileInfo.name file_info) (world_of o)
     = (content_of (FileInfo.name file_info) w ++ more)%list) \/
  restarts (trace (world_of o)) = S (restarts (trace w)).
Proof.
  intros Hs. destruct depth as [|depth]; [discriminate|].
  rewrite download_with_retries_unfold. intros Hrun.
  apply (retry_loop_preserves env self file_info start
           (grows_without_fallback (FileInfo.name file_info))) in Hrun;
    eauto using grows_refl, grows_trans, grows_emit, grows_signal, grows_write,
      grows_open_append.
  destruct Hrun as [[Happ Hr]|(w3 & [_ Hr3] & Hr)]; [left; auto|right].
  apply restarts_from_zero in Hr. rewrite Hr. cbn [log emit trace restarts].
  now rewrite Hr3.
Qed.

(** ** The number of requests of a fetch *)

Section Requests.
Variable env : environment.
Variable self : synchronizer.
Variable file_info : FileInfo.t.

Local Abbreviation name := (FileInfo.name file_info).

Lemma requests_signal_handler w w' :
  signal_handler w = Some w' ->
  requests_issued (trace w') = requests_issued (trace w).
Proof.
  unfold signal_handler. destruct (terminate_requested w); [discriminate|].
  now intros [= <-].
Qed.

Lemma requests_stream events ending current_size b w :
  match Downloader.stream name events ending current_size b w with
  | Downloader.StreamDone _ w' | Downloader.StreamCancelled _ w'
  | Downloader.StreamRaised _ w' | Downloader.StreamExit w' =>
      requests_issued (trace w') = requests_issued (trace w)
  end.
Proof.
  revert current_size b w.
  induction events as [|[chunk|] rest IH]; intros current_size b w; simpl.
  - now destruct ending.
  - destruct (terminate_requested w); [reflexivity|].
    destruct chunk as [|c chunk]; [apply IH|].
    specialize (IH (current_size + Py.len (c :: chunk)) (b + Py.len (c :: chunk))
                   (Downloader.write name (c :: chunk) w)).
    destruct (Downloader.stream _ _ _ _ _ _); exact IH.
  - destruct (signal_handler w) as [w'|] eqn:Hs; [|reflexivity].
    apply requests_signal_handler in Hs. specialize (IH current_size b w').
    destruct (Downloader.stream _ _ _ _ _ _); congruence.
Qed.

Lemma requests_sent start w :
  requests_issued (trace (sent file_info start w)) = S (requests_issued (trace w)).
Proof. unfold sent. now destruct (0 <? start). Qed.

Lemma requests_requests_get start w :
  match Downloader.requests_get env file_info start w with
  | inl (_, w') | inr w' => requests_issued (trace w') = S (requests_issued (trace w))
  end.
Proof.
  unfold Downloader.requests_get. cbn [req_url req_range].
  fold (sent file_info start w).
  destruct (interrupt_in_flight _); [|apply requests_sent].
  destruct (signal_handler (sent file_info start w)) as [w3|] eqn:Hs.
  - apply requests_signal_handler in Hs. now rewrite Hs, requests_sent.
  - apply requests_sent.
Qed.

(** Every attempt sends exactly one request. *)
Lemma requests_attempt start b w :
  match Downloader.attempt env file_info start b w with
  | Downloader.AttemptReturn _ _ w' | Downloader.AttemptRaised _ w'
  | Downloader.AttemptExit w' | Downloader.AttemptRestart w' =>
      requests_issued (trace w') = S (requests_issued (trace w))
  end.
Proof.
  unfold Downloader.attempt.
  pose proof (requests_requests_get start w) as Hreq.
  destruct (Downloader.requests_get env file_info start w) as [[[|r] w3]|w2]; auto.
  destruct (Downloader.range_refused start r); [exact Hreq|].
  destruct (Downloader.raise_for_status r); [exact Hreq|].
  pose proof (requests_stream (body r) (body_ending r) start 0
                (Downloader.open_ name (Downloader.file_mode start) w3)) as Hst.
  cbn [Downloader.open_ trace requests_issued] in Hst.
  destruct (Downloader.stream _ _ _ _ _ _); try congruence.
  destruct (_ && _); cbn [log emit trace requests_issued]; congruence.
Qed.

Lemma retry_loop_requests restart start attempts b w o :
  Downloader.retry_loop env self restart file_info start attempts b w = Some o ->
  (requests_issued (trace (world_of o))
   <= requests_issued (trace w) + length attempts)%nat \/
  exists w3,
    (requests_issued (trace w3) <= requests_issued (trace w) + length attempts)%nat /\
    restart w3 = Some o.
Proof.
  revert b w. induction attempts as [|attempt_no rest IH]; intros b w; simpl.
  - intros [= <-]. left. cbn. lia.
  - destruct (terminate_requested w); [intros [= <-]; left; cbn; lia|].
    pose proof (requests_attempt start b w) as Hat.
    destruct (Downloader.attempt env file_info start b w) as [ok n w'|w'|n w'|w'].
    + intros [= <-]. left. cbn. lia.
    + intros Hrun. right. exists w'. split; [lia|exact Hrun].
    + destruct (terminate_requested w'); [intros [= <-]; left; cbn; lia|].
      destruct (_ <? _); [|intros [= <-]; left; cbn; lia].
      destruct (retry_delay self <? 0); [intros [= <-]; left; cbn in Hat |- *; lia|].
      set (w3 := emit (EvSleep (retry_delay self)) _).
      assert (Hw3 : requests_issued (trace w3) = S (requests_issued (trace w)))
        by exact Hat.
      assert (Hnext : forall w4,
                requests_issued (trace w4) = requests_issued (trace w3) ->
                Downloader.retry_loop env self restart file_info start rest n w4 = Some o ->
                (requests_issued (trace (world_of o))
                 <= requests_issued (trace w) + S (length rest))%nat \/
                exists w5,
                  (requests_issued (trace w5)
                   <= requests_issued (trace w) + S (length rest))%nat /\
                  restart w5 = Some o).
      { intros w4 H4 Hrun. apply IH in Hrun as [H|(w5 & H & Hr)].
        - left. lia.
        - right. exists w5. split; [lia|exact Hr]. }
      destruct (interrupt_during_sleep env _); [|now apply Hnext].
      destruct (signal_handler w3) as [w4|] eqn:Hs.
      * apply Hnext. now apply requests_signal_handler.
      * intros [= <-]. left. cbn. lia.
    + intros [= <-]. left. cbn. lia.
Qed.

Lemma length_range n : length (Py.range n) = Z.to_nat n.
Proof. unfold Py.range. now rewrite length_map, length_seq. Qed.

(** X3. A fetch sends at most [2 * max_retries] requests, and at most
    [max_retries] when it starts from byte 0. *)
Theorem fetch_sends_a_bounded_number_of_requests depth start w o :
  Downloader._download_with_retries env self depth file_info start w = Some o ->
  (requests_issued (trace (world_of o))
   <= requests_issued (trace w) + 2 * Z.to_nat (max_retries self))%nat /\
  (start <= 0 ->
   (requests_issued (trace (world_of o))
    <= requests_issued (trace w) + Z.to_nat (max_retries self))%nat).
Proof.
  assert (Hzero : forall d w1 o1,
             Downloader._download_with_retries env self d file_info 0 w1 = Some o1 ->
             (requests_issued (trace (world_of o1))
              <= requests_issued (trace w1) + Z.to_nat (max_retries self))%nat).
  { intros [|d] w1 o1; [discriminate|].
    rewrite (proj1 (download_with_retries_from_zero env self file_info d w1)).
    rewrite download_with_retries_unfold.
    rewrite (retry_loop_from_zero env self file_info _
               (fun w2 => Some (Returned (false, 0) w2))) by lia.
    intros Hrun. apply retry_loop_requests in Hrun as [H|(w3 & H & Hr)].
    - now rewrite length_range in H.
    - injection Hr as <-. cbn. now rewrite length_range in H. }
  destruct depth as [|depth]; [discriminate|].
  rewrite download_with_retries_unfold. intros Hrun. split.
  - apply retry_loop_requests in Hrun as [H|(w3 & H & Hr)];
      rewrite length_range in H; [lia|].
    apply Hzero in Hr. lia.
  - intros Hs.
    rewrite (retry_loop_from_zero env self file_info _
               (fun w2 => Some (Returned (false, 0) w2))) in Hrun by exact Hs.
    apply retry_loop_requests in Hrun as [H|(w3 & H & Hr)];
      rewrite length_range in H; [lia|].
    injection Hr as <-. cbn. lia.
Qed.
End Requests.

(** ** What a body leaves on disk *)

Section Bodies.
Variable env : environment.
Variable self : synchronizer.
Variable file_info : FileInfo.t.

Local Abbreviation name := (FileInfo.name file_info).

Lemma content_of_write (n : string) chunk w :
  content_of n (Downloader.write n chunk w) = (content_of n w ++ chunk)%list.
Proof.
  unfold content_of, Downloader.write. cbn [download_dir]. now rewrite lookup_insert_eq.
Qed.

Lemma content_of_open (n : string) start w :
  content_of n (Downloader.open_ n (Downloader.file_mode start) w)
  = if 0 <? start then content_of n w else [].
Proof.
  unfold content_of, Downloader.open_, Downloader.file_mode. cbn [download_dir].
  rewrite lookup_insert_eq. now destruct (0 <? start).
Qed.

Lemma getsize_content_of (n : string) w : getsize n w = Py.len (content_of n w).
Proof. unfold getsize, content_of. now destruct (download_dir w !! n). Qed.

Lemma len_app (a b : list Byte.byte) : Py.len (a ++ b) = Py.len a + Py.len b.
Proof. unfold Py.len. rewrite length_app. lia. Qed.

Lemma len_body_data events : Py.len (body_data events) = body_bytes events.
Proof.
  induction events as [|[data|] rest IH]; simpl; auto.
  rewrite len_app, IH. reflexivity.
Qed.

(** The uninterrupted start of a body is written chunk by chunk. *)
Lemma stream_uninterrupted_prefix pre current_size b w :
  terminate_requested w = false ->
  uninterrupted pre = true ->
  exists w1,
    (forall rest ending,
        Downloader.stream name (pre ++ rest) ending current_size b w
        = Downloader.stream name rest ending (current_size + body_bytes pre)
            (b + body_bytes pre) w1) /\
    content_of name w1 = (content_of name w ++ body_data pre)%list /\
    terminate_requested w1 = false.
Proof.
  revert current_size b w.
  induction pre as [|[chunk|] pre IH]; intros current_size b w Ht Hq; simpl in *.
  - exists w. repeat split; auto.
    + intros rest ending. now rewrite !Z.add_0_r.
    + now rewrite app_nil_r.
  - destruct chunk as [|c chunk].
    + destruct (IH current_size b w Ht Hq) as (w1 & Hrun & Hc & Hf).
      exists w1. repeat split; auto.
      intros rest ending. rewrite Ht. cbn. apply Hrun.
    + set (data := c :: chunk) in *.
      destruct (IH (current_size + Py.len data) (b + Py.len data)
                   (Downloader.write name data w) Ht Hq) as (w1 & Hrun & Hc & Hf).
      exists w1. repeat split; auto.
      * intros rest ending. rewrite Ht. unfold data at 1.
        rewrite Hrun. f_equal; lia.
      * rewrite Hc, content_of_write, app_assoc. reflexivity.
  - discriminate.
Qed.

(** X4. An accepted answer whose body arrives whole and is as long as
    announced is stored: the attempt succeeds, returns the length of the
    body, and the file holds what was there (when resuming) followed by
    the body. *)
Theorem uninterrupted_answer_is_stored restart start attempt_no rest b w r w3 :
  terminate_requested w = false ->
  Downloader.requests_get env file_info start w = inl (Response r, w3) ->
  terminate_requested w3 = false ->
  Downloader.range_refused start r = false ->
  Downloader.raise_for_status r = false ->
  uninterrupted (body r) = true ->
  body_ending r = EndOfBody ->
  let base := if 0 <? start then content_of name w else [] in
  Downloader.expected_total_size r start <= 0 \/
  Downloader.expected_total_size r start <= Py.len base + body_bytes (body r) ->
  exists w',
    Downloader.retry_loop env self restart file_info start (attempt_no :: rest) b w
    = Some (Returned (true, body_bytes (body r)) w') /\
    content_of name w' = (base ++ body_data (body r))%list /\
    terminate_requested w' = false.
Proof.
  intros Ht Hreq Ht3 Hrr Hrs Hq He base Htotal.
  pose proof (requests_get_spec env file_info start 0 w) as Hspec.
  rewrite Hreq in Hspec. destruct Hspec as (_ & Hdir & _).
  destruct (stream_uninterrupted_prefix (body r) start 0
              (Downloader.open_ name (Downloader.file_mode start) w3) Ht3 Hq)
    as (w4 & Hrun & Hc & Hf).
  specialize (Hrun [] EndOfBody). rewrite app_nil_r in Hrun. cbn in Hrun.
  assert (Hbase : content_of name (Downloader.open_ name (Downloader.file_mode start) w3)
                  = base).
  { rewrite content_of_open. unfold base, content_of. now rewrite Hdir. }
  rewrite Hbase in Hc.
  exists w4. split; [|auto].
  cbn [Downloader.retry_loop]. rewrite Ht. unfold Downloader.attempt.
  rewrite Hreq, Hrr, Hrs, He, Hrun.
  rewrite getsize_content_of, Hc, len_app, len_body_data.
  replace ((0 <? Downloader.expected_total_size r start)
           && (Py.len base + body_bytes (body r) <? Downloader.expected_total_size r start))
    with false; [reflexivity|].
  symmetry. apply andb_false_iff.
  destruct Htotal as [H|H]; [left; apply Z.ltb_ge|right; apply Z.ltb_ge]; lia.
Qed.

(** X5. An interrupt between two chunks ends the attempt in failure; the
    chunks before it stay on disk and are counted, and the termination
    flag is set. *)
Theorem interrupted_body_keeps_what_was_written
    restart start attempt_no rest b w r w3 pre chunk post :
  terminate_requested w = false ->
  Downloader.requests_get env file_info start w = inl (Response r, w3) ->
  terminate_requested w3 = false ->
  Downloader.range_refused start r = false ->
  Downloader.raise_for_status r = false ->
  body r = (pre ++ Interrupt :: Chunk chunk :: post)%list ->
  uninterrupted pre = true ->
  let base := if 0 <? start then content_of name w else [] in
  exists w',
    Downloader.retry_loop env self restart file_info start (attempt_no :: rest) b w
    = Some (Returned (false, body_bytes pre) w') /\
    content_of name w' = (base ++ body_data pre)%list /\
    terminate_requested w' = true.
Proof.
  intros Ht Hreq Ht3 Hrr Hrs Hbody Hq base.
  pose proof (requests_get_spec env file_info start 0 w) as Hspec.
  rewrite Hreq in Hspec. destruct Hspec as (_ & Hdir & _).
  destruct (stream_uninterrupted_prefix pre start 0
              (Downloader.open_ name (Downloader.file_mode start) w3) Ht3 Hq)
    as (w4 & Hrun & Hc & Hf).
  specialize (Hrun (Interrupt :: Chunk chunk :: post) (body_ending r)).
  assert (Hbase : content_of name (Downloader.open_ name (Downloader.file_mode start) w3)
                  = base).
  { rewrite content_of_open. unfold base, content_of. now rewrite Hdir. }
  rewrite Hbase in Hc.
  cbn [Downloader.stream] in Hrun. unfold signal_handler in Hrun at 1.
  rewrite Hf in Hrun. cbn [terminate_requested] in Hrun.
  eexists. split; [|split].
  - cbn [Downloader.retry_loop]. rewrite Ht. unfold Downloader.attempt.
    rewrite Hreq, Hrr, Hrs, Hbody, Hrun. reflexivity.
  - exact Hc.
  - reflexivity.
Qed.
End Bodies.

(** ** Reading the total of a [Content-Range] header *)









(** * Further properties of the planner *)


(** X8. The local files are the names of both directories that pass the
    extension filter. *)
Theorem local_files_are_both_directories_filtered w ext (n : string) :
  n ∈ _get_local_files w ext <->
  (is_Some (local_dir w !! n) \/ is_Some (download_dir w !! n)) /\
  (ext = "" \/ Py.endswith (Py.lower n) (Py.lower ext) = true).
Proof.
  rewrite get_local_files_spec. unfold extension_ok.
  rewrite orb_true_iff, negb_true_iff.
  assert (Hext : Py.truthy ext = false <-> ext = "").
  { destruct ext; simpl; split; congruence. }
  rewrite Hext. tauto.
Qed.

Lemma record_partial_invariant w (Q : string -> partial_info -> Prop)
    (server_files : list FileInfo.t) (acc : gmap string partial_info) :
  (forall n info, acc !! n = Some info -> Q n info) ->
  (forall g content,
      In g server_files ->
      download_dir w !! FileInfo.name g = Some content ->
      Py.len content < FileInfo.size g ->
      Q (FileInfo.name g) (mkPartial (Py.len content) (FileInfo.size g))) ->
  forall n info, fold_left (record_partial w) server_files acc !! n = Some info -> Q n info.
Proof.
  revert acc. induction server_files as [|file rest IH]; intros acc Hacc Hstep; simpl.
  - exact Hacc.
  - apply IH.
    + intros n info. unfold record_partial.
      destruct (download_dir w !! FileInfo.name file) as [content|] eqn:Hlk; [|apply Hacc].
      destruct (Py.len content <? FileInfo.size file) eqn:Hlt; [|apply Hacc].
      apply Z.ltb_lt in Hlt. rewrite lookup_insert.
      case_decide as Hn.
      * intros [= <-]. subst n. apply (Hstep file content); auto. now left.
      * apply Hacc.
    + intros g content Hin. apply Hstep. now right.
Qed.

Lemma identify_partial_short w (server_files : list FileInfo.t)
    (n : string) info :
  _identify_partial_downloads w server_files !! n = Some info ->
  exists_ n w = true /\
  local_size info = getsize n w /\
  0 <= local_size info < server_size info /\
  exists g, In g server_files /\ FileInfo.name g = n /\ FileInfo.size g = server_size info.
Proof.
  unfold _identify_partial_downloads.
  apply (record_partial_invariant w
           (fun n info =>
              exists_ n w = true /\ local_size info = getsize n w /\
              0 <= local_size info < server_size info /\
              exists g, In g server_files /\ FileInfo.name g = n /\
                        FileInfo.size g = server_size info)).
  - intros n0 info0 H. rewrite lookup_empty in H. discriminate.
  - intros g content Hin Hlk Hlt. cbn [local_size server_size].
    unfold exists_, getsize. rewrite Hlk.
    split; [apply bool_decide_eq_true; eauto|]. split; [reflexivity|].
    split; [unfold Py.len in *; lia|eauto].
Qed.


Lemma filter_partition_permutation {A} (p : A -> bool) (l : list A) :
  Permutation l (List.filter p l ++ List.filter (fun x => negb (p x)) l).
Proof.
  induction l as [|x l IH]; [constructor|]. cbn [List.filter].
  destruct (p x); cbn [negb app].
  - now constructor.
  - rewrite <- Permutation_middle. now constructor.
Qed.

Lemma filter_sublist {A} (p : A -> bool) (l : list A) : sublist (List.filter p l) l.
Proof.
  induction l as [|x l IH]; [constructor|]. cbn [List.filter].
  destruct (p x); now constructor.
Qed.

Lemma apply_regex_filter_returns {E : RegexEngine} files s w kept s' w' :
  _apply_regex_filter files s w = Returned (kept, s') w' ->
  (sublist kept files /\
   Permutation (map FileInfo.name files)
     (map FileInfo.name kept ++ filtered_files s')) /\
  (downloaded_files s' = downloaded_files s /\
   failed_files s' = failed_files s /\
   total_bytes_downloaded s' = total_bytes_downloaded s /\
   config s' = config s) /\
  (local_dir w' = local_dir w /\
   download_dir w' = download_dir w /\
   terminate_requested w' = terminate_requested w /\
   requests_issued (trace w') = requests_issued (trace w) /\
   confirmations (trace w') = confirmations (trace w)).
Proof.
  unfold _apply_regex_filter. destruct (negb _).
  { intros [= <- <- <-]. cbn. repeat split; auto. apply sublist_nil_l. }
  destruct (re_compile _ _) as [regex| |e]; [| |discriminate].
  - rewrite split_by_regex_spec.
    set (m := List.filter (name_matches regex) files).
    set (f := List.filter (fun f => negb (name_matches regex f)) files).
    intros [= <- <- <-]. split; [|split].
    + split; [apply filter_sublist|]. cbn [filtered_files set_filtered].
      rewrite <- map_app. apply Permutation_map, filter_partition_permutation.
    + repeat split.
    + destruct f; repeat split.
  - intros [= <- <- <-]. cbn. repeat split; auto. apply sublist_nil_l.
Qed.

(** X10. Whenever [_apply_regex_filter] returns, it has lost no
    candidate: the kept files are a sub-sequence of the candidates and,
    with the names it reports as filtered out, a rearrangement of them;
    of the synchronizer only [filtered_files] has changed, and neither
    directory nor the termination flag is touched. *)
Theorem every_candidate_is_kept_or_filtered_out {E : RegexEngine}
    files s w kept s' w' :
  _apply_regex_filter files s w = Returned (kept, s') w' ->
  sublist kept files /\
  Permutation (map FileInfo.name files) (map FileInfo.name kept ++ filtered_files s') /\
  downloaded_files s' = downloaded_files s /\
  failed_files s' = failed_files s /\
  total_bytes_downloaded s' = total_bytes_downloaded s /\
  config s' = config s /\
  local_dir w' = local_dir w /\
  download_dir w' = download_dir w /\
  terminate_requested w' = terminate_requested w.
Proof.
  intros Hrun. apply apply_regex_filter_returns in Hrun
    as ((Hsub & Hperm) & (Hd & Hf & Ht & Hc) & (Hl & Hdd & Hflag & _)).
  repeat (split; [assumption|]). assumption.
Qed.

Lemma calculate_download_size_from (files : list FileInfo.t)
    (pd : gmap string partial_info) acc :
  fold_left
    (fun total_size file =>
       match pd !! FileInfo.name file with
       | Some info => total_size + (FileInfo.size file - local_size info)
       | None => total_size + FileInfo.size file
       end)
    files acc
  = acc + _calculate_download_size files pd.
Proof.
  unfold _calculate_download_size. revert acc.
  induction files as [|f files IH]; intros acc; cbn [fold_left]; [lia|].
  rewrite IH, (IH (match pd !! FileInfo.name f with Some _ => _ | None => _ end)).
  destruct (pd !! FileInfo.name f); lia.
Qed.

(** X11. With distinct names in the listing the estimate of
    [_calculate_download_size] is the sum of the sizes less the bytes
    already on disk of the partial files, and lies between 0 and that
    sum when no size is negative. *)
Theorem download_size_estimate_bounds w (server_files files : list FileInfo.t) :
  NoDup (map FileInfo.name server_files) ->
  (forall f, In f files -> In f server_files) ->
  let partial_downloads := _identify_partial_downloads w server_files in
  let estimate := _calculate_download_size files partial_downloads in
  estimate = sum_of_sizes files - resumable_bytes w partial_downloads files /\
  0 <= resumable_bytes w partial_downloads files /\
  ((forall f, In f files -> 0 <= FileInfo.size f) ->
   0 <= estimate <= sum_of_sizes files).
Proof.
  intros Hnd Hsub pd estimate. unfold estimate. clear estimate.
  induction files as [|f files IH].
  - cbn. repeat split; intros; lia.
  - destruct IH as (Heq & Hres & Hbound); [intros g Hg; apply Hsub; now right|].
    unfold _calculate_download_size. cbn [fold_left].
    rewrite calculate_download_size_from. cbn [sum_of_sizes resumable_bytes fold_right].
    fold (sum_of_sizes files). fold (resumable_bytes w pd files).
    destruct (pd !! FileInfo.name f) as [info|] eqn:Hlk.
    + apply identify_partial_short in Hlk as (_ & Hl & Hrange & g & Hg & Hn & Hs).
      assert (g = f) as -> by (eapply same_name_same_file; eauto; apply Hsub; now left).
      split; [lia|]. split; [lia|]. intros Hpos.
      specialize (Hbound (fun g Hg => Hpos g (or_intror Hg))). lia.
    + split; [lia|]. split; [lia|]. intros Hpos.
      specialize (Hbound (fun g Hg => Hpos g (or_intror Hg))).
      specialize (Hpos f (or_introl eq_refl)). lia.
Qed.

Section Raising.
Variable env : environment.
Variable self : synchronizer.
Variable file_info : FileInfo.t.



End Raising.


Section Success.
Variable env : environment.
Variable self : synchronizer.
Variable file_info : FileInfo.t.

Lemma stream_done_end name events ending current_size b w n w' :
  Downloader.stream name events ending current_size b w = Downloader.StreamDone n w' ->
  ending = EndOfBody.
Proof.
  revert current_size b w.
  induction events as [|[chunk|] rest IH]; intros current_size b w; simpl.
  - destruct ending; [reflexivity|discriminate].
  - destruct (terminate_requested w); [discriminate|].
    destruct chunk; apply IH.
  - destruct (signal_handler w); [apply IH|discriminate].
Qed.

Lemma requests_issued_app (a b : list event) :
  requests_issued (a ++ b) = (requests_issued a + requests_issued b)%nat.
Proof.
  induction a as [|e a IH]; [reflexivity|].
  destruct e; cbn [app requests_issued]; rewrite IH; reflexivity.
Qed.

Lemma complete_answer_later start w w2 w' pre :
  trace w2 = (pre ++ trace w)%list ->
  complete_answer env file_info start w2 w' ->
  complete_answer env file_info start w w'.
Proof.
  intros Hpre (later & earlier & r & Htrace & Hlater & Hanswer & Hrest).
  exists later, (earlier ++ pre)%list, r.
  rewrite Hpre in Htrace, Hanswer. rewrite <- !app_assoc.
  split; [exact Htrace|]. split; [exact Hlater|]. split; [exact Hanswer|exact Hrest].
Qed.

Lemma attempt_success start b w n w' :
  Downloader.attempt env file_info start b w = Downloader.AttemptReturn true n w' ->
  complete_answer env file_info start w w'.
Proof.
  intros Hattempt.
  pose proof (attempt_spec env file_info start b w) as Hspec.
  pose proof (requests_attempt env file_info start b w) as Hcount.
  rewrite Hattempt in Hspec, Hcount.
  destruct Hspec as (new & Htrace & _ & _).
  assert (Hnew : requests_issued new = 0%nat).
  { rewrite Htrace, requests_issued_app, requests_sent in Hcount. lia. }
  revert Hattempt. unfold Downloader.attempt.
  pose proof (requests_get_spec env file_info start b w) as Hget.
  destruct (Downloader.requests_get env file_info start w) as [[rep w3]|w2];
    [|discriminate].
  destruct Hget as (_ & _ & Hrep).
  destruct rep as [|r]; [discriminate|].
  destruct (Downloader.range_refused start r) eqn:Hrefused; [discriminate|].
  destruct (Downloader.raise_for_status r) eqn:Hstatus; [discriminate|].
  destruct (Downloader.stream _ _ _ _ _ _) as [m w4|m w4|m w4|w4] eqn:Hstream;
    try discriminate.
  apply stream_done_end in Hstream.
  destruct (_ && _) eqn:Hshort; [discriminate|].
  intros [= <- <-].
  exists new, (if 0 <? start then [EvLog INFO (ResumingFromByte start)] else []), r.
  split.
  { rewrite Htrace. unfold sent. now destruct (0 <? start). }
  split; [exact Hnew|]. split.
  { rewrite Hrep. now destruct (0 <? start). }
  do 3 (split; [assumption|]).
  intros Hpos. apply andb_false_iff in Hshort as [H|H].
  - apply Z.ltb_ge in H. lia.
  - now apply Z.ltb_ge in H.
Qed.

(** The events that a failed attempt and the pause after it add. *)
Lemma attempt_extends start b w :
  match Downloader.attempt env file_info start b w with
  | Downloader.AttemptReturn _ _ w' | Downloader.AttemptRaised _ w'
  | Downloader.AttemptExit w' | Downloader.AttemptRestart w' =>
      exists pre, trace w' = (pre ++ trace w)%list
  end.
Proof.
  pose proof (attempt_spec env file_info start b w) as Hspec.
  pose proof (advances_sent file_info start b w) as (sent_events & Hsent & _).
  assert (Hgo : forall n w',
             advances (transfer_event file_info start) b (sent file_info start w) n w' ->
             exists pre, trace w' = (pre ++ trace w)%list).
  { intros n w' (new & Hnew & _). exists (new ++ sent_events)%list.
    now rewrite Hnew, Hsent, app_assoc. }
  destruct (Downloader.attempt env file_info start b w) as [ok n w'|w'|n w'|w'].
  - eapply Hgo, Hspec.
  - eapply Hgo, (proj1 Hspec).
  - eapply Hgo, Hspec.
  - destruct Hspec as [n Hn]. eapply Hgo, Hn.
Qed.

Lemma retry_loop_success restart start attempts b w n w' :
  (forall w1, restart w1 = Some (Returned (true, n) w') ->
              complete_answer env file_info 0 w1 w') ->
  Downloader.retry_loop env self restart file_info start attempts b w
  = Some (Returned (true, n) w') ->
  complete_answer env file_info start w w' \/ complete_answer env file_info 0 w w'.
Proof.
  intros Hrestart. revert b w.
  induction attempts as [|attempt_no rest IH]; intros b w; cbn [Downloader.retry_loop].
  - discriminate.
  - destruct (terminate_requested w); [discriminate|].
    pose proof (attempt_extends start b w) as Hext.
    destruct (Downloader.attempt env file_info start b w) as [ok m w1|w1|m w1|w1]
      eqn:Hattempt.
    + intros [= -> -> ->]. left. eapply attempt_success. exact Hattempt.
    + intros Hr. right. destruct Hext as [pre Hpre].
      eapply complete_answer_later; [exact Hpre|]. eapply Hrestart. exact Hr.
    + destruct (terminate_requested w1); [discriminate|].
      destruct (attempt_no <? max_retries self - 1); [|discriminate].
      destruct (retry_delay self <? 0); [discriminate|].
      set (w3 := emit (EvSleep (retry_delay self)) _).
      destruct Hext as [pre Hpre].
      assert (H3 : exists pre3, trace w3 = (pre3 ++ trace w)%list).
      { eexists (_ :: _ :: _ :: pre). cbn [w3 emit log trace]. now rewrite Hpre. }
      assert (Hnext : forall w4,
                 (exists pre4, trace w4 = (pre4 ++ trace w)%list) ->
                 Downloader.retry_loop env self restart file_info start rest m w4
                 = Some (Returned (true, n) w') ->
                 complete_answer env file_info start w w' \/
                 complete_answer env file_info 0 w w').
      { intros w4 [pre4 Hpre4] Hrun.
        apply IH in Hrun as [H|H]; [left|right];
          eapply complete_answer_later; eauto. }
      destruct (interrupt_during_sleep env _); [|now apply Hnext].
      destruct (signal_handler w3) as [w4|] eqn:Hs; [|discriminate].
      apply Hnext. destruct H3 as [pre3 Hpre3].
      unfold signal_handler in Hs. destruct (terminate_requested w3); [discriminate|].
      injection Hs as <-.
      exists (EvPrint TerminationRequestedBanner :: EvSignal :: pre3).
      cbn [trace app]. do 2 f_equal. exact Hpre3.
    + discriminate.
Qed.

Lemma download_with_retries_success depth start w n w' :
  Downloader._download_with_retries env self depth file_info start w
  = Some (Returned (true, n) w') ->
  complete_answer env file_info start w w' \/ complete_answer env file_info 0 w w'.
Proof.
  revert start w. induction depth as [|depth IH]; intros start w; [discriminate|].
  cbn [Downloader._download_with_retries]. apply retry_loop_success.
  intros w1 Hr. apply IH in Hr. tauto.
Qed.

(** X6. A download reports success only when the last request it sent,
    for the file from the resume position or from byte 0, got an answer
    that was accepted and read to its end, and the file on disk is at
    least as long as the size that answer announced. *)
Theorem success_means_the_announced_size_is_on_disk depth w n w' :
  Downloader.download env self depth file_info w = Some (Returned (true, n) w') ->
  complete_answer env file_info
    (Downloader.downloaded_size (FileInfo.name file_info) w) w w' \/
  complete_answer env file_info 0 w w'.
Proof. apply download_with_retries_success. Qed.

End Success.

(** * Further properties of a run *)

Lemma confirmations_transfer file_info start new tr :
  forallb (transfer_event file_info start) new = true ->
  confirmations (new ++ tr) = confirmations tr.
Proof.
  induction new as [|e new IH]; [reflexivity|]. cbn [forallb app].
  intros [He Hn]%andb_true_iff. specialize (IH Hn).
  destruct e as [l m|m|p a| | | | |]; cbn [confirmations]; try exact IH.
  discriminate He.
Qed.

Lemma download_keeps_the_rest env self file_info depth w o :
  Downloader.download env self depth file_info w = Some o ->
  keeps_the_rest (FileInfo.name file_info) w (world_of o).
Proof. apply download_with_retries_keeps_the_rest. Qed.

Lemma keeps_all_but_refl names w : keeps_all_but names w w.
Proof. repeat split; auto. Qed.

Lemma keeps_all_but_emit names e w : keeps_all_but names w (emit e w).
Proof. repeat split; auto. Qed.

Lemma keeps_all_but_trans names w1 w2 w3 :
  keeps_all_but names w1 w2 -> keeps_all_but names w2 w3 -> keeps_all_but names w1 w3.
Proof.
  intros (Hl1 & Hd1 & Hf1) (Hl2 & Hd2 & Hf2). split; [congruence|]. split.
  - intros other Ho. rewrite Hd2, Hd1; auto.
  - auto.
Qed.

Lemma keeps_all_but_weaken names names' w w' :
  (forall n, In n names -> In n names') ->
  keeps_all_but names w w' -> keeps_all_but names' w w'.
Proof.
  intros Hsub (Hl & Hd & Hf). split; [exact Hl|]. split; [|exact Hf].
  intros other Ho. apply Hd. intros Hin. apply Ho, Hsub, Hin.
Qed.

Lemma keeps_the_rest_all_but name w w' :
  keeps_the_rest name w w' -> keeps_all_but [name] w w'.
Proof.
  intros (Hl & Hd & Hf). split; [exact Hl|]. split; [|exact Hf].
  intros other Ho. apply Hd. intros ->. apply Ho. now left.
Qed.

Ltac bookkeeping :=
  repeat split; auto; try discriminate; try congruence;
  try (let H := fresh in intros H%Z.eqb_eq; lia);
  try (intros; f_equal; lia).

Section RunFrame.
Variable ses : session.
Variable depth : nat.

Lemma download_loop_keeps files i total success_count s w o :
  FileSynchronizer.download_loop ses depth files i total success_count s w = Some o ->
  keeps_all_but (map FileInfo.name files) w (world_of o) /\
  confirmations (trace (world_of o)) = confirmations (trace w).
Proof.
  revert i success_count s w.
  induction files as [|file rest IH]; intros i success_count s w; simpl.
  - intros [= <-]. split; [apply keeps_all_but_refl|reflexivity].
  - destruct (terminate_requested w) eqn:Hflag.
    { intros [= <-]. split; [apply keeps_all_but_emit|reflexivity]. }
    destruct (_ && _).
    { intros [= <-]. split; [apply keeps_all_but_emit|reflexivity]. }
    set (w1 := emit (EvPrint (FileHeader _ _)) _).
    destruct (Downloader.download (net ses) s depth file w1) as [o1|] eqn:Hd;
      [|discriminate].
    pose proof (download_keeps_the_rest _ _ _ _ _ _ Hd) as Hk.
    apply download_with_retries_spec in Hd as (n' & (seg & Ht & Hall & Hn) & Hret).
    assert (Hstep : keeps_all_but (map FileInfo.name (file :: rest)) w (world_of o1) /\
                    confirmations (trace (world_of o1)) = confirmations (trace w)).
    { split.
      - eapply keeps_all_but_trans with (w2 := w1).
        + unfold w1. eapply keeps_all_but_trans; apply keeps_all_but_emit.
        + eapply keeps_all_but_weaken; [|apply keeps_the_rest_all_but, Hk].
          intros n [<-|[]]. now left.
      - rewrite Ht, (confirmations_transfer _ _ _ _ Hall). reflexivity. }
    assert (Hnext : forall i2 sc2 sx w2,
               world_of o1 = w2 ->
               FileSynchronizer.download_loop ses depth rest i2 total sc2 sx w2 = Some o ->
               keeps_all_but (map FileInfo.name (file :: rest)) w (world_of o) /\
               confirmations (trace (world_of o)) = confirmations (trace w)).
    { intros i2 sc2 sx w2 <- Hrun. apply IH in Hrun as (Hk2 & Hc2).
      destruct Hstep as (Hk1 & Hc1). split; [|congruence].
      eapply keeps_all_but_trans; [exact Hk1|].
      eapply keeps_all_but_weaken; [|exact Hk2]. intros n Hn'. now right. }
    destruct o1 as [[ok n] w2|e w2]; cbn [world_of] in *.
    + destruct ok.
      * apply Hnext. reflexivity.
      * destruct (terminate_requested w2).
        -- intros [= <-]. exact Hstep.
        -- apply Hnext. reflexivity.
    + intros [= <-]. exact Hstep.
Qed.

Lemma length_filter_all {A} (p : A -> bool) (l : list A) :
  length (List.filter p l) = length l -> forallb p l = true.
Proof.
  induction l as [|x l IH]; [reflexivity|]. cbn [List.filter forallb].
  destruct (p x); cbn [length andb].
  - intros [= H]. auto.
  - pose proof (filter_length_le p l). lia.
Qed.

Lemma filter_all {A} (p : A -> bool) (l : list A) :
  forallb p l = true -> List.filter p l = l /\ List.filter (fun x => negb (p x)) l = [].
Proof.
  induction l as [|x l IH]; [auto|]. cbn [List.filter forallb].
  intros [Hx Hl]%andb_true_iff. rewrite Hx. cbn [negb].
  destruct (IH Hl) as [-> ->]. auto.
Qed.

Lemma download_loop_bookkeeping files i total success_count s w b s' w' :
  FileSynchronizer.download_loop ses depth files i total success_count s w
  = Some (Returned (b, s') w') ->
  exists results rest,
    map FileInfo.name files = (map fst results ++ rest)%list /\
    downloaded_files s' = (downloaded_files s ++ names_with true results)%list /\
    failed_files s' = (failed_files s ++ names_with false results)%list /\
    filtered_files s' = filtered_files s /\
    config s' = config s /\
    (rest <> [] -> terminate_requested w' = true) /\
    (b = true ->
     success_count + Z.of_nat (length (names_with true results)) = total) /\
    (rest = [] -> names_with false results = [] ->
     b = (success_count + Z.of_nat (length files) =? total)).
Proof.
  revert i success_count s w.
  induction files as [|file rest IH]; intros i success_count s w; simpl.
  - intros [= <- <- <-]. exists [], []. cbn.
    rewrite !app_nil_r. bookkeeping.
  - destruct (terminate_requested w) eqn:Hflag.
    { intros [= <- <- <-]. exists [], (FileInfo.name file :: map FileInfo.name rest). cbn.
      rewrite !app_nil_r. bookkeeping. }
    destruct (_ && _); [discriminate|].
    set (w1 := emit (EvPrint (FileHeader _ _)) _).
    destruct (Downloader.download (net ses) s depth file w1) as [[[ok n] w2|e w2]|] eqn:Hd;
      try discriminate.
    destruct ok.
    + intros Hrun. apply IH in Hrun
        as (results & tail & Hnames & Hok & Hfail & Hfilt & Hcfg & Hstop & Htrue & Hall).
      exists ((FileInfo.name file, true) :: results), tail.
      unfold add_downloaded, add_failed, add_bytes in *.
      cbn [downloaded_files failed_files filtered_files config] in *. cbn.
      fold (names_with true results). fold (names_with false results).
      rewrite Hnames, Hok, Hfail, <- !app_assoc. cbn.
      bookkeeping.
      * intros Hb. specialize (Htrue Hb). 
      lia.
      * intros Ht Hf. rewrite (Hall Ht Hf). f_equal. lia.
    + destruct (terminate_requested w2) eqn:Hflag2.
      * intros [= <- <- <-].
        exists [(FileInfo.name file, false)], (map FileInfo.name rest). cbn.
        rewrite app_nil_r. bookkeeping.
      * intros Hrun. apply IH in Hrun
          as (results & tail & Hnames & Hok & Hfail & Hfilt & Hcfg & Hstop & Htrue & Hall).
        exists ((FileInfo.name file, false) :: results), tail.
        unfold add_downloaded, add_failed, add_bytes in *.
        cbn [downloaded_files failed_files filtered_files config] in *. cbn.
        fold (names_with true results). fold (names_with false results).
        rewrite Hnames, Hok, Hfail, <- !app_assoc. cbn.
        bookkeeping.
Qed.


End RunFrame.

Lemma names_with_all results :
  length (names_with true results) = length results ->
  names_with true results = map fst results /\ names_with false results = [].
Proof.
  unfold names_with. induction results as [|[n ok] results IH]; [auto|].
  cbn [List.filter snd]. destruct ok; cbn [Bool.eqb map length fst].
  - intros [= H]. destruct (IH H) as [-> ->]. auto.
  - rewrite !length_map.
    pose proof (filter_length_le (fun r : string * bool => Bool.eqb (snd r) true) results).
    lia.
Qed.

Lemma download_files_books ses depth files s w b s' w' :
  FileSynchronizer._download_files ses depth files s w = Some (Returned (b, s') w') ->
  exists results rest,
    map FileInfo.name files = (map fst results ++ rest)%list /\
    downloaded_files s' = (downloaded_files s ++ names_with true results)%list /\
    failed_files s' = (failed_files s ++ names_with false results)%list /\
    filtered_files s' = filtered_files s /\
    (rest <> [] -> terminate_requested w' = true) /\
    (b = true <-> names_with true results = map FileInfo.name files).
Proof.
  intros Hrun. apply download_loop_bookkeeping in Hrun
    as (results & rest & Hnames & Hok & Hfail & Hfilt & _ & Hstop & Htrue & Hall).
  exists results, rest. do 5 (split; [assumption|]).
  assert (Hlen : length files = (length results + length rest)%nat).
  { rewrite <- (length_map FileInfo.name), Hnames, length_app, length_map. reflexivity. }
  assert (Hle : (length (names_with true results) <= length results)%nat).
  { unfold names_with. rewrite length_map. apply filter_length_le. }
  assert (Hfull : length (names_with true results) = length files ->
                  rest = [] /\ names_with true results = map fst results /\
                  names_with false results = []).
  { intros Heq. assert (length rest = 0%nat) as Hr by lia.
    split; [now destruct rest|]. apply names_with_all. lia. }
  split.
  - intros Hb. specialize (Htrue Hb).
    destruct Hfull as (-> & -> & _); [lia|]. now rewrite Hnames, app_nil_r.
  - intros Heq. destruct Hfull as (Hrest & _ & Hnone).
    { now rewrite Heq, length_map. }
    rewrite (Hall Hrest Hnone). apply Z.eqb_eq. lia.
Qed.

(** X12. [_download_files] keeps its books: it goes through a prefix of
    the plan, appends each file it tried to exactly one of
    [downloaded_files] and [failed_files], stops early only under a
    termination request, and returns [True] exactly when every file of
    the plan was downloaded. *)
Theorem download_files_bookkeeping ses depth files s w b s' w' :
  FileSynchronizer._download_files ses depth files s w = Some (Returned (b, s') w') ->
  exists results rest,
    map FileInfo.name files = (map fst results ++ rest)%list /\
    downloaded_files s' = (downloaded_files s ++ names_with true results)%list /\
    failed_files s' = (failed_files s ++ names_with false results)%list /\
    filtered_files s' = filtered_files s /\
    (rest <> [] -> terminate_requested w' = true) /\
    (b = true <-> names_with true results = map FileInfo.name files).
Proof. apply download_files_books. Qed.

Lemma confirmations_cons e tr :
  confirmations (e :: tr) = (confirmations [e] + confirmations tr)%nat.
Proof.
  destruct e as [l m|m|p a| | | | |]; try reflexivity.
  destruct p; try reflexivity. cbn [confirmations]. lia.
Qed.

Lemma nothing_fetched_refl w : nothing_fetched w w.
Proof. repeat split; auto. Qed.

Lemma nothing_fetched_trans w1 w2 w3 :
  nothing_fetched w1 w2 -> nothing_fetched w2 w3 -> nothing_fetched w1 w3.
Proof.
  intros (Hl1 & Hd1 & Hr1 & Hc1 & Hf1) (Hl2 & Hd2 & Hr2 & Hc2 & Hf2).
  repeat split; try congruence. auto.
Qed.

Lemma nothing_fetched_emit e w :
  requests_issued [e] = 0%nat -> confirmations [e] = 0%nat ->
  nothing_fetched w (emit e w).
Proof.
  intros Hr Hc. split; [reflexivity|]. split; [reflexivity|]. cbn [emit trace].
  split; [|split; [|auto]].
  - destruct e; cbn in Hr |- *; congruence.
  - rewrite confirmations_cons, Hc. reflexivity.
Qed.

Lemma nothing_fetched_signal w w' :
  signal_handler w = Some w' -> nothing_fetched w w'.
Proof.
  unfold signal_handler. destruct (terminate_requested w); [discriminate|].
  intros [= <-]. repeat split; auto.
Qed.

Lemma nothing_fetched_keeps names w w' :
  nothing_fetched w w' -> keeps_all_but names w w'.
Proof.
  intros (Hl & Hd & _ & _ & Hf). split; [exact Hl|]. split; [|exact Hf].
  intros other _. now rewrite Hd.
Qed.

Section PlannerWorld.
Context {E : RegexEngine}.

Lemma apply_regex_filter_quiet files s w kept s' w' :
  Planner._apply_regex_filter files s w = Returned (kept, s') w' ->
  nothing_fetched w w'.
Proof.
  intros (_ & _ & Hl & Hd & Hf & Hr & Hc)%apply_regex_filter_returns.
  repeat split; try assumption. congruence.
Qed.

Lemma apply_regex_filter_raised files s w e w' :
  Planner._apply_regex_filter files s w = Raised e w' ->
  w' = w /\ exists c, e = CompileError c.
Proof.
  unfold Planner._apply_regex_filter. destruct (negb _); [discriminate|].
  destruct (re_compile _ _) as [regex| |c]; [|discriminate|].
  - destruct (Planner.split_by_regex _ _) as [m f]. discriminate.
  - intros [= <- <-]. eauto.
Qed.

Lemma apply_regex_filter_same_plan files s w w0 kept s' w' :
  Planner._apply_regex_filter files s w = Returned (kept, s') w' ->
  exists w0', Planner._apply_regex_filter files s w0 = Returned (kept, s') w0'.
Proof.
  unfold Planner._apply_regex_filter. destruct (negb _).
  { intros [= <- <- <-]. eauto. }
  destruct (re_compile _ _) as [regex| |c]; [| |discriminate].
  - destruct (Planner.split_by_regex _ _) as [m f]. intros [= <- <- <-]. eauto.
  - intros [= <- <- <-]. eauto.
Qed.

Lemma candidates_of_same_directories w w' ext server_files :
  local_dir w' = local_dir w -> download_dir w' = download_dir w ->
  candidates_of w' ext server_files = candidates_of w ext server_files.
Proof.
  intros Hl Hd. unfold candidates_of, Planner._get_local_files,
    Planner._identify_partial_downloads.
  rewrite Hl, Hd. f_equal.
  generalize (∅ : gmap string partial_info).
  induction server_files as [|f fs IH]; intros pd; [reflexivity|].
  cbn [fold_left]. rewrite IH. unfold Planner.record_partial. now rewrite Hd.
Qed.

End PlannerWorld.

Section RunCases.
Context {E : RegexEngine}.
Variable ses : session.
Variable depth : nat.

Lemma interruptible_cases {A} st w (k : world -> option (outcome A)) o :
  FileSynchronizer.interruptible ses st w k = Some o ->
  (o = Raised SystemExit w /\ terminate_requested w = true) \/
  exists w', nothing_fetched w w' /\ k w' = Some o.
Proof.
  unfold FileSynchronizer.interruptible. destruct (interrupt_at ses st).
  - destruct (signal_handler w) as [w'|] eqn:Hs.
    + intros Hk. right. exists w'. split; [now apply nothing_fetched_signal|exact Hk].
    + intros [= <-]. left. split; [reflexivity|].
      unfold signal_handler in Hs. now destruct (terminate_requested w).
  - intros Hk. right. exists w. split; [apply nothing_fetched_refl|exact Hk].
Qed.

Ltac ended tac :=
  left; split; [tac|split; [discriminate|]];
  let Ho := fresh in
  intros ? ? Ho; first [discriminate Ho|injection Ho as <- _; discriminate].

Lemma sync_from_listing_cases fe ext s w o :
  FileSynchronizer.sync_from_listing ses depth fe ext s w = Some o ->
  let candidates := candidates_of w ext (get_files ses ext) in
  (nothing_fetched w (world_of o) /\
   (forall s' w', o = Returned (true, s') w' ->
                  terminate_requested w' = false /\
                  exists w4, Planner._apply_regex_filter candidates s w
                             = Returned ([], s') w4) /\
   (forall e w', o = Raised e w' -> e <> ZeroDivisionError)) \/
  (exists kept s1 w4 w9 r,
     Planner._apply_regex_filter candidates s w = Returned (kept, s1) w4 /\
     confirmed_once w w9 /\
     FileSynchronizer._download_files ses depth kept s1 w9 = Some r /\
     match r with
     | Raised e w10 => o = Raised e w10
     | Returned (success, s2) w10 =>
         o = Returned (success && negb (terminate_requested w10), s2)
               (emit (EvPrint FinalSummary) w10)
     end).
Proof.
  intros Hrun candidates. unfold FileSynchronizer.sync_from_listing in Hrun.
  assert (Hlog : forall l m w0, nothing_fetched w w0 -> nothing_fetched w (log l m w0)).
  { intros l m w0 H. eapply nothing_fetched_trans; [exact H|].
    apply nothing_fetched_emit; reflexivity. }
  apply interruptible_cases in Hrun as [[-> _]|(w2 & Hw2 & Hrun)].
  { ended ltac:(apply Hlog, nothing_fetched_refl). }
  assert (H2 : nothing_fetched w w2).
  { eapply nothing_fetched_trans; [|exact Hw2]. apply Hlog, nothing_fetched_refl. }
  clear Hw2.
  destruct (terminate_requested w2).
  { injection Hrun as <-. ended ltac:(apply Hlog, H2). }
  destruct (get_files ses ext) as [|f0 fs] eqn:Hlist.
  { injection Hrun as <-. ended ltac:(apply Hlog, H2). }
  set (w3 := log INFO _ w2) in Hrun.
  assert (H3 : nothing_fetched w w3) by apply Hlog, H2.
  fold (candidates_of w3 ext (f0 :: fs)) in Hrun.
  rewrite (candidates_of_same_directories w w3) in Hrun
    by (destruct H3 as (? & ? & _); assumption).
  fold candidates in Hrun.
  destruct (Planner._apply_regex_filter candidates s w3) as [[kept s1] w4|e w4] eqn:Hfilter.
  2: { injection Hrun as <-. apply apply_regex_filter_raised in Hfilter as (-> & c & ->).
       left. split; [exact H3|]. split; [discriminate|].
       intros ? ? [= <- _]. discriminate. }
  pose proof (apply_regex_filter_quiet _ _ _ _ _ _ Hfilter) as Hq.
  apply (apply_regex_filter_same_plan _ _ _ w) in Hfilter as (w4' & Hfilter).
  assert (H4 : nothing_fetched w w4) by (eapply nothing_fetched_trans; eassumption).
  apply interruptible_cases in Hrun as [[-> _]|(w5 & Hw5 & Hrun)].
  { ended ltac:(exact H4). }
  assert (H5 : nothing_fetched w w5) by (eapply nothing_fetched_trans; eassumption).
  destruct (terminate_requested w5) eqn:Hflag5.
  { injection Hrun as <-. ended ltac:(apply Hlog, H5). }
  destruct kept as [|k0 ks].
  { injection Hrun as <-. left. split; [apply Hlog, H5|]. split; [|discriminate].
    intros s' w' [= <- <-]. split; [exact Hflag5|]. exists w4'. exact Hfilter. }
  set (w6 := emit (EvPrint _) w5) in Hrun.
  assert (H6 : nothing_fetched w w6).
  { eapply nothing_fetched_trans; [exact H5|]. apply nothing_fetched_emit; reflexivity. }
  apply interruptible_cases in Hrun as [[-> _]|(w7 & Hw7 & Hrun)].
  { ended ltac:(exact H6). }
  assert (H7 : nothing_fetched w w7) by (eapply nothing_fetched_trans; eassumption).
  destruct (terminate_requested w7) eqn:Hflag7.
  { injection Hrun as <-. ended ltac:(apply Hlog, H7). }
  set (confirmation := input ses _) in Hrun.
  set (w8 := emit (EvInput ContinuePrompt confirmation) w7) in Hrun.
  apply interruptible_cases in Hrun as [[_ Hset]|(w9 & Hw9 & Hrun)].
  { cbn in Hset. congruence. }
  destruct H7 as (Hl7 & Hd7 & Hr7 & Hc7 & Hf7).
  destruct Hw9 as (Hl9 & Hd9 & Hr9 & Hc9 & Hf9).
  cbn [w8 emit local_dir download_dir trace terminate_requested requests_issued
       confirmations] in Hl9, Hd9, Hr9, Hc9, Hf9.
  destruct (String.eqb (Py.lower confirmation) "y") eqn:Hyes; cbn [negb] in Hrun.
  - right.
    destruct (FileSynchronizer._download_files ses depth (k0 :: ks) s1 w9)
      as [r|] eqn:Hfiles; [|discriminate].
    exists (k0 :: ks), s1, w4', w9, r.
    split; [exact Hfilter|]. split; [|split; [exact Hfiles|]].
    + repeat split; try congruence.
      * rewrite Hc9, Hc7. reflexivity.
      * auto.
    + destruct r as [[success s2] w10|e w10]; now injection Hrun as <-.
  - injection Hrun as <-. left. split; [|split; discriminate]. cbn [world_of].
    apply Hlog. repeat split; try congruence.
    + rewrite Hc9, Hc7. reflexivity.
    + auto.
Qed.

Lemma sublist_In {A} (l1 l2 : list A) x : sublist l1 l2 -> In x l1 -> In x l2.
Proof.
  induction 1 as [|y l1 l2 _ IH|y l1 l2 _ IH]; cbn; [auto| |]; intuition.
Qed.

Lemma sync_from_listing_keeps fe ext s w o :
  FileSynchronizer.sync_from_listing ses depth fe ext s w = Some o ->
  (nothing_fetched w (world_of o) \/
   confirmations (trace (world_of o)) = S (confirmations (trace w))) /\
  keeps_all_but (map FileInfo.name (candidates_of w ext (get_files ses ext)))
    w (world_of o).
Proof.
  intros Hrun. apply sync_from_listing_cases in Hrun
    as [[Hq _]|(kept & s1 & w4 & w9 & r & Hfilter & Hc & Hfiles & Ho)].
  { split; [now left|now apply nothing_fetched_keeps]. }
  apply download_loop_keeps in Hfiles as (Hk & Hconf).
  apply apply_regex_filter_returns in Hfilter as ((Hsub & _) & _).
  assert (world_of o = world_of r \/
          world_of o = emit (EvPrint FinalSummary) (world_of r)) as Hw.
  { destruct r as [[success s2] w10|e w10]; subst o; cbn; auto. }
  destruct Hc as (Hl9 & Hd9 & Hr9 & Hc9 & Hf9).
  assert (Hk9 : keeps_all_but
                  (map FileInfo.name (candidates_of w ext (get_files ses ext)))
                  w (world_of r)).
  { eapply keeps_all_but_trans with (w2 := w9).
    - split; [exact Hl9|]. split; [|exact Hf9]. intros other _. now rewrite Hd9.
    - eapply keeps_all_but_weaken; [|exact Hk].
      intros n (f & <- & Hin)%in_map_iff. apply in_map.
      eapply sublist_In; [exact Hsub|exact Hin]. }
  destruct Hw as [-> | ->].
  - split; [right; congruence|exact Hk9].
  - split; [right; cbn [emit trace confirmations]; congruence|].
    eapply keeps_all_but_trans; [exact Hk9|apply keeps_all_but_emit].
Qed.

Lemma sync_from_listing_success fe ext s w s' w' :
  downloaded_files s = [] -> failed_files s = [] ->
  FileSynchronizer.sync_from_listing ses depth fe ext s w
  = Some (Returned (true, s') w') ->
  failed_files s' = [] /\ terminate_requested w' = false /\
  Permutation (map FileInfo.name (candidates_of w ext (get_files ses ext)))
    (downloaded_files s' ++ filtered_files s').
Proof.
  intros Hnone Hnofail Hrun.
  apply sync_from_listing_cases in Hrun
    as [(_ & Hret & _)|(kept & s1 & w4 & w9 & r & Hfilter & Hc & Hfiles & Ho)].
  - destruct (Hret s' w' eq_refl) as (Hflag & w4 & Hfilter).
    apply apply_regex_filter_returns in Hfilter
      as ((_ & Hperm) & (Hd1 & Hf1 & _) & _).
    rewrite Hd1, Hf1, Hnone, Hnofail. auto.
  - apply apply_regex_filter_returns in Hfilter
      as ((_ & Hperm) & (Hd1 & Hf1 & _) & _).
    destruct r as [[success s2] w10|e w10]; [|discriminate].
    injection Ho as Hb -> ->. symmetry in Hb.
    apply andb_true_iff in Hb as [-> Hflag%negb_true_iff].
    apply download_files_books in Hfiles
      as (results & rest & Hnames & Hok & Hfail & Hfilt & _ & Hiff).
    destruct Hiff as [Hall _]. specialize (Hall eq_refl).
    assert (Hnofailed : names_with false results = []).
    { apply names_with_all. rewrite Hall, Hnames, length_app, !length_map.
      assert (length rest = 0%nat) as ->; [|lia].
      apply (f_equal (@length string)) in Hall.
      rewrite Hnames, length_app in Hall.
      assert (length (names_with true results) <= length results)%nat.
      { unfold names_with. rewrite length_map. apply filter_length_le. }
      rewrite length_map in Hall. lia. }
    rewrite Hfail, Hok, Hfilt, Hnofailed, Hall, Hd1, Hf1, Hnone, Hnofail.
    cbn [app emit terminate_requested]. auto.
Qed.

Lemma sync_cases ext s w o :
  FileSynchronizer.sync ses depth ext s w = Some o ->
  (get_fallback (enabled (config s)) false = false /\
   exists w2, nothing_fetched w w2 /\ o = Returned (true, reset_state s) w2) \/
  (exists fe s0 w0,
     nothing_fetched w w0 /\ downloaded_files s0 = [] /\ failed_files s0 = [] /\
     FileSynchronizer.sync_from_listing ses depth fe ext s0 w0 = Some o).
Proof.
  unfold FileSynchronizer.sync.
  change (config (reset_state s)) with (config s).
  destruct (get_fallback (enabled (config s)) false) eqn:Hen; cbn [negb].
  - intros Hrun. right. exists true, (reset_state s), w.
    split; [apply nothing_fetched_refl|auto].
  - set (w1 := emit (EvPrint FilteringDisabledBanner) w).
    set (user_response := input ses _).
    set (w2 := emit (EvInput EnableFilteringPrompt user_response) w1).
    assert (H2 : nothing_fetched w w2).
    { eapply nothing_fetched_trans; apply nothing_fetched_emit; reflexivity. }
    destruct (String.eqb (Py.lower user_response) "y").
    + intros Hrun. right.
      exists false, (enable_match_all (reset_state s)),
        (emit (EvPrint FilteringEnabledMatchAll) w2).
      split; [|auto].
      eapply nothing_fetched_trans; [exact H2|apply nothing_fetched_emit; reflexivity].
    + intros [= <-]. left. split; [reflexivity|].
      eexists. split; [|reflexivity].
      eapply nothing_fetched_trans; [exact H2|apply nothing_fetched_emit; reflexivity].
Qed.

(** X13. From the listing that [get_files] has returned on, a run sends
    no download request (the [EvRequest] events are the [session.get]
    calls of [Downloader]; the requests of [ServerParser] precede the
    listing and belong to its own model) and changes no file of either
    directory unless the operator has answered the question before the
    downloads with yes. *)
Theorem nothing_is_fetched_before_the_confirmation ext s w o :
  FileSynchronizer.sync ses depth ext s w = Some o ->
  nothing_fetched w (world_of o) \/
  confirmations (trace (world_of o)) = S (confirmations (trace w)).
Proof.
  intros [(_ & w2 & H2 & ->)|(fe & s0 & w0 & H0 & _ & _ & Hrun)]%sync_cases.
  { now left. }
  apply sync_from_listing_keeps in Hrun as [[Hq|Hc] _].
  - left. eapply nothing_fetched_trans; eassumption.
  - right. destruct H0 as (_ & _ & _ & <- & _). exact Hc.
Qed.

(** X14. When every listed name is a plain file name, so that
    [os.path.join(download_dir, name)] is the entry [name] of the
    download directory, a run changes no file of the download directory
    but the candidates of its listing and never withdraws a termination
    request. *)
Theorem sync_touches_only_its_candidates ext s w o :
  (forall f, In f (get_files ses ext) -> plain_name (FileInfo.name f) = true) ->
  FileSynchronizer.sync ses depth ext s w = Some o ->
  (forall n,
     download_dir (world_of o) !! n <> download_dir w !! n ->
     plain_name n = true /\
     In n (map FileInfo.name (candidates_of w ext (get_files ses ext)))) /\
  (terminate_requested w = true -> terminate_requested (world_of o) = true).
Proof.
  intros Hplain Hrun.
  assert (Hk : keeps_all_but (map FileInfo.name (candidates_of w ext (get_files ses ext)))
                 w (world_of o)).
  { apply sync_cases in Hrun as [(_ & w2 & H2 & ->)|(fe & s0 & w0 & H0 & _ & _ & Hrun)].
    { now apply nothing_fetched_keeps. }
    apply sync_from_listing_keeps in Hrun as [_ Hk].
    rewrite (candidates_of_same_directories w w0) in Hk
      by (destruct H0 as (? & ? & _); assumption).
    eapply keeps_all_but_trans; [apply nothing_fetched_keeps, H0|exact Hk]. }
  destruct Hk as (Hl & Hd & Hf). split; [|exact Hf].
  intros n Hn.
  destruct (in_dec string_dec n
              (map FileInfo.name (candidates_of w ext (get_files ses ext))))
    as [Hin|Hout].
  - split; [|exact Hin].
    apply in_map_iff in Hin as (f & <- & [Hf0 _]%filter_In). now apply Hplain.
  - exfalso. apply Hn, Hd, Hout.
Qed.

(** X15. A run that returns [True] either ended at the question about
    filtering, or has downloaded or filtered out every candidate, with
    no failure and no termination request. *)
Theorem successful_run_accounts_for_every_candidate ext s w s' w' :
  FileSynchronizer.sync ses depth ext s w = Some (Returned (true, s') w') ->
  (get_fallback (enabled (config s)) false = false /\ s' = reset_state s /\
   nothing_fetched w w') \/
  (failed_files s' = [] /\ terminate_requested w' = false /\
   Permutation (map FileInfo.name (candidates_of w ext (get_files ses ext)))
     (downloaded_files s' ++ filtered_files s')).
Proof.
  intros [(Hen & w2 & H2 & Ho)|(fe & s0 & w0 & H0 & Hd & Hf & Hrun)]%sync_cases.
  { injection Ho as <- <-. left. auto. }
  right. apply sync_from_listing_success in Hrun; [|assumption..].
  rewrite (candidates_of_same_directories w w0) in Hrun
    by (destruct H0 as (? & ? & _); assumption).
  exact Hrun.
Qed.



End RunCases.

(** * Properties of the listing *)

Section ListingFacts.
Variable web : ServerParser.site.
Variable _parse_size : string -> option Z.
Variable self : ServerParser.t.

Lemma listing_step_refl st : listing_step 0 st st.
Proof. repeat split; auto. Qed.

Lemma listing_step_trans n m st1 st2 st3 :
  listing_step n st1 st2 -> listing_step m st2 st3 -> listing_step (n + m) st1 st3.
Proof.
  intros (Hl1 & Hd1 & Hr1 & Hf1) (Hl2 & Hd2 & Hr2 & Hf2).
  repeat split; try congruence; [lia|auto].
Qed.

Lemma listing_step_note level n st : listing_step 0 st (ServerParser.take_note level n st).
Proof. repeat split; auto. Qed.

Lemma listing_step_interrupted st st' :
  ServerParser.interrupted st = Some st' -> listing_step 0 st st'.
Proof.
  unfold ServerParser.interrupted, signal_handler.
  destruct (terminate_requested (ServerParser.process st)); [discriminate|].
  intros [= <-]. repeat split; auto.
Qed.

Lemma rows_spec ext events files st r (Q : FileInfo.t -> Prop) :
  (forall f, In f files -> Q f) ->
  (forall filename date_cell size_cell size_bytes,
     Planner.extension_ok ext filename = true ->
     _parse_size (ServerParser.text size_cell) = Some size_bytes ->
     Q (FileInfo.mk filename (ServerParser.url self ++ filename) size_bytes
          (ServerParser.text date_cell))) ->
  ServerParser.rows _parse_size self ext events files st = r ->
  listing_step 0 st (ServerParser.state_of r) /\
  forall value st', r = ServerParser.Return value st' ->
                    exists files', value = Some files' /\ forall f, In f files' -> Q f.
Proof.
  intros Hfiles Hentry. revert files st Hfiles.
  induction events as [|ev rest IH]; intros files st Hfiles; cbn [ServerParser.rows].
  - intros <-. split; [apply listing_step_refl|].
    intros value st' [= <- <-]. eauto.
  - destruct ev as [cells|].
    + destruct (terminate_requested (ServerParser.process st)).
      { intros <-. split; [apply listing_step_note|].
        intros value st' [= <- <-]. eauto. }
      destruct cells as [|c0 [|name_cell [|date_cell [|size_cell more]]]];
        try (now apply IH).
      destruct (ServerParser.link name_cell) as [href|]; [|now apply IH].
      destruct (ServerParser.wanted ext href) as [[|]|] eqn:Hw.
      * unfold ServerParser.entry.
        destruct (_parse_size (ServerParser.text size_cell)) as [size_bytes|] eqn:Hs.
        -- destruct href as [filename|].
           ++ apply IH. intros f [Hf|[<-|[]]]%in_app_or; [auto|].
              apply (Hentry filename date_cell size_cell size_bytes); [|exact Hs].
              unfold ServerParser.wanted in Hw. unfold Planner.extension_ok.
              destruct (Py.truthy ext); [|reflexivity]. now injection Hw as ->.
           ++ intros <-. split; [apply listing_step_refl|discriminate].
        -- intros <-. split; [apply listing_step_refl|discriminate].
      * now apply IH.
      * intros <-. split; [apply listing_step_refl|discriminate].
    + destruct (ServerParser.interrupted st) as [st1|] eqn:Hi.
      * intros Hr. apply IH in Hr as [Hstep Hret]; [|exact Hfiles].
        split; [|exact Hret].
        apply (listing_step_trans 0 0 st st1); [now apply listing_step_interrupted|exact Hstep].
      * intros <-. split; [apply listing_step_refl|discriminate].
Qed.

Lemma attempts_loop_spec ext attempts st r (Q : FileInfo.t -> Prop) :
  (forall filename date_cell size_cell size_bytes,
     Planner.extension_ok ext filename = true ->
     _parse_size (ServerParser.text size_cell) = Some size_bytes ->
     Q (FileInfo.mk filename (ServerParser.url self ++ filename) size_bytes
          (ServerParser.text date_cell))) ->
  ServerParser.attempts_loop web _parse_size self ext attempts st = r ->
  (exists sent, (sent <= length attempts)%nat /\
                listing_step sent st (ServerParser.state_of r) /\
                (terminate_requested (ServerParser.process st) = true -> sent = 0%nat)) /\
  forall files st', r = ServerParser.Return (Some files) st' ->
                    forall f, In f files -> Q f.
Proof.
  intros Hentry. revert st r.
  induction attempts as [|attempt rest IH]; intros st r;
    cbn [ServerParser.attempts_loop].
  - intros <-. split; [|discriminate].
    exists 0%nat. split; [cbn; lia|]. split; [apply listing_step_refl|auto].
  - destruct (terminate_requested (ServerParser.process st)) eqn:Hflag.
    { intros <-. split.
      - exists 0%nat. split; [cbn; lia|]. split; [apply listing_step_note|auto].
      - intros files st' [= <- <-] f []. }
    set (ex := ServerParser.pages web _).
    set (st1 := ServerParser.mkState (emit _ _) _).
    assert (H1 : listing_step 1 st st1).
    { unfold st1. repeat split; cbn; auto. lia. }
    destruct (if ServerParser.interrupt_on_the_way ex then _ else _) as [st2|] eqn:Hi.
    2:{ intros <-. split; [|discriminate].
        exists 1%nat. split; [cbn; lia|]. split; [exact H1|discriminate]. }
    assert (H2 : listing_step 1 st st2).
    { destruct (ServerParser.interrupt_on_the_way ex).
      - apply (listing_step_trans 1 0 st st1); [exact H1|].
        now apply listing_step_interrupted.
      - now injection Hi as <-. }
    assert (Hone : forall r0,
               listing_step 0 st2 (ServerParser.state_of r0) ->
               exists sent, (sent <= length (attempt :: rest))%nat /\
                 listing_step sent st (ServerParser.state_of r0) /\
                 (false = true -> sent = 0%nat)).
    { intros r0 H0. exists 1%nat. split; [cbn; lia|]. split; [|discriminate].
      apply (listing_step_trans 1 0 st st2); assumption. }
    set (failed := if _ || _ then _ else _).
    assert (Hfailed : forall r0, failed = r0 ->
               (exists sent, (sent <= length (attempt :: rest))%nat /\
                  listing_step sent st (ServerParser.state_of r0) /\
                  (false = true -> sent = 0%nat)) /\
               forall files st', r0 = ServerParser.Return (Some files) st' ->
                                 forall f, In f files -> Q f).
    { unfold failed. intros r0.
      destruct (_ || _).
      { intros <-. split; [apply Hone, listing_step_note|].
        intros files st' [= <- <-] f []. }
      set (st3 := ServerParser.take_note INFO _ _).
      assert (H3 : listing_step 0 st2 st3) by (repeat split; auto).
      destruct (ServerParser.retry_delay self <? 0).
      { intros <-. split; [apply Hone, H3|discriminate]. }
      set (st4 := ServerParser.mkState (emit _ _) _).
      assert (H4 : listing_step 0 st2 st4) by (repeat split; auto).
      destruct (if ServerParser.interrupt_in_sleep web _ then _ else _) as [st5|] eqn:Hs.
      2:{ intros <-. split; [apply Hone, H4|discriminate]. }
      assert (H5 : listing_step 0 st2 st5).
      { destruct (ServerParser.interrupt_in_sleep web _).
        - apply (listing_step_trans 0 0 st2 st4); [exact H4|].
          now apply listing_step_interrupted.
        - now injection Hs as <-. }
      intros Hr. apply IH in Hr as [(sent & Hle & Hstep & _) Hret].
      split; [|exact Hret].
      exists (S sent). split; [cbn; lia|]. split; [|discriminate].
      apply (listing_step_trans 1 sent st st2); [exact H2|].
      apply (listing_step_trans 0 sent st2 st5); assumption. }
    destruct (ServerParser.page_answer ex) as [|p]; [apply Hfailed|].
    destruct (ServerParser.page_refused p); [apply Hfailed|].
    destruct (ServerParser.table p) as [events|].
    + intros Hr. apply (rows_spec _ _ _ _ _ Q) in Hr as [Hstep Hret];
        [|intros f []|exact Hentry].
      split; [now apply Hone|].
      intros files st' Heq. destruct (Hret _ _ Heq) as (files' & [= <-] & Hall).
      exact Hall.
    + intros <-. split; [apply Hone, listing_step_note|].
      intros files st' [= <- <-] f [].
Qed.

Lemma rows_returns_a_list ext events files st st' :
  ServerParser.rows _parse_size self ext events files st <> ServerParser.Return None st'.
Proof.
  intros Hr.
  apply (rows_spec _ _ _ _ _ (fun _ => True)) in Hr as [_ Hret]; [|auto..].
  destruct (Hret _ _ eq_refl) as (files' & Hnone & _). discriminate.
Qed.

Lemma attempts_loop_none ext attempts st st' :
  (attempts <> [] -> ServerParser.max_retries self - 1 <= List.last attempts 0) ->
  ServerParser.attempts_loop web _parse_size self ext attempts st
  = ServerParser.Return None st' ->
  attempts = [] /\ st' = st.
Proof.
  revert st. induction attempts as [|attempt rest IH]; intros st Hlast;
    cbn [ServerParser.attempts_loop].
  - intros [= <-]. auto.
  - destruct (terminate_requested (ServerParser.process st)); [discriminate|].
    set (ex := ServerParser.pages web _).
    destruct (if ServerParser.interrupt_on_the_way ex then _ else _) as [st2|];
      [|discriminate].
    set (failed := if _ || _ then _ else _).
    assert (Hfailed : failed <> ServerParser.Return None st').
    { unfold failed.
      destruct (terminate_requested (ServerParser.process st2)); [discriminate|].
      cbn [orb]. destruct (ServerParser.max_retries self - 1 <=? attempt) eqn:Hle;
        [discriminate|].
      destruct (ServerParser.retry_delay self <? 0); [discriminate|].
      destruct (if ServerParser.interrupt_in_sleep web _ then _ else _) as [st5|];
        [|discriminate].
      intros Hr. apply IH in Hr as [-> _].
      - cbn in Hlast. apply Z.leb_gt in Hle. specialize (Hlast ltac:(discriminate)). lia.
      - intros Hne. destruct rest as [|a rest']; [contradiction|].
        apply Hlast. discriminate. }
    destruct (ServerParser.page_answer ex) as [|p]; [intros H; now apply Hfailed in H|].
    destruct (ServerParser.page_refused p); [intros H; now apply Hfailed in H|].
    destruct (ServerParser.table p) as [events|]; [|discriminate].
    intros H. now apply rows_returns_a_list in H.
Qed.

Lemma last_range n : 0 < n -> List.last (Py.range n) 0 = n - 1.
Proof.
  intros Hn. unfold Py.range.
  replace (Z.to_nat n) with (S (Z.to_nat (n - 1))) by lia.
  rewrite seq_S, map_app. cbn [map]. rewrite last_last. lia.
Qed.

Lemma range_nil n : Py.range n = [] <-> n <= 0.
Proof.
  unfold Py.range. split.
  - intros H. apply (f_equal (@length Z)) in H.
    rewrite length_map, length_seq in H. cbn in H. lia.
  - intros H. replace (Z.to_nat n) with 0%nat by lia. reflexivity.
Qed.

(** X17. Every file that [get_files] lists passes the extension filter,
    has the url of the server followed by its name, and a size that
    [_parse_size] gave. *)
Theorem listed_files_pass_the_extension_filter ext st files st' :
  ServerParser.get_files web _parse_size self ext st
  = ServerParser.Return (Some files) st' ->
  forall f, In f files ->
    Planner.extension_ok ext (FileInfo.name f) = true /\
    FileInfo.url f = ServerParser.url self ++ FileInfo.name f /\
    exists size_text, _parse_size size_text = Some (FileInfo.size f).
Proof.
  intros Hr.
  apply (attempts_loop_spec _ _ _ _
           (fun f => Planner.extension_ok ext (FileInfo.name f) = true /\
                     FileInfo.url f = ServerParser.url self ++ FileInfo.name f /\
                     exists size_text, _parse_size size_text = Some (FileInfo.size f)))
    in Hr as [_ Hret].
  - exact (Hret files st' eq_refl).
  - intros filename date_cell size_cell size_bytes Hext Hsize. cbn. eauto.
Qed.

(** X18. [get_files] sends at most [max_retries] requests, none when
    termination was requested before, and touches no file. *)
Theorem listing_sends_a_bounded_number_of_requests ext st :
  let st' := ServerParser.state_of (ServerParser.get_files web _parse_size self ext st) in
  exists sent,
    (sent <= Z.to_nat (ServerParser.max_retries self))%nat /\
    listing_step sent st st' /\
    (terminate_requested (ServerParser.process st) = true -> sent = 0%nat).
Proof.
  cbv zeta.
  destruct (attempts_loop_spec ext (Py.range (ServerParser.max_retries self)) st _
              (fun _ => True) (fun _ _ _ _ _ _ => I) eq_refl)
    as [(sent & Hle & Hstep & Hflag) _].
  exists sent. rewrite length_range in Hle. auto.
Qed.

(** X19. [get_files] returns [None] instead of a list exactly when
    [max_retries] is not positive. *)
Theorem get_files_returns_none_only_without_attempts ext st st' :
  ServerParser.get_files web _parse_size self ext st = ServerParser.Return None st'
  <-> ServerParser.max_retries self <= 0 /\ st' = st.
Proof.
  unfold ServerParser.get_files. split.
  - intros Hr. apply attempts_loop_none in Hr as [Hnil ->].
    + split; [now apply range_nil|reflexivity].
    + intros Hne. rewrite last_range; [lia|].
      destruct (Z.lt_ge_cases 0 (ServerParser.max_retries self)) as [|Hle]; [assumption|].
      exfalso. apply Hne, range_nil. lia.
  - intros [Hle ->]. apply range_nil in Hle. rewrite Hle. reflexivity.
Qed.

End ListingFacts.

(** * Further instances *)

Lemma download_touches_its_own_file_only_witness :
  plain_name "ten.laz" = true /\
  exists o,
    Downloader.download Examples.breaks_once (Examples.settings ".*" 3) 2
      Examples.ten Examples.w_four = Some o /\
    (forall other, other <> "ten.laz" ->
                   download_dir (world_of o) !! other
                   = download_dir Examples.w_four !! other) /\
    (terminate_requested Examples.w_four = true ->
     terminate_requested (world_of o) = true).
Proof.
  assert (Hplain : plain_name (FileInfo.name Examples.ten) = true) by reflexivity.
  assert (Hrun : exists o,
             Downloader.download Examples.breaks_once (Examples.settings ".*" 3) 2
               Examples.ten Examples.w_four = Some o)
    by (vm_compute; eexists; reflexivity).
  split; [exact Hplain|]. destruct Hrun as [o Hrun]. exists o. split; [exact Hrun|].
  exact (download_touches_its_own_file_only Examples.breaks_once
           (Examples.settings ".*" 3) Examples.ten 2 Examples.w_four o Hplain Hrun).
Defined.

Lemma resumed_fetch_only_appends_witness :
  0 < 4 /\
  exists o,
    Downloader._download_with_retries Examples.breaks_once (Examples.settings ".*" 3) 2
      Examples.ten 4 Examples.w_four = Some o /\
    ((restarts (trace (world_of o)) = restarts (trace Examples.w_four) /\
      exists more,
        content_of "ten.laz" (world_of o)
        = (content_of "ten.laz" Examples.w_four ++ more)%list) \/
     restarts (trace (world_of o)) = S (restarts (trace Examples.w_four))).
Proof.
  assert (H1 : 0 < 4) by lia.
  assert (Hrun : exists o,
             Downloader._download_with_retries Examples.breaks_once
               (Examples.settings ".*" 3) 2 Examples.ten 4 Examples.w_four = Some o)
    by (vm_compute; eexists; reflexivity).
  split; [exact H1|]. destruct Hrun as [o Hrun]. exists o. split; [exact Hrun|].
  exact (resumed_fetch_only_appends Examples.breaks_once (Examples.settings ".*" 3)
           Examples.ten 2 4 Examples.w_four o H1 Hrun).
Defined.

Lemma fetch_sends_a_bounded_number_of_requests_witness :
  exists o,
    Downloader._download_with_retries Examples.ignores_range (Examples.settings ".*" 3) 2
      Examples.ten 4 Examples.w_four = Some o /\
    (requests_issued (trace (world_of o))
     <= requests_issued (trace Examples.w_four) + 2 * Z.to_nat 3)%nat.
Proof.
  assert (Hrun : exists o,
             Downloader._download_with_retries Examples.ignores_range
               (Examples.settings ".*" 3) 2 Examples.ten 4 Examples.w_four = Some o)
    by (vm_compute; eexists; reflexivity).
  destruct Hrun as [o Hrun]. exists o. split; [exact Hrun|].
  exact (proj1 (fetch_sends_a_bounded_number_of_requests Examples.ignores_range
                  (Examples.settings ".*" 3) Examples.ten 2 4 Examples.w_four o Hrun)).
Defined.

Lemma uninterrupted_answer_is_stored_witness :
  let r := Examples.whole_content
             [Chunk (firstn 5 Examples.remote_data); Chunk (skipn 5 Examples.remote_data)]
             EndOfBody in
  let w3 := sent Examples.ten 0 Examples.w_empty in
  terminate_requested Examples.w_empty = false /\
  Downloader.requests_get Examples.ignores_range Examples.ten 0 Examples.w_empty
  = inl (Response r, w3) /\
  uninterrupted (body r) = true /\
  Downloader.expected_total_size r 0 <= Py.len [] + body_bytes (body r) /\
  exists w',
    Downloader.retry_loop Examples.ignores_range (Examples.settings ".*" 3)
      (fun _ => None) Examples.ten 0 [0; 1; 2] 0 Examples.w_empty
    = Some (Returned (true, 10) w') /\
    content_of "ten.laz" w' = Examples.remote_data /\
    terminate_requested w' = false.
Proof.
  intros r w3.
  assert (H1 : terminate_requested Examples.w_empty = false) by reflexivity.
  assert (H2 : Downloader.requests_get Examples.ignores_range Examples.ten 0
                 Examples.w_empty = inl (Response r, w3)) by reflexivity.
  assert (H3 : terminate_requested w3 = false) by reflexivity.
  assert (H4 : Downloader.range_refused 0 r = false) by reflexivity.
  assert (H5 : Downloader.raise_for_status r = false) by reflexivity.
  assert (H6 : uninterrupted (body r) = true) by reflexivity.
  assert (H7 : body_ending r = EndOfBody) by reflexivity.
  assert (H8 : Downloader.expected_total_size r 0 <= Py.len [] + body_bytes (body r))
    by (vm_compute; discriminate).
  split; [exact H1|]. split; [exact H2|]. split; [exact H6|]. split; [exact H8|].
  exact (uninterrupted_answer_is_stored Examples.ignores_range (Examples.settings ".*" 3)
           Examples.ten (fun _ => None) 0 0 [1; 2] 0 Examples.w_empty r w3
           H1 H2 H3 H4 H5 H6 H7 (or_intror H8)).
Defined.

Lemma interrupted_body_keeps_what_was_written_witness :
  let pre := [Chunk (firstn 4 Examples.remote_data)] in
  let r := Examples.whole_content
             (pre ++ [Interrupt; Chunk (skipn 4 Examples.remote_data)])%list EndOfBody in
  let w3 := sent Examples.ten 0 Examples.w_empty in
  terminate_requested Examples.w_empty = false /\
  Downloader.requests_get Cases.interrupted_midway Examples.ten 0 Examples.w_empty
  = inl (Response r, w3) /\
  uninterrupted pre = true /\
  exists w',
    Downloader.retry_loop Cases.interrupted_midway (Examples.settings ".*" 3)
      (fun _ => None) Examples.ten 0 [0; 1; 2] 0 Examples.w_empty
    = Some (Returned (false, 4) w') /\
    content_of "ten.laz" w' = firstn 4 Examples.remote_data /\
    terminate_requested w' = true.
Proof.
  intros pre r w3.
  assert (H1 : terminate_requested Examples.w_empty = false) by reflexivity.
  assert (H2 : Downloader.requests_get Cases.interrupted_midway Examples.ten 0
                 Examples.w_empty = inl (Response r, w3)) by reflexivity.
  assert (H3 : terminate_requested w3 = false) by reflexivity.
  assert (H4 : Downloader.range_refused 0 r = false) by reflexivity.
  assert (H5 : Downloader.raise_for_status r = false) by reflexivity.
  assert (H6 : body r = (pre ++ Interrupt :: Chunk (skipn 4 Examples.remote_data) :: [])%list)
    by reflexivity.
  assert (H7 : uninterrupted pre = true) by reflexivity.
  split; [exact H1|]. split; [exact H2|]. split; [exact H7|].
  exact (interrupted_body_keeps_what_was_written Cases.interrupted_midway
           (Examples.settings ".*" 3) Examples.ten (fun _ => None) 0 0 [1; 2] 0
           Examples.w_empty r w3 pre (skipn 4 Examples.remote_data) []
           H1 H2 H3 H4 H5 H6 H7).
Defined.

Lemma success_means_the_announced_size_is_on_disk_witness :
  exists n w',
    Downloader.download Examples.ignores_range (Examples.settings ".*" 3) 2
      Examples.ten Examples.w_empty = Some (Returned (true, n) w') /\
    (complete_answer Examples.ignores_range Examples.ten
       (Downloader.downloaded_size "ten.laz" Examples.w_empty) Examples.w_empty w' \/
     complete_answer Examples.ignores_range Examples.ten 0 Examples.w_empty w').
Proof.
  assert (Hrun : exists n w',
             Downloader.download Examples.ignores_range (Examples.settings ".*" 3) 2
               Examples.ten Examples.w_empty = Some (Returned (true, n) w'))
    by (vm_compute; do 2 eexists; reflexivity).
  destruct Hrun as (n & w' & Hrun). exists n, w'. split; [exact Hrun|].
  exact (success_means_the_announced_size_is_on_disk Examples.ignores_range
           (Examples.settings ".*" 3) Examples.ten 2 Examples.w_empty n w' Hrun).
Defined.


Lemma local_files_are_both_directories_filtered_witness :
  "a.laz" ∈ _get_local_files Examples.w_scenario ".laz".
Proof.
  apply (local_files_are_both_directories_filtered Examples.w_scenario ".laz" "a.laz").
  split.
  - right. vm_compute. eexists. reflexivity.
  - right. reflexivity.
Defined.


Lemma every_candidate_is_kept_or_filtered_out_witness :
  exists kept s' w',
    @_apply_regex_filter PyRe.engine [Examples.a_laz; Examples.b_laz]
      (Examples.settings "b" 3) Examples.w_scenario = Returned (kept, s') w' /\
    sublist kept [Examples.a_laz; Examples.b_laz] /\
    Permutation (map FileInfo.name [Examples.a_laz; Examples.b_laz])
      (map FileInfo.name kept ++ filtered_files s') /\
    local_dir w' = local_dir Examples.w_scenario /\
    download_dir w' = download_dir Examples.w_scenario.
Proof.
  assert (Hrun : exists kept s' w',
             @_apply_regex_filter PyRe.engine [Examples.a_laz; Examples.b_laz]
               (Examples.settings "b" 3) Examples.w_scenario = Returned (kept, s') w')
    by (vm_compute; do 3 eexists; reflexivity).
  destruct Hrun as (kept & s' & w' & Hrun). exists kept, s', w'. split; [exact Hrun|].
  destruct (@every_candidate_is_kept_or_filtered_out PyRe.engine
              [Examples.a_laz; Examples.b_laz] (Examples.settings "b" 3)
              Examples.w_scenario kept s' w' Hrun)
    as (Hsub & Hperm & _ & _ & _ & _ & Hl & Hd & _).
  split; [exact Hsub|]. split; [exact Hperm|]. split; [exact Hl|exact Hd].
Defined.

Lemma download_size_estimate_bounds_witness :
  let files := [Examples.a_laz; Examples.b_laz] in
  let partial_downloads := _identify_partial_downloads Examples.w_scenario files in
  NoDup (map FileInfo.name files) /\
  (forall f, In f files -> 0 <= FileInfo.size f) /\
  0 <= _calculate_download_size files partial_downloads <= sum_of_sizes files.
Proof.
  intros files partial_downloads.
  assert (H1 : NoDup (map FileInfo.name files)).
  { apply NoDup_cons. split; [|apply NoDup_singleton].
    intros H%list_elem_of_In. destruct H as [H|[]]. discriminate H. }
  assert (H2 : forall f, In f files -> In f files) by auto.
  assert (H3 : forall f, In f files -> 0 <= FileInfo.size f).
  { intros f [<-|[<-|[]]]; vm_compute; discriminate. }
  split; [exact H1|]. split; [exact H3|].
  exact (proj2 (proj2 (download_size_estimate_bounds Examples.w_scenario files files
                         H1 H2)) H3).
Defined.

Lemma download_files_bookkeeping_witness :
  exists b s' w',
    FileSynchronizer._download_files Cases.confirming 2 [Examples.ten]
      (Examples.settings ".*" 3) Examples.w_empty = Some (Returned (b, s') w') /\
    exists results rest,
      map FileInfo.name [Examples.ten] = (map fst results ++ rest)%list /\
      downloaded_files s' = names_with true results /\
      failed_files s' = names_with false results.
Proof.
  assert (Hrun : exists b s' w',
             FileSynchronizer._download_files Cases.confirming 2 [Examples.ten]
               (Examples.settings ".*" 3) Examples.w_empty = Some (Returned (b, s') w'))
    by (vm_compute; do 3 eexists; reflexivity).
  destruct Hrun as (b & s' & w' & Hrun). exists b, s', w'. split; [exact Hrun|].
  destruct (download_files_bookkeeping Cases.confirming 2 [Examples.ten]
              (Examples.settings ".*" 3) Examples.w_empty b s' w' Hrun)
    as (results & rest & Hnames & Hok & Hfail & _).
  exists results, rest. split; [exact Hnames|]. split; [exact Hok|exact Hfail].
Defined.

Lemma nothing_is_fetched_before_the_confirmation_witness :
  exists o,
    @FileSynchronizer.sync PyRe.engine Examples.declining 2 "" (Examples.settings ".*" 3)
      Examples.w_scenario = Some o /\
    (nothing_fetched Examples.w_scenario (world_of o) \/
     confirmations (trace (world_of o)) = S (confirmations (trace Examples.w_scenario))).
Proof.
  assert (Hrun : exists o,
             @FileSynchronizer.sync PyRe.engine Examples.declining 2 ""
               (Examples.settings ".*" 3) Examples.w_scenario = Some o)
    by (vm_compute; eexists; reflexivity).
  destruct Hrun as [o Hrun]. exists o. split; [exact Hrun|].
  exact (@nothing_is_fetched_before_the_confirmation PyRe.engine Examples.declining 2 ""
           (Examples.settings ".*" 3) Examples.w_scenario o Hrun).
Defined.

Lemma sync_touches_only_its_candidates_witness :
  (forall f, In f (get_files Cases.confirming "") ->
             plain_name (FileInfo.name f) = true) /\
  exists o,
    @FileSynchronizer.sync PyRe.engine Cases.confirming 2 "" (Examples.settings ".*" 3)
      Examples.w_empty = Some o /\
    (forall n,
       download_dir (world_of o) !! n <> download_dir Examples.w_empty !! n ->
       plain_name n = true /\
       In n (map FileInfo.name (candidates_of Examples.w_empty "" [Examples.ten]))).
Proof.
  assert (Hplain : forall f, In f (get_files Cases.confirming "") ->
                             plain_name (FileInfo.name f) = true).
  { intros f [<-|[]]. reflexivity. }
  assert (Hrun : exists o,
             @FileSynchronizer.sync PyRe.engine Cases.confirming 2 ""
               (Examples.settings ".*" 3) Examples.w_empty = Some o)
    by (vm_compute; eexists; reflexivity).
  split; [exact Hplain|]. destruct Hrun as [o Hrun]. exists o. split; [exact Hrun|].
  exact (proj1 (@sync_touches_only_its_candidates PyRe.engine Cases.confirming 2 ""
                  (Examples.settings ".*" 3) Examples.w_empty o Hplain Hrun)).
Defined.

Lemma successful_run_accounts_for_every_candidate_witness :
  exists s' w',
    @FileSynchronizer.sync PyRe.engine Cases.confirming 2 "" (Examples.settings ".*" 3)
      Examples.w_empty = Some (Returned (true, s') w') /\
    ((get_fallback (enabled (config (Examples.settings ".*" 3))) false = false /\
      s' = reset_state (Examples.settings ".*" 3) /\
      nothing_fetched Examples.w_empty w') \/
     (failed_files s' = [] /\ terminate_requested w' = false /\
      Permutation (map FileInfo.name (candidates_of Examples.w_empty "" [Examples.ten]))
        (downloaded_files s' ++ filtered_files s'))).
Proof.
  assert (Hrun : exists s' w',
             @FileSynchronizer.sync PyRe.engine Cases.confirming 2 ""
               (Examples.settings ".*" 3) Examples.w_empty
             = Some (Returned (true, s') w'))
    by (vm_compute; do 2 eexists; reflexivity).
  destruct Hrun as (s' & w' & Hrun). exists s', w'. split; [exact Hrun|].
  exact (@successful_run_accounts_for_every_candidate PyRe.engine Cases.confirming 2 ""
           (Examples.settings ".*" 3) Examples.w_empty s' w' Hrun).
Defined.


Lemma listed_files_pass_the_extension_filter_witness :
  exists files st',
    ServerParser.get_files Cases.listing_site Cases.plain_size Cases.parser ".laz"
      Cases.idle = ServerParser.Return (Some files) st' /\
    forall f, In f files ->
      Planner.extension_ok ".laz" (FileInfo.name f) = true /\
      FileInfo.url f = "http://host/" ++ FileInfo.name f.
Proof.
  assert (Hrun : exists files st',
             ServerParser.get_files Cases.listing_site Cases.plain_size Cases.parser
               ".laz" Cases.idle = ServerParser.Return (Some files) st')
    by (vm_compute; do 2 eexists; reflexivity).
  destruct Hrun as (files & st' & Hrun). exists files, st'. split; [exact Hrun|].
  intros f Hf.
  destruct (listed_files_pass_the_extension_filter Cases.listing_site Cases.plain_size
              Cases.parser ".laz" Cases.idle files st' Hrun f Hf) as (Hext & Hurl & _).
  split; [exact Hext|exact Hurl].
Defined.

Lemma listing_sends_a_bounded_number_of_requests_witness :
  exists sent,
    (sent <= 3)%nat /\
    listing_step sent Cases.idle
      (ServerParser.state_of
         (ServerParser.get_files Cases.listing_site Cases.plain_size Cases.parser ".laz"
            Cases.idle)).
Proof.
  destruct (listing_sends_a_bounded_number_of_requests Cases.listing_site
              Cases.plain_size Cases.parser ".laz" Cases.idle)
    as (sent & Hle & Hstep & _).
  exists sent. split; [exact Hle|exact Hstep].
Defined.

Lemma get_files_returns_none_only_without_attempts_witness :
  ServerParser.get_files Cases.listing_site Cases.plain_size
    (ServerParser.mk "http://host/" "user" "secret" 0 5) ".laz" Cases.idle
  = ServerParser.Return None Cases.idle.
Proof.
  apply (get_files_returns_none_only_without_attempts Cases.listing_site
           Cases.plain_size (ServerParser.mk "http://host/" "user" "secret" 0 5)
           ".laz" Cases.idle Cases.idle).
  split; [vm_compute; discriminate|reflexivity].
Defined.
